(** * GrapesPoker: the join and aggregation engine of the league dashboard

    A shallow embedding of the TypeScript sources
    - [src/types/api.ts]: the record shapes,
    - [services/api.ts]: [PokerLeagueAPI], the wrapper of the record source,
    - [components/Leaderboard.tsx]: [loadLeaderboard], [getSortedLeaderboard],
    - [components/PlayerDetailModal.tsx]: [loadPlayerHistory],
    - [components/GameResultsModal.tsx]: [loadGameResults],
    followed by the properties of the specification that concern them.

    Conventions of the embedding.
    - A JavaScript [number] is an integer of [Z]; the only quotient the code
      takes ([averagePoints]) is an exact rational of [Q].  [NaN] only arises
      from [Date] parsing and is modelled there as [None].
    - An optional field [f?: T] is an [option T]; [None] is [undefined].
    - A [Map] is a [gmap]; [forEach (x => m.set (k x, v x))] is a left fold of
      inserts, so the last record seen for a key wins.
    - React state is a record; an [async] loader is a function from the
      fetched collections and the previous state to the next state.
    - [console] output is not modelled. *)

From Stdlib Require Import ZArith QArith List Permutation Sorted Ascii String.
From stdpp Require Import base option list gmap strings pretty.

Local Open Scope string_scope.
Local Open Scope Z_scope.

(** ** JavaScript primitives used by the sources *)

Module JS.

(** Truthiness of a number: every integer but [0]. *)
Definition truthy (n : Z) : bool := negb (n =? 0).

(** Truthiness of a possibly-undefined number. *)
Definition truthy_opt (v : option Z) : bool :=
  match v with
  | Some n => truthy n
  | None => false
  end.

(** Truthiness of a string: every string but the empty one. *)
Definition truthy_str (s : string) : bool :=
  match s with
  | EmptyString => false
  | String _ _ => true
  end.

(** Truthiness of a possibly-undefined string. *)
Definition truthy_ostr (v : option string) : bool :=
  match v with
  | Some s => truthy_str s
  | None => false
  end.

(** [v || d] on numbers. *)
Definition or_num (v : option Z) (d : Z) : Z :=
  match v with
  | Some n => if truthy n then n else d
  | None => d
  end.

(** [v || d] on strings. *)
Definition or_str (v : option string) (d : string) : string :=
  match v with
  | Some s => if truthy_str s then s else d
  | None => d
  end.

(** String conversion inside a template literal: the decimal digits of an
    integer, with a leading dash when negative (as [Number::toString] prints
    integers below 10^21), and the word [undefined]. *)
Definition toString (v : option Z) : string :=
  match v with
  | Some n => pretty n
  | None => "undefined"
  end.

(** [a === b] between an optional string field and a string. *)
Definition strict_eq (a : option string) (b : string) : bool :=
  match a with
  | Some s => bool_decide (s = b)
  | None => false
  end.

(** Subtraction of two numbers that may be [NaN]. *)
Definition sub (a b : option Z) : option Z :=
  match a, b with
  | Some x, Some y => Some (x - y)
  | _, _ => None
  end.

(** [SortCompare]: the comparator's result, with [NaN] read as [+0]. *)
Definition sortCompare {A : Type} (comparefn : A → A → option Z) (a b : A) : Z :=
  match comparefn a b with
  | Some v => v
  | None => 0
  end.

(** Insertion of [x], which preceded every element of [l] in the array,
    in front of the first element it does not compare greater than. *)
Fixpoint insert_sorted {A : Type} (c : A → A → Z) (x : A) (l : list A) : list A :=
  match l with
  | [] => [x]
  | y :: l' =>
      if decide (c x y ≤ 0) then x :: y :: l' else y :: insert_sorted c x l'
  end.

(** [Array.prototype.sort (comparefn)]: a stable comparison sort.  For a
    comparator that orders the elements by a key, every stable sort returns
    this list ([sorted_stable_unique] below). *)
Definition Array_sort {A : Type} (comparefn : A → A → option Z) (l : list A) : list A :=
  foldr (insert_sorted (sortCompare comparefn)) [] l.

(** [Array.prototype.reduce ((sum, r) => sum + f r, 0)]. *)
Definition reduce_sum {A : Type} (f : A → Z) (l : list A) : Z :=
  foldl (λ sum r, sum + f r) 0 l.

End JS.

(** ** Record shapes of [src/types/api.ts] *)

Module Tournament.
Record t := mk {
  id : string;
  orgId : string;
  name : string;
  startDate : string;
  pointsId : string
}.
End Tournament.

Module TournamentSchedule.
Record t := mk {
  id : string;
  tournamentId : option string;
  tournamnetId : option string;
  orgId : string;
  date : option string;
  time : option string;
  weekNum : option Z
}.
End TournamentSchedule.

Module LiveGame.
Record t := mk {
  id : string;
  tournamentId : string;
  scheduleId : option string;
  numOfPlayers : option Z;
  totalPot : option Z
}.
End LiveGame.

(** The interface declares [position?], but both resolvers read the row
  through [any] and take the finishing position from [placed]. *)
Module LivePlayer.
Record t := mk {
  id : string;
  tournamentId : string;
  liveGameId : string;
  playerId : string;
  placed : option Z
}.
End LivePlayer.

Module Player.
Record t := mk {
  id : string;
  orgId : string;
  firstName : string;
  lastName : string;
  nickname : option string
}.
End Player.

Module TournamentPlayer.
Record t := mk {
  id : string;
  tournamentId : string;
  playerId : string;
  totalPoints : option Z;
  gamesPlayed : option Z;
  totalEliminated : option Z;
  totalBounties : option Z;
  earnings : option Z
}.
End TournamentPlayer.

Module PointLevel.
Record t := mk {
  id : string;
  pointsId : string;
  levelNum : Z;
  amount : Z;
  orgId : string
}.
End PointLevel.

Module LivePrize.
Record t := mk {
  id : string;
  tournamentId : string;
  liveGameId : string;
  place : Z;
  amount : Z
}.
End LivePrize.

Inductive LeaderboardView := points | winnings | knockouts | bounties.

Module LeaderboardEntry.
Record t := mk {
  id : string;
  tournamentId : string;
  playerId : string;
  rank : Z;
  averagePoints : Q;
  totalPoints : Z;
  gamesPlayed : Z;
  totalWinnings : Z;
  totalKnockouts : Z;
  totalBounties : Z;
  player : Player.t
}.
End LeaderboardEntry.

Module PlayerGameHistory.
Record t := mk {
  gameDate : string;
  gameNumber : option Z;
  position : option Z;
  points : option Z;
  prizeMoney : option Z
}.
End PlayerGameHistory.

(** The [GameResult] interface of GameResultsModal. *)
Module GameResult.
Record t := mk {
  position : Z;
  playerName : string;
  points : Z;
  prizeMoney : Z
}.
End GameResult.


(** ** The record source: [fetchAPI] and [PokerLeagueAPI] of [services/api.ts] *)

(** Query parameters of a request ([$filter], [$orderby]). *)
Definition Params : Type := list (string * string).

(** [fetchAPI<T> (endpoint, params)], one field per endpoint.  A failed
    request and a response without [records] both arrive as [[]]. *)
Module FetchAPI.
Record t := mk {
  tournament : Params → list Tournament.t;
  tournament_schedule : Params → list TournamentSchedule.t;
  live_game : Params → list LiveGame.t;
  live_players : Params → list LivePlayer.t;
  player : Params → list Player.t;
  tournament_players : Params → list TournamentPlayer.t;
  point_level : Params → list PointLevel.t;
  live_prizes : Params → list LivePrize.t
}.
End FetchAPI.

Module PokerLeagueAPI.
Section PokerLeagueAPI.
Variable ORG_ID : string.
Variable fetchAPI : FetchAPI.t.

Definition getTournaments : list Tournament.t :=
  let tournaments :=
    FetchAPI.tournament fetchAPI
      [("$filter", "orgId eq '" +:+ ORG_ID +:+ "'");
       ("$orderby", "active desc, startDate desc")] in
  filter (λ t, Tournament.orgId t = ORG_ID) tournaments.

Definition getTournamentSchedule (tournamentId : string) : list TournamentSchedule.t :=
  let schedules :=
    FetchAPI.tournament_schedule fetchAPI
      [("$filter", "orgId eq '" +:+ ORG_ID +:+ "' and tournamnetId eq '"
                   +:+ tournamentId +:+ "'")] in
  filter (λ s, JS.strict_eq (TournamentSchedule.tournamnetId s) tournamentId
               || JS.strict_eq (TournamentSchedule.tournamentId s) tournamentId)
         schedules.

Definition getLiveGames (tournamentId : string) : list LiveGame.t :=
  FetchAPI.live_game fetchAPI
    [("$filter", "tournamentId eq '" +:+ tournamentId +:+ "'");
     ("$orderby", "gameDate desc")].

Definition getLivePlayers (tournamentId : string) : list LivePlayer.t :=
  FetchAPI.live_players fetchAPI
    [("$filter", "tournamentId eq '" +:+ tournamentId +:+ "'")].

Definition getPlayers : list Player.t :=
  FetchAPI.player fetchAPI
    [("$filter", "orgId eq '" +:+ ORG_ID +:+ "'");
     ("$orderby", "lastName asc, firstName asc")].

Definition getTournamentPlayers (tournamentId : string) : list TournamentPlayer.t :=
  FetchAPI.tournament_players fetchAPI
    [("$filter", "tournamentId eq '" +:+ tournamentId +:+ "'");
     ("$orderby", "totalPoints desc")].

Definition getPointLevels (pointsId : string) : list PointLevel.t :=
  FetchAPI.point_level fetchAPI
    [("$filter", "pointsId eq '" +:+ pointsId +:+ "'");
     ("$orderby", "levelNum asc")].

Definition getLivePrizes (tournamentId : string) : list LivePrize.t :=
  FetchAPI.live_prizes fetchAPI
    [("$filter", "tournamentId eq '" +:+ tournamentId +:+ "'")].

End PokerLeagueAPI.
End PokerLeagueAPI.

(** ** Lookup maps shared by the components *)

(** [pointLevels.forEach (level => pointLevelMap.set (level.levelNum, level.amount))] *)
Definition pointLevelMap (pointLevels : list PointLevel.t) : gmap Z Z :=
  foldl (λ m level, <[PointLevel.levelNum level := PointLevel.amount level]> m)
        ∅ pointLevels.

(** [allPlayers.forEach (p => playerMap.set (p.id, p))] *)
Definition playerMap (allPlayers : list Player.t) : gmap string Player.t :=
  foldl (λ m p, <[Player.id p := p]> m) ∅ allPlayers.

(** [liveGames.forEach (game => gameMap.set (game.id, game))] *)
Definition gameMap (liveGames : list LiveGame.t) : gmap string LiveGame.t :=
  foldl (λ m game, <[LiveGame.id game := game]> m) ∅ liveGames.

(** [schedules.forEach (s => scheduleMap.set (s.id, s))] *)
Definition scheduleMap (schedules : list TournamentSchedule.t)
  : gmap string TournamentSchedule.t :=
  foldl (λ m s, <[TournamentSchedule.id s := s]> m) ∅ schedules.

(** The template literal [`${liveGameId}_${place}`]. *)
Definition prizeKey (liveGameId : string) (place : option Z) : string :=
  liveGameId +:+ "_" +:+ JS.toString place.

(** [livePrizes.forEach (prize => prizeMap.set (key prize, prize.amount))] *)
Definition prizeMap (livePrizes : list LivePrize.t) : gmap string Z :=
  foldl (λ m prize,
           <[prizeKey (LivePrize.liveGameId prize) (Some (LivePrize.place prize))
             := LivePrize.amount prize]> m)
        ∅ livePrizes.

(** [position ? pointLevelMap.get (position) || 0 : 0] *)
Definition calculatedPoints (levels : gmap Z Z) (position : option Z) : Z :=
  if JS.truthy_opt position
  then JS.or_num (position ≫= λ p, levels !! p) 0
  else 0.

(** ** [components/Leaderboard.tsx] *)

Module Leaderboard.

Record State := mkState {
  view : LeaderboardView;
  leaderboard : list LeaderboardEntry.t;
  players : gmap string Player.t;
  selectedPlayer : option LeaderboardEntry.t;
  loading : bool
}.

Definition initialState : State :=
  mkState points [] ∅ None true.

Definition setView (v : LeaderboardView) (st : State) : State :=
  mkState v (leaderboard st) (players st) (selectedPlayer st) (loading st).

Definition setLeaderboard (l : list LeaderboardEntry.t) (st : State) : State :=
  mkState (view st) l (players st) (selectedPlayer st) (loading st).

Definition setPlayers (m : gmap string Player.t) (st : State) : State :=
  mkState (view st) (leaderboard st) m (selectedPlayer st) (loading st).

Definition setLoading (b : bool) (st : State) : State :=
  mkState (view st) (leaderboard st) (players st) (selectedPlayer st) b.

(** The [averagePoints] field of an entry:
    [(tp.gamesPlayed && tp.totalPoints && tp.gamesPlayed > 0)
       ? tp.totalPoints / tp.gamesPlayed : 0]. *)
Definition averagePointsOf (tp : TournamentPlayer.t) : Q :=
  match TournamentPlayer.gamesPlayed tp, TournamentPlayer.totalPoints tp with
  | Some g, Some p =>
      if JS.truthy g && JS.truthy p && (0 <? g)
      then (inject_Z p / inject_Z g)%Q
      else 0%Q
  | _, _ => 0%Q
  end.

(** The object literal built for one row of [tournamentPlayers.map]. *)
Definition entryOf (pm : gmap string Player.t) (index : nat) (tp : TournamentPlayer.t)
  : LeaderboardEntry.t :=
  LeaderboardEntry.mk
    (TournamentPlayer.id tp)
    (TournamentPlayer.tournamentId tp)
    (TournamentPlayer.playerId tp)
    (Z.of_nat index + 1)
    (averagePointsOf tp)
    (JS.or_num (TournamentPlayer.totalPoints tp) 0)
    (JS.or_num (TournamentPlayer.gamesPlayed tp) 0)
    (JS.or_num (TournamentPlayer.earnings tp) 0)
    (JS.or_num (TournamentPlayer.totalEliminated tp) 0)
    (JS.or_num (TournamentPlayer.totalBounties tp) 0)
    (default (Player.mk (TournamentPlayer.playerId tp) "" "Unknown" "Player" None)
             (pm !! TournamentPlayer.playerId tp)).

Section Component.
Variable ORG_ID : string.
Variable fetchAPI : FetchAPI.t.
Variable tournamentId : string.

Definition loadLeaderboard (st : State) : State :=
  let st := setLoading true st in
  let tournamentPlayers := PokerLeagueAPI.getTournamentPlayers fetchAPI tournamentId in
  let allPlayers := PokerLeagueAPI.getPlayers ORG_ID fetchAPI in
  let pm := playerMap allPlayers in
  let st := setPlayers pm st in
  let entries := imap (entryOf pm) tournamentPlayers in
  let st := setLeaderboard entries st in
  setLoading false st.

End Component.

(** [getSortedLeaderboard]: a sorted copy of the [leaderboard] state. *)
Definition getSortedLeaderboard (st : State) : list LeaderboardEntry.t :=
  let sorted := leaderboard st in
  match view st with
  | points =>
      JS.Array_sort
        (λ a b, Some (JS.or_num (Some (LeaderboardEntry.totalPoints b)) 0
                      - JS.or_num (Some (LeaderboardEntry.totalPoints a)) 0))
        sorted
  | winnings =>
      JS.Array_sort
        (λ a b, Some (JS.or_num (Some (LeaderboardEntry.totalWinnings b)) 0
                      - JS.or_num (Some (LeaderboardEntry.totalWinnings a)) 0))
        sorted
  | knockouts =>
      JS.Array_sort
        (λ a b, Some (JS.or_num (Some (LeaderboardEntry.totalKnockouts b)) 0
                      - JS.or_num (Some (LeaderboardEntry.totalKnockouts a)) 0))
        sorted
  | bounties =>
      JS.Array_sort
        (λ a b, Some (JS.or_num (Some (LeaderboardEntry.totalBounties b)) 0
                      - JS.or_num (Some (LeaderboardEntry.totalBounties a)) 0))
        sorted
  end.

(** The rank cell and the entry of each table row:
    [sortedData.map ((entry, index) => <tr> <td>{index + 1}</td> ... </tr>)]. *)
Definition tableRows (st : State) : list (Z * LeaderboardEntry.t) :=
  imap (λ index entry, (Z.of_nat index + 1, entry)) (getSortedLeaderboard st).

End Leaderboard.

(** ** [components/PlayerDetailModal.tsx] *)

Module PlayerDetailModal.

Record State := mkState {
  gameHistory : list PlayerGameHistory.t;
  loading : bool
}.

Definition initialState : State := mkState [] true.

Definition setGameHistory (h : list PlayerGameHistory.t) (st : State) : State :=
  mkState h (loading st).

Definition setLoading (b : bool) (st : State) : State :=
  mkState (gameHistory st) b.

(** [game?.scheduleId ? scheduleMap.get (game.scheduleId) : null] *)
Definition scheduleOf (sm : gmap string TournamentSchedule.t) (game : option LiveGame.t)
  : option TournamentSchedule.t :=
  match game ≫= LiveGame.scheduleId with
  | Some sid => if JS.truthy_str sid then sm !! sid else None
  | None => None
  end.

(** The object literal built for one row of [playerGames.map]. *)
Definition historyEntry
    (gm : gmap string LiveGame.t) (sm : gmap string TournamentSchedule.t)
    (plm : gmap Z Z) (pzm : gmap string Z) (pg : LivePlayer.t)
  : PlayerGameHistory.t :=
  let game := gm !! LivePlayer.liveGameId pg in
  let schedule := scheduleOf sm game in
  let position := LivePlayer.placed pg in
  let calculated := calculatedPoints plm position in
  let prizeMoney := pzm !! prizeKey (LivePlayer.liveGameId pg) position in
  PlayerGameHistory.mk
    (JS.or_str (schedule ≫= TournamentSchedule.date) "")
    (schedule ≫= TournamentSchedule.weekNum)
    position
    (Some calculated)
    prizeMoney.

Section Component.
Variable ORG_ID : string.
Variable fetchAPI : FetchAPI.t.
(** [new Date (s).getTime ()]; [None] is the [NaN] of an invalid date. *)
Variable Date_getTime : string → option Z.
Variable player : LeaderboardEntry.t.
Variable tournamentId : string.

(** The comparator handed to [sort]. *)
Definition byDate (a b : PlayerGameHistory.t) : option Z :=
  JS.sub (Date_getTime (PlayerGameHistory.gameDate a))
         (Date_getTime (PlayerGameHistory.gameDate b)).

(** The [history] array: [playerGames.map (...).filter (...).sort (...)]. *)
Definition buildHistory
    (pointLevels : list PointLevel.t) (livePlayers : list LivePlayer.t)
    (liveGames : list LiveGame.t) (schedules : list TournamentSchedule.t)
    (livePrizes : list LivePrize.t) : list PlayerGameHistory.t :=
  let plm := pointLevelMap pointLevels in
  let playerGames :=
    filter (λ lp, LivePlayer.playerId lp = LeaderboardEntry.playerId player)
           livePlayers in
  let gm := gameMap liveGames in
  let sm := scheduleMap schedules in
  let pzm := prizeMap livePrizes in
  JS.Array_sort byDate
    (filter (λ h, JS.truthy_str (PlayerGameHistory.gameDate h))
            (historyEntry gm sm plm pzm <$> playerGames)).

(** [loadPlayerHistory]; a missing tournament throws, and the handler only
    logs, so the history of the previous load stays. *)
Definition loadPlayerHistory (st : State) : State :=
  let st := setLoading true st in
  let tournaments := PokerLeagueAPI.getTournaments ORG_ID fetchAPI in
  let livePlayers := PokerLeagueAPI.getLivePlayers fetchAPI tournamentId in
  let liveGames := PokerLeagueAPI.getLiveGames fetchAPI tournamentId in
  let schedules := PokerLeagueAPI.getTournamentSchedule ORG_ID fetchAPI tournamentId in
  let livePrizes := PokerLeagueAPI.getLivePrizes fetchAPI tournamentId in
  match List.find (λ t, bool_decide (Tournament.id t = tournamentId)) tournaments with
  | None => setLoading false st
  | Some tournament =>
      let pointLevels :=
        if JS.truthy_str (Tournament.pointsId tournament)
        then PokerLeagueAPI.getPointLevels fetchAPI (Tournament.pointsId tournament)
        else [] in
      let history :=
        buildHistory pointLevels livePlayers liveGames schedules livePrizes in
      setLoading false (setGameHistory history st)
  end.

End Component.
End PlayerDetailModal.

(** ** [components/GameResultsModal.tsx] *)

Module GameResultsModal.

Record State := mkState {
  results : list GameResult.t;
  loading : bool;
  totalPlayers : Z;
  totalPrizePool : Z
}.

Definition initialState : State := mkState [] true 0 0.

Definition setResults (r : list GameResult.t) (st : State) : State :=
  mkState r (loading st) (totalPlayers st) (totalPrizePool st).

Definition setLoading (b : bool) (st : State) : State :=
  mkState (results st) b (totalPlayers st) (totalPrizePool st).

Definition setTotalPlayers (n : Z) (st : State) : State :=
  mkState (results st) (loading st) n (totalPrizePool st).

Definition setTotalPrizePool (n : Z) (st : State) : State :=
  mkState (results st) (loading st) (totalPlayers st) n.

(** The object literal built for one row of [gamePlayers.map]. *)
Definition resultRow
    (game : LiveGame.t) (pm : gmap string Player.t)
    (plm : gmap Z Z) (pzm : gmap string Z) (gp : LivePlayer.t) : GameResult.t :=
  let player := pm !! LivePlayer.playerId gp in
  let position := LivePlayer.placed gp in
  let points := calculatedPoints plm position in
  let key := prizeKey (LiveGame.id game) position in
  let prizeMoney := JS.or_num (pzm !! key) 0 in
  GameResult.mk
    (JS.or_num position 999)
    (match player with
     | Some p => Player.firstName p +:+ " " +:+ Player.lastName p
     | None => "Unknown Player"
     end)
    points
    prizeMoney.

(** The comparator handed to [sort]. *)
Definition byPosition (a b : GameResult.t) : option Z :=
  Some (GameResult.position a - GameResult.position b).

(** The [gameResults] array: [gamePlayers.map (...).filter (...).sort (...)]. *)
Definition buildResults
    (game : LiveGame.t) (pm : gmap string Player.t)
    (plm : gmap Z Z) (pzm : gmap string Z) (gamePlayers : list LivePlayer.t)
  : list GameResult.t :=
  JS.Array_sort byPosition
    (filter (λ r, GameResult.position r ≠ 999)
            (resultRow game pm plm pzm <$> gamePlayers)).

Section Component.
Variable ORG_ID : string.
Variable fetchAPI : FetchAPI.t.
Variable schedule : TournamentSchedule.t.
Variable tournamentId : string.

(** [liveGames.find (g => g.scheduleId === schedule.id)] *)
Definition findGame : option LiveGame.t :=
  List.find (λ g, JS.strict_eq (LiveGame.scheduleId g) (TournamentSchedule.id schedule))
            (PokerLeagueAPI.getLiveGames fetchAPI tournamentId).

(** The players of one game: [allLivePlayers.filter (lp => lp.liveGameId === game.id)]. *)
Definition gamePlayersOf (game : LiveGame.t) : list LivePlayer.t :=
  filter (λ lp, LivePlayer.liveGameId lp = LiveGame.id game)
         (PokerLeagueAPI.getLivePlayers fetchAPI tournamentId).

(** [tournament?.pointsId ? await getPointLevels (tournament.pointsId) : []] *)
Definition pointLevelsOf (tournament : option Tournament.t) : list PointLevel.t :=
  match tournament with
  | Some t =>
      if JS.truthy_str (Tournament.pointsId t)
      then PokerLeagueAPI.getPointLevels fetchAPI (Tournament.pointsId t)
      else []
  | None => []
  end.

(** The results of a matched game, as stored by [setResults]. *)
Definition gameResultsOf (game : LiveGame.t) : list GameResult.t :=
  let allPlayers := PokerLeagueAPI.getPlayers ORG_ID fetchAPI in
  let livePrizes := PokerLeagueAPI.getLivePrizes fetchAPI tournamentId in
  let tournaments := PokerLeagueAPI.getTournaments ORG_ID fetchAPI in
  let tournament :=
    List.find (λ t, bool_decide (Tournament.id t = tournamentId)) tournaments in
  let plm := pointLevelMap (pointLevelsOf tournament) in
  let pm := playerMap allPlayers in
  let pzm :=
    prizeMap (filter (λ prize, LivePrize.liveGameId prize = LiveGame.id game)
                     livePrizes) in
  buildResults game pm plm pzm (gamePlayersOf game).

Definition loadGameResults (st : State) : State :=
  let st := setLoading true st in
  match findGame with
  | None => setLoading false (setLoading false (setResults [] st))
  | Some game =>
      let gamePlayers := gamePlayersOf game in
      let gameResults := gameResultsOf game in
      let st := setResults gameResults st in
      let st :=
        setTotalPlayers
          (JS.or_num (LiveGame.numOfPlayers game) (Z.of_nat (length gamePlayers)))
          st in
      let st :=
        setTotalPrizePool (JS.reduce_sum GameResult.prizeMoney gameResults) st in
      setLoading false st
  end.

End Component.
End GameResultsModal.

(** ** [components/TournamentChart.tsx] *)

(** The [ChartData] interface of TournamentChart. *)
Module ChartData.
Record t := mk {
  week : string;
  players : Z;
  weekNumber : Z
}.
End ChartData.

Module TournamentChart.

Record State := mkState {
  chartData : list ChartData.t;
  loading : bool
}.

Definition initialState : State := mkState [] true.

Definition setChartData (d : list ChartData.t) (st : State) : State :=
  mkState d (loading st).

Definition setLoading (b : bool) (st : State) : State :=
  mkState (chartData st) b.

(** The object literal built for one game of [liveGames.map]. *)
Definition chartPoint (sm : gmap string TournamentSchedule.t) (game : LiveGame.t)
  : ChartData.t :=
  let schedule := PlayerDetailModal.scheduleOf sm (Some game) in
  let weekNum := JS.or_num (schedule ≫= TournamentSchedule.weekNum) 0 in
  ChartData.mk
    (if 0 <? weekNum then "Week " +:+ JS.toString (Some weekNum) else "Game")
    (JS.or_num (LiveGame.numOfPlayers game) 0)
    weekNum.

(** The comparator handed to [sort]. *)
Definition byWeek (a b : ChartData.t) : option Z :=
  Some (ChartData.weekNumber a - ChartData.weekNumber b).

Section Component.
Variable ORG_ID : string.
Variable fetchAPI : FetchAPI.t.
Variable tournamentId : string.

Definition loadChartData (st : State) : State :=
  let st := setLoading true st in
  let liveGames := PokerLeagueAPI.getLiveGames fetchAPI tournamentId in
  let schedules := PokerLeagueAPI.getTournamentSchedule ORG_ID fetchAPI tournamentId in
  let sm := scheduleMap schedules in
  let data := JS.Array_sort byWeek (chartPoint sm <$> liveGames) in
  let st := setChartData data st in
  setLoading false st.

End Component.
End TournamentChart.

(** ** [components/PlayerStatsScreen.tsx] *)

(** The counters of a participation row that [LivePlayer.t] does not carry:
    the statistics screen copies them from the row into its history. *)
Module RowCounters.
Record t := mk {
  points : option Z;
  prizeMoney : option Z;
  knockouts : option Z;
  bounties : option Z
}.
End RowCounters.

(** The [PlayerGameHistory] interface with all its fields, as the statistics
    screen fills it. *)
Module GameHistoryRow.
Record t := mk {
  gameDate : string;
  gameNumber : option Z;
  position : option Z;
  points : option Z;
  prizeMoney : option Z;
  knockouts : option Z;
  bounties : option Z
}.
End GameHistoryRow.

Module TournamentPlayerStats.
Record t := mk {
  tournament : Tournament.t;
  gamesPlayed : Z;
  totalPoints : Z;
  totalWinnings : Z;
  totalKnockouts : Z;
  totalBounties : Z;
  averagePoints : Q;
  bestPosition : Z;
  gameHistory : list GameHistoryRow.t
}.
End TournamentPlayerStats.

Module PlayerStatistics.
Record t := mk {
  player : Player.t;
  totalGamesPlayed : Z;
  totalPoints : Z;
  totalWinnings : Z;
  totalKnockouts : Z;
  totalBounties : Z;
  averagePoints : Q;
  averagePosition : Q;
  bestPosition : Z;
  worstPosition : Z;
  tournamentsParticipated : Z;
  tournamentDetails : list TournamentPlayerStats.t
}.
End PlayerStatistics.

Module PlayerStatsScreen.

Record State := mkState {
  players : list Player.t;
  selectedPlayer : option Player.t;
  playerStats : option PlayerStatistics.t;
  searchQuery : string;
  loading : bool;
  statsLoading : bool
}.

Definition initialState : State := mkState [] None None "" true false.

Definition setPlayers (l : list Player.t) (st : State) : State :=
  mkState l (selectedPlayer st) (playerStats st) (searchQuery st)
          (loading st) (statsLoading st).

Definition setPlayerStats (s : option PlayerStatistics.t) (st : State) : State :=
  mkState (players st) (selectedPlayer st) s (searchQuery st)
          (loading st) (statsLoading st).

Definition setLoading (b : bool) (st : State) : State :=
  mkState (players st) (selectedPlayer st) (playerStats st) (searchQuery st)
          b (statsLoading st).

Definition setStatsLoading (b : bool) (st : State) : State :=
  mkState (players st) (selectedPlayer st) (playerStats st) (searchQuery st)
          (loading st) b.

(** [Math.min (...(p :: ps))] and [Math.max (...(p :: ps))]; both are only
    called behind a [length > 0] guard. *)
Definition Math_min (p : Z) (ps : list Z) : Z := foldl Z.min p ps.
Definition Math_max (p : Z) (ps : list Z) : Z := foldl Z.max p ps.

(** [l.length > 0 ? Math.min (...l) : 0] *)
Definition minOrZero (l : list Z) : Z :=
  match l with
  | [] => 0
  | p :: ps => Math_min p ps
  end.

(** [l.length > 0 ? Math.max (...l) : 0] *)
Definition maxOrZero (l : list Z) : Z :=
  match l with
  | [] => 0
  | p :: ps => Math_max p ps
  end.

(** [history.filter (g => g.position).map (g => g.position!)]; the filter has
    kept numbers only, so the default of the assertion is never taken. *)
Definition positionsOf (history : list GameHistoryRow.t) : list Z :=
  (λ g, default 0 (GameHistoryRow.position g))
    <$> filter (λ g, JS.truthy_opt (GameHistoryRow.position g)) history.

Section Component.
Variable ORG_ID : string.
Variable fetchAPI : FetchAPI.t.
(** [new Date (s).getTime ()]; [None] is the [NaN] of an invalid date. *)
Variable Date_getTime : string → option Z.
(** The counters the fetched row carries beside the fields of [LivePlayer.t]. *)
Variable counters : LivePlayer.t → RowCounters.t.

Definition loadPlayers (st : State) : State :=
  let st := setLoading true st in
  let data := PokerLeagueAPI.getPlayers ORG_ID fetchAPI in
  let st := setPlayers data st in
  setLoading false st.

(** The object literal built for one row of [playerGames.map]. *)
Definition historyRow
    (gm : gmap string LiveGame.t) (sm : gmap string TournamentSchedule.t)
    (pg : LivePlayer.t) : GameHistoryRow.t :=
  let game := gm !! LivePlayer.liveGameId pg in
  let schedule := PlayerDetailModal.scheduleOf sm game in
  let position := LivePlayer.placed pg in
  GameHistoryRow.mk
    (JS.or_str (schedule ≫= TournamentSchedule.date) "")
    (schedule ≫= TournamentSchedule.weekNum)
    position
    (RowCounters.points (counters pg))
    (RowCounters.prizeMoney (counters pg))
    (RowCounters.knockouts (counters pg))
    (RowCounters.bounties (counters pg)).

(** The comparator handed to [sort]. *)
Definition byDate (a b : GameHistoryRow.t) : option Z :=
  JS.sub (Date_getTime (GameHistoryRow.gameDate a))
         (Date_getTime (GameHistoryRow.gameDate b)).

(** The [gameHistory] array of one tournament. *)
Definition gameHistoryOf (player : Player.t)
    (livePlayers : list LivePlayer.t) (liveGames : list LiveGame.t)
    (schedules : list TournamentSchedule.t) : list GameHistoryRow.t :=
  let playerGames :=
    filter (λ lp, LivePlayer.playerId lp = Player.id player) livePlayers in
  let gm := gameMap liveGames in
  let sm := scheduleMap schedules in
  JS.Array_sort byDate
    (filter (λ h, JS.truthy_str (GameHistoryRow.gameDate h)
                  && JS.truthy_opt (GameHistoryRow.position h))
            (historyRow gm sm <$> playerGames)).

(** The body of [tournaments.map (async (tournament) => ...)]: [None] is the
    [null] returned when the player has no standing in the tournament. *)
Definition tournamentStats (player : Player.t) (tournament : Tournament.t)
  : option TournamentPlayerStats.t :=
  let tournamentPlayers :=
    PokerLeagueAPI.getTournamentPlayers fetchAPI (Tournament.id tournament) in
  let livePlayers := PokerLeagueAPI.getLivePlayers fetchAPI (Tournament.id tournament) in
  let liveGames := PokerLeagueAPI.getLiveGames fetchAPI (Tournament.id tournament) in
  let schedules :=
    PokerLeagueAPI.getTournamentSchedule ORG_ID fetchAPI (Tournament.id tournament) in
  match List.find (λ tp, bool_decide (TournamentPlayer.playerId tp = Player.id player))
                  tournamentPlayers with
  | None => None
  | Some playerInTournament =>
      let gameHistory := gameHistoryOf player livePlayers liveGames schedules in
      let positions := positionsOf gameHistory in
      let bestPosition := minOrZero positions in
      Some (TournamentPlayerStats.mk
              tournament
              (JS.or_num (TournamentPlayer.gamesPlayed playerInTournament) 0)
              (JS.or_num (TournamentPlayer.totalPoints playerInTournament) 0)
              (JS.or_num (TournamentPlayer.earnings playerInTournament) 0)
              (JS.or_num (TournamentPlayer.totalEliminated playerInTournament) 0)
              (JS.or_num (TournamentPlayer.totalBounties playerInTournament) 0)
              (Leaderboard.averagePointsOf playerInTournament)
              bestPosition
              gameHistory)
  end.

(** The [stats] object of [loadPlayerStatistics]. *)
Definition statisticsOf (player : Player.t) : PlayerStatistics.t :=
  let tournaments := PokerLeagueAPI.getTournaments ORG_ID fetchAPI in
  let tournamentDetails := omap (tournamentStats player) tournaments in
  let totalGamesPlayed :=
    JS.reduce_sum TournamentPlayerStats.gamesPlayed tournamentDetails in
  let totalPoints :=
    JS.reduce_sum TournamentPlayerStats.totalPoints tournamentDetails in
  let totalWinnings :=
    JS.reduce_sum TournamentPlayerStats.totalWinnings tournamentDetails in
  let totalKnockouts :=
    JS.reduce_sum TournamentPlayerStats.totalKnockouts tournamentDetails in
  let totalBounties :=
    JS.reduce_sum TournamentPlayerStats.totalBounties tournamentDetails in
  let allPositions :=
    positionsOf (tournamentDetails ≫= TournamentPlayerStats.gameHistory) in
  PlayerStatistics.mk
    player
    totalGamesPlayed
    totalPoints
    totalWinnings
    totalKnockouts
    totalBounties
    (if 0 <? totalGamesPlayed
     then (inject_Z totalPoints / inject_Z totalGamesPlayed)%Q
     else 0%Q)
    (if (0 <? length allPositions)%nat
     then (inject_Z (JS.reduce_sum (λ p, p) allPositions)
           / inject_Z (Z.of_nat (length allPositions)))%Q
     else 0%Q)
    (minOrZero allPositions)
    (maxOrZero allPositions)
    (Z.of_nat (length tournamentDetails))
    tournamentDetails.

Definition loadPlayerStatistics (player : Player.t) (st : State) : State :=
  let st := setStatsLoading true st in
  let st := setPlayerStats (Some (statisticsOf player)) st in
  setStatsLoading false st.

End Component.
End PlayerStatsScreen.

(** ** Game configurations *)

Module GameConfiguration.
Record t := mk {
  id : string;
  orgId : string;
  name : string;
  entryAmount : option Z;
  numOfRebuys : option Z;
  rebuyAmount : option Z;
  rebuyChips : option Z;
  numOfAddOn : option Z;
  addOnAmount : option Z;
  addOnChips : option Z;
  bounty : option Z;
  bountryOptional : option Z;
  bountyAmount : option Z;
  chipStack : option Z;
  blindId : option string
}.
End GameConfiguration.

(** [PokerLeagueAPI.getGameConfigurationById], over the [game_configuration]
    endpoint of [fetchAPI]: [configs[0] || null]. *)
Definition getGameConfigurationById
    (game_configuration : Params → list GameConfiguration.t) (configId : string)
  : option GameConfiguration.t :=
  head (game_configuration [("$filter", "id eq '" +:+ configId +:+ "'")]).

(** [[...new Set (l)]]: the distinct elements, in order of first occurrence. *)
Definition Set_values (l : list string) : list string :=
  foldl (λ acc x, if decide (x ∈ acc) then acc else (acc ++ [x])%list) [] l.

(** ** [components/Dashboard.tsx] *)

Module Dashboard.

Record State := mkState {
  tournaments : list Tournament.t;
  selectedTournament : option Tournament.t;
  nextGame : option TournamentSchedule.t;
  gameConfig : option GameConfiguration.t;
  pointLevels : list PointLevel.t;
  loading : bool;
  isSidebarOpen : bool;
  refreshKey : Z;
  refreshing : bool
}.

Definition initialState : State :=
  mkState [] None None None [] true false 0 false.

Definition setTournaments (l : list Tournament.t) (st : State) : State :=
  mkState l (selectedTournament st) (nextGame st) (gameConfig st) (pointLevels st)
          (loading st) (isSidebarOpen st) (refreshKey st) (refreshing st).

Definition setSelectedTournament (t : option Tournament.t) (st : State) : State :=
  mkState (tournaments st) t (nextGame st) (gameConfig st) (pointLevels st)
          (loading st) (isSidebarOpen st) (refreshKey st) (refreshing st).

Definition setNextGame (g : option TournamentSchedule.t) (st : State) : State :=
  mkState (tournaments st) (selectedTournament st) g (gameConfig st) (pointLevels st)
          (loading st) (isSidebarOpen st) (refreshKey st) (refreshing st).

Definition setGameConfig (c : option GameConfiguration.t) (st : State) : State :=
  mkState (tournaments st) (selectedTournament st) (nextGame st) c (pointLevels st)
          (loading st) (isSidebarOpen st) (refreshKey st) (refreshing st).

Definition setPointLevels (l : list PointLevel.t) (st : State) : State :=
  mkState (tournaments st) (selectedTournament st) (nextGame st) (gameConfig st) l
          (loading st) (isSidebarOpen st) (refreshKey st) (refreshing st).

Definition setLoading (b : bool) (st : State) : State :=
  mkState (tournaments st) (selectedTournament st) (nextGame st) (gameConfig st)
          (pointLevels st) b (isSidebarOpen st) (refreshKey st) (refreshing st).

Section Component.
Variable ORG_ID : string.
Variable fetchAPI : FetchAPI.t.
(** The [game_configuration] endpoint of [fetchAPI]. *)
Variable game_configuration : Params → list GameConfiguration.t.
(** The [gameId] of a schedule record, a field [TournamentSchedule.t] does
    not carry. *)
Variable gameId : TournamentSchedule.t → option string.
(** The time of [new Date (s)] after [setHours (0, 0, 0, 0)]; [None] is the
    [NaN] of an invalid date. *)
Variable startOfDay : string → option Z.
(** The time of [new Date ()] after [setHours (0, 0, 0, 0)]. *)
Variable today : Z.

Definition loadTournaments (st : State) : State :=
  let data := PokerLeagueAPI.getTournaments ORG_ID fetchAPI in
  let st := setTournaments data st in
  let st :=
    match data with
    | first :: _ => setSelectedTournament (Some first) st
    | [] => st
    end in
  setLoading false st.

(** The predicate of [schedule.find]: a dated record whose day is today or
    later. *)
Definition isUpcoming (s : TournamentSchedule.t) : bool :=
  match TournamentSchedule.date s with
  | Some d =>
      if JS.truthy_str d
      then match startOfDay d with
           | Some gameDate => today <=? gameDate
           | None => false
           end
      else false
  | None => false
  end.

Definition loadTournamentDetails (tournament : Tournament.t) (st : State) : State :=
  let st := setNextGame None st in
  let st := setGameConfig None st in
  let schedule :=
    PokerLeagueAPI.getTournamentSchedule ORG_ID fetchAPI (Tournament.id tournament) in
  let st :=
    match List.find isUpcoming schedule with
    | Some upcoming =>
        let st := setNextGame (Some upcoming) st in
        match gameId upcoming with
        | Some gid =>
            if JS.truthy_str gid
            then setGameConfig (getGameConfigurationById game_configuration gid) st
            else st
        | None => st
        end
    | None => st
    end in
  if JS.truthy_str (Tournament.pointsId tournament)
  then setPointLevels
         (PokerLeagueAPI.getPointLevels fetchAPI (Tournament.pointsId tournament)) st
  else st.

End Component.
End Dashboard.

(** ** [components/TournamentScheduleTable.tsx] *)

Module TournamentScheduleTable.

Record State := mkState {
  schedules : list TournamentSchedule.t;
  gameConfigs : gmap string GameConfiguration.t;
  loading : bool;
  selectedSchedule : option TournamentSchedule.t
}.

Definition initialState : State := mkState [] ∅ true None.

Definition setSchedules (l : list TournamentSchedule.t) (st : State) : State :=
  mkState l (gameConfigs st) (loading st) (selectedSchedule st).

Definition setGameConfigs (m : gmap string GameConfiguration.t) (st : State) : State :=
  mkState (schedules st) m (loading st) (selectedSchedule st).

Definition setLoading (b : bool) (st : State) : State :=
  mkState (schedules st) (gameConfigs st) b (selectedSchedule st).

Definition setSelectedSchedule (s : option TournamentSchedule.t) (st : State) : State :=
  mkState (schedules st) (gameConfigs st) (loading st) s.

Section Component.
Variable ORG_ID : string.
Variable fetchAPI : FetchAPI.t.
(** The [game_configuration] endpoint of [fetchAPI]. *)
Variable game_configuration : Params → list GameConfiguration.t.
(** The [gameId] and the [status] of a schedule record, fields
    [TournamentSchedule.t] does not carry. *)
Variable gameId : TournamentSchedule.t → option string.
Variable status : TournamentSchedule.t → option string.
(** [new Date (s).getTime ()]; [None] is the [NaN] of an invalid date. *)
Variable Date_getTime : string → option Z.
(** The time of [new Date ()] after [setHours (0, 0, 0, 0)]. *)
Variable today : Z.
Variable tournamentId : string.

(** [new Date (a.date || 0).getTime ()]: a record without date counts as the
    epoch. *)
Definition timeOf (a : TournamentSchedule.t) : option Z :=
  match TournamentSchedule.date a with
  | Some d => if JS.truthy_str d then Date_getTime d else Some 0
  | None => Some 0
  end.

(** The comparator handed to [sort]. *)
Definition byDate (a b : TournamentSchedule.t) : option Z :=
  JS.sub (timeOf a) (timeOf b).

(** [[...new Set (scheduleData.map (s => s.gameId).filter (Boolean))]] *)
Definition uniqueGameIds (scheduleData : list TournamentSchedule.t) : list string :=
  Set_values
    (omap (λ s, if JS.truthy_ostr (gameId s) then gameId s else None) scheduleData).

(** [configs.forEach (config => { if (config) configMap.set (config.id, config) })] *)
Definition configMap (configs : list (option GameConfiguration.t))
  : gmap string GameConfiguration.t :=
  foldl (λ m config,
           match config with
           | Some c => <[GameConfiguration.id c := c]> m
           | None => m
           end)
        ∅ configs.

Definition loadSchedule (st : State) : State :=
  let st := setLoading true st in
  let scheduleData := PokerLeagueAPI.getTournamentSchedule ORG_ID fetchAPI tournamentId in
  let configs :=
    getGameConfigurationById game_configuration <$> uniqueGameIds scheduleData in
  let st := setGameConfigs (configMap configs) st in
  let st := setSchedules (JS.Array_sort byDate scheduleData) st in
  setLoading false st.

Definition isGameCompleted (schedule : TournamentSchedule.t) : bool :=
  if JS.truthy_ostr (TournamentSchedule.date schedule)
  then match TournamentSchedule.date schedule ≫= Date_getTime with
       | Some gameDate => gameDate <? today
       | None => false
       end
       || bool_decide (status schedule = Some "COMPLETED")
  else false.

Definition handleRowClick (schedule : TournamentSchedule.t) (st : State) : State :=
  if isGameCompleted schedule
  then setSelectedSchedule (Some schedule) st
  else st.

(** The configuration shown in a row:
    [schedule.gameId ? gameConfigs.get (schedule.gameId) : null]. *)
Definition rowConfig (st : State) (schedule : TournamentSchedule.t)
  : option GameConfiguration.t :=
  match gameId schedule with
  | Some gid => if JS.truthy_str gid then gameConfigs st !! gid else None
  | None => None
  end.

End Component.
End TournamentScheduleTable.

(** ** Vocabulary of the properties *)

(** The metric a view ranks by. *)
Definition metric (v : LeaderboardView) (e : LeaderboardEntry.t) : Z :=
  match v with
  | points => LeaderboardEntry.totalPoints e
  | winnings => LeaderboardEntry.totalWinnings e
  | knockouts => LeaderboardEntry.totalKnockouts e
  | bounties => LeaderboardEntry.totalBounties e
  end.

(** The date of the schedule a participation row is linked to, through its
    played game, as the history resolver follows the links. *)
Definition linkedDate
    (gm : gmap string LiveGame.t) (sm : gmap string TournamentSchedule.t)
    (pg : LivePlayer.t) : option string :=
  PlayerDetailModal.scheduleOf sm (gm !! LivePlayer.liveGameId pg)
    ≫= TournamentSchedule.date.

(** The time of the date of a history entry is [t]. *)
Definition playedAt (Date_getTime : string → option Z)
    (h : PlayerGameHistory.t) (t : Z) : Prop :=
  Date_getTime (PlayerGameHistory.gameDate h) = Some t.

#[global] Instance playedAt_dec (Date_getTime : string → option Z)
    (h : PlayerGameHistory.t) (t : Z) : Decision (playedAt Date_getTime h t).
Proof. unfold playedAt. apply _. Defined.

(** Entry [a] is dated no later than entry [b]. *)
Definition notLater (Date_getTime : string → option Z)
    (a b : PlayerGameHistory.t) : Prop :=
  ∃ ta tb, playedAt Date_getTime a ta ∧ playedAt Date_getTime b tb ∧ ta ≤ tb.

(** A participation row with a finishing position the results table shows:
    a number that is neither falsy nor the sentinel 999. *)
Definition recordedPosition (gp : LivePlayer.t) : Prop :=
  match LivePlayer.placed gp with
  | Some p => p ≠ 0 ∧ p ≠ 999
  | None => False
  end.

#[global] Instance recordedPosition_dec (gp : LivePlayer.t) :
  Decision (recordedPosition gp).
Proof. unfold recordedPosition. destruct (LivePlayer.placed gp); apply _. Defined.

(** The comparator [getSortedLeaderboard] hands to [sort] under a view. *)
Definition viewComparator (v : LeaderboardView) (a b : LeaderboardEntry.t) : option Z :=
  Some (JS.or_num (Some (metric v b)) 0 - JS.or_num (Some (metric v a)) 0).

(** A schedule record bears the tournament id [T] under one of the two
    spellings of the field. *)
Definition belongsTo (s : TournamentSchedule.t) (T : string) : Prop :=
  TournamentSchedule.tournamentId s = Some T
  ∨ TournamentSchedule.tournamnetId s = Some T.

#[global] Instance belongsTo_dec (s : TournamentSchedule.t) (T : string) :
  Decision (belongsTo s T).
Proof. unfold belongsTo. apply _. Defined.

(** A string in which the character [c] does not occur. *)
Definition char_free (c : ascii) (s : string) : Prop :=
  ∀ s1 s2, s ≠ s1 +:+ String c s2.

(** ** A small league, used to exercise the functions *)

Module Sample.

Definition ORG_ID : string := "org1".

Definition tournaments : list Tournament.t :=
  [Tournament.mk "T1" "org1" "Winter League" "2024-01-01" "P1"].

Definition pointLevels : list PointLevel.t :=
  [PointLevel.mk "L1" "P1" 1 50 "org1";
   PointLevel.mk "L2" "P1" 2 30 "org1";
   PointLevel.mk "L3" "P1" 3 20 "org1"].

Definition allPlayers : list Player.t :=
  [Player.mk "p1" "org1" "Alice" "Ace" None;
   Player.mk "p2" "org1" "Bob" "Bluff" (Some "Bobby");
   Player.mk "p3" "org1" "Cara" "Call" None].

Definition schedules : list TournamentSchedule.t :=
  [TournamentSchedule.mk "S1" None (Some "T1") "org1" (Some "2024-01-15") None (Some 2);
   TournamentSchedule.mk "S2" (Some "T1") None "org1" (Some "2024-01-08") None (Some 1);
   TournamentSchedule.mk "S3" (Some "T1") (Some "T1") "org1" None None (Some 3);
   TournamentSchedule.mk "S4" (Some "T2") None "org1" (Some "2024-01-08") None (Some 1);
   TournamentSchedule.mk "S5" None (Some "T1") "org1" (Some "2024-01-08") None (Some 1)].

Definition liveGames : list LiveGame.t :=
  [LiveGame.mk "G1" "T1" (Some "S1") (Some 4) (Some 500);
   LiveGame.mk "G2" "T1" (Some "S2") None None;
   LiveGame.mk "G3" "T1" (Some "S3") None None;
   LiveGame.mk "G5" "T1" (Some "S5") None None].

Definition livePlayers : list LivePlayer.t :=
  [LivePlayer.mk "r1" "T1" "G1" "p1" (Some 1);
   LivePlayer.mk "r2" "T1" "G1" "p3" (Some 4);
   LivePlayer.mk "r3" "T1" "G1" "p2" (Some 2);
   LivePlayer.mk "r4" "T1" "G1" "p9" None;
   LivePlayer.mk "r5" "T1" "G2" "p1" (Some 2);
   LivePlayer.mk "r6" "T1" "G3" "p1" (Some 1);
   LivePlayer.mk "r7" "T1" "G5" "p1" (Some 3);
   LivePlayer.mk "r8" "T1" "G1" "p4" (Some 999);
   LivePlayer.mk "r9" "T1" "G1" "p5" (Some 0)].

Definition livePrizes : list LivePrize.t :=
  [LivePrize.mk "z1" "T1" "G1" 1 100].

(** The same prizes with a recorded prize of 0 for second place of G1. *)
Definition livePrizesWithZero : list LivePrize.t :=
  livePrizes ++ [LivePrize.mk "z2" "T1" "G1" 2 0].

Definition tournamentPlayers : list TournamentPlayer.t :=
  [TournamentPlayer.mk "tp1" "T1" "p1" (Some 480) (Some 12) (Some 5) (Some 2) (Some 300);
   TournamentPlayer.mk "tp2" "T1" "p2" (Some 480) (Some 10) (Some 7) (Some 1) (Some 650);
   TournamentPlayer.mk "tp3" "T1" "p3" (Some 120) (Some 0) None (Some 4) (Some 20);
   TournamentPlayer.mk "tp4" "T1" "p9" None None None None None].

Definition fetchAPIWith (prizes : list LivePrize.t) : FetchAPI.t :=
  FetchAPI.mk
    (λ _, tournaments) (λ _, schedules) (λ _, liveGames) (λ _, livePlayers)
    (λ _, allPlayers) (λ _, tournamentPlayers) (λ _, pointLevels) (λ _, prizes).

Definition fetchAPI : FetchAPI.t := fetchAPIWith livePrizes.

(** Milliseconds since the epoch of the two dates of the sample. *)
Definition Date_getTime (s : string) : option Z :=
  if decide (s = "2024-01-08") then Some 1704672000000
  else if decide (s = "2024-01-15") then Some 1705276800000
  else None.

(** The schedule entry of game G1. *)
Definition schedule1 : TournamentSchedule.t :=
  TournamentSchedule.mk "S1" None (Some "T1") "org1" (Some "2024-01-15") None (Some 2).

(** The results modal of game G1, loaded over the given prize records. *)
Definition gameResults (prizes : list LivePrize.t) : GameResultsModal.State :=
  GameResultsModal.loadGameResults ORG_ID (fetchAPIWith prizes) schedule1 "T1"
    GameResultsModal.initialState.

(** The entry of player p1 on the leaderboard of T1. *)
Definition alice : LeaderboardEntry.t :=
  Leaderboard.entryOf (playerMap allPlayers) 0
    (TournamentPlayer.mk "tp1" "T1" "p1" (Some 480) (Some 12) (Some 5) (Some 2) (Some 300)).

End Sample.

(** ** The sample league on the other screens *)

Module SampleScreens.

(** The one game configuration of the sample. *)
Definition holdem : GameConfiguration.t :=
  GameConfiguration.mk "C1" "org1" "Texas Hold'em" (Some 20) (Some 1) (Some 10)
    None None None None None None None (Some 5000) None.

(** The [game_configuration] endpoint: it knows configuration C1 only. *)
Definition game_configuration (params : Params) : list GameConfiguration.t :=
  if decide (params = [("$filter", "id eq 'C1'")]) then [holdem] else [].

(** Schedules S1, S2 and S4 play configuration C1, S5 an unknown one. *)
Definition gameId (s : TournamentSchedule.t) : option string :=
  if decide (TournamentSchedule.id s = "S5") then Some "C9"
  else if decide (TournamentSchedule.id s = "S3") then None
  else Some "C1".

(** Schedule S3, which has no date, is marked completed. *)
Definition status (s : TournamentSchedule.t) : option string :=
  if decide (TournamentSchedule.id s = "S3") then Some "COMPLETED" else None.

(** The day of 8 January 2024, first as today, then as a day gone by. *)
Definition today : Z := 1704672000000.
Definition nextWeek : Z := 1705276800000.

(** The rows of the sample carry no counters. *)
Definition counters (pg : LivePlayer.t) : RowCounters.t :=
  RowCounters.mk None None None None.

Definition alice : Player.t := Player.mk "p1" "org1" "Alice" "Ace" None.

(** A player of the directory without any standing. *)
Definition dora : Player.t := Player.mk "p7" "org1" "Dora" "Draw" None.

(** The leaderboard entry of p9, who is not in the directory. *)
Definition unknownEntry : LeaderboardEntry.t :=
  Leaderboard.entryOf (playerMap Sample.allPlayers) 3
    (TournamentPlayer.mk "tp4" "T1" "p9" None None None None None).

Definition tournament1 : Tournament.t :=
  Tournament.mk "T1" "org1" "Winter League" "2024-01-01" "P1".

(** A tournament without a points table. *)
Definition tournament2 : Tournament.t :=
  Tournament.mk "T2" "org1" "Summer League" "2024-06-01" "".

End SampleScreens.

(** * Properties *)

(** ** Facts about [Array.prototype.sort] *)

Section Array_sort_facts.
Context {A : Type}.
Implicit Types (c : A → A → Z) (cmp : A → A → option Z) (key : A → Z).
Implicit Types (x : A) (l : list A).

Lemma insert_sorted_Permutation c x l : JS.insert_sorted c x l ≡ₚ x :: l.
Proof.
  induction l as [|y l IH]; simpl; [done|].
  case_decide; [done|]. rewrite IH. apply perm_swap.
Qed.

Lemma Array_sort_Permutation cmp l : JS.Array_sort cmp l ≡ₚ l.
Proof.
  induction l as [|x l IH]; simpl; [done|].
  unfold JS.Array_sort in *; simpl.
  rewrite insert_sorted_Permutation. by f_equiv.
Qed.

Lemma Array_sort_elem_of cmp l x : x ∈ JS.Array_sort cmp l ↔ x ∈ l.
Proof. by rewrite Array_sort_Permutation. Qed.

(** A comparator [c] agrees with [key] on [l] when it is non-positive exactly
    on the pairs whose keys are in order. *)
Lemma insert_sorted_StronglySorted c key x l :
  (∀ y, y ∈ l → c x y ≤ 0 ↔ key x ≤ key y) →
  StronglySorted (λ a b, key a ≤ key b) l →
  StronglySorted (λ a b, key a ≤ key b) (JS.insert_sorted c x l).
Proof.
  induction l as [|y l IH]; intros Hc Hs; simpl.
  { repeat constructor. }
  apply StronglySorted_inv in Hs as [Hs Hy].
  case_decide as Hxy.
  - apply Hc in Hxy; [|left].
    constructor; [by constructor|].
    constructor; [done|].
    eapply Forall_impl; [exact Hy|]. simpl. lia.
  - constructor.
    + apply IH; [|done]. intros z Hz. apply Hc. by right.
    + rewrite insert_sorted_Permutation. constructor; [|done].
      assert (¬ key x ≤ key y) by (intros ?; apply Hxy, Hc; [left|done]). lia.
Qed.

Lemma Array_sort_StronglySorted cmp key l :
  (∀ a b, a ∈ l → b ∈ l → JS.sortCompare cmp a b ≤ 0 ↔ key a ≤ key b) →
  StronglySorted (λ a b, key a ≤ key b) (JS.Array_sort cmp l).
Proof.
  induction l as [|x l IH]; intros Hc; [constructor|].
  unfold JS.Array_sort in *; simpl.
  apply insert_sorted_StronglySorted.
  - intros y Hy. apply Hc; [left|right].
    by apply (Array_sort_elem_of cmp l y).
  - apply IH. intros a b Ha Hb. apply Hc; by right.
Qed.

Lemma insert_sorted_filter c key x l (k : Z) :
  (∀ y, y ∈ l → c x y ≤ 0 ↔ key x ≤ key y) →
  filter (λ a, key a = k) (JS.insert_sorted c x l)
  = filter (λ a, key a = k) (x :: l).
Proof.
  induction l as [|y l IH]; intros Hc; simpl; [done|].
  case_decide as Hxy; [done|].
  assert (key y < key x) as Hlt.
  { assert (¬ key x ≤ key y) by (intros ?; apply Hxy, Hc; [left|done]). lia. }
  rewrite (filter_cons _ y (JS.insert_sorted c x l)).
  rewrite IH by (intros z Hz; apply Hc; by right).
  rewrite !filter_cons.
  repeat case_decide; try done; lia.
Qed.

(** Stability: the elements of one key keep the order they had in the input. *)
Lemma Array_sort_stable cmp key l (k : Z) :
  (∀ a b, a ∈ l → b ∈ l → JS.sortCompare cmp a b ≤ 0 ↔ key a ≤ key b) →
  filter (λ a, key a = k) (JS.Array_sort cmp l) = filter (λ a, key a = k) l.
Proof.
  induction l as [|x l IH]; intros Hc; [done|].
  unfold JS.Array_sort in *; simpl.
  rewrite (insert_sorted_filter _ key).
  - rewrite !filter_cons, IH; [done|].
    intros a b Ha Hb. apply Hc; by right.
  - intros y Hy. apply Hc; [left|right].
    by apply (Array_sort_elem_of cmp l y).
Qed.

(** Sorting a list that is already in order leaves it as it is. *)
Lemma Array_sort_sorted_id cmp key l :
  (∀ a b, a ∈ l → b ∈ l → JS.sortCompare cmp a b ≤ 0 ↔ key a ≤ key b) →
  StronglySorted (λ a b, key a ≤ key b) l →
  JS.Array_sort cmp l = l.
Proof.
  induction l as [|x l IH]; intros Hc Hs; [done|].
  apply StronglySorted_inv in Hs as [Hs Hx].
  unfold JS.Array_sort in *; simpl.
  rewrite IH; [|intros a b Ha Hb; apply Hc; by right|done].
  destruct l as [|y l]; simpl; [done|].
  apply Forall_cons in Hx as [Hxy _].
  rewrite decide_True; [done|].
  apply Hc; [left|right; left|done].
Qed.

Lemma Array_sort_idemp cmp key l :
  (∀ a b, a ∈ l → b ∈ l → JS.sortCompare cmp a b ≤ 0 ↔ key a ≤ key b) →
  JS.Array_sort cmp (JS.Array_sort cmp l) = JS.Array_sort cmp l.
Proof.
  intros Hc. apply (Array_sort_sorted_id cmp key).
  - intros a b Ha Hb. apply Hc; by apply (Array_sort_elem_of cmp l).
  - by apply Array_sort_StronglySorted.
Qed.

(** Two lists in key order that agree key by key are the same list, so the
    result of a stable sort does not depend on the sorting algorithm. *)
Lemma sorted_stable_unique key (l1 l2 : list A) :
  StronglySorted (λ a b, key a ≤ key b) l1 →
  StronglySorted (λ a b, key a ≤ key b) l2 →
  (∀ k : Z, filter (λ a, key a = k) l1 = filter (λ a, key a = k) l2) →
  l1 = l2.
Proof.
  revert l2. induction l1 as [|a l1 IH]; intros l2 Hs1 Hs2 Hf.
  - destruct l2 as [|b l2]; [done|].
    specialize (Hf (key b)). rewrite filter_nil, filter_cons_True in Hf; done.
  - destruct l2 as [|b l2].
    { specialize (Hf (key a)). rewrite filter_nil, filter_cons_True in Hf; done. }
    apply StronglySorted_inv in Hs1 as [Hs1 Ha].
    apply StronglySorted_inv in Hs2 as [Hs2 Hb].
    assert (∀ l x y, Forall (λ z, key x ≤ key z) l →
                     y ∈ filter (λ z, key z = key y) (x :: l) → key x ≤ key y) as Hmin.
    { intros l x y Hl Hy. apply list_elem_of_filter in Hy as [_ Hy].
      apply elem_of_cons in Hy as [->|Hy]; [done|].
      rewrite Forall_forall in Hl. by apply Hl. }
    assert (key a = key b) as Hk.
    { apply Z.le_antisymm.
      - apply (Hmin l1 a b Ha). rewrite Hf, filter_cons_True by done. left.
      - apply (Hmin l2 b a Hb). rewrite <-Hf, filter_cons_True by done. left. }
    pose proof (Hf (key a)) as Hfa.
    rewrite filter_cons_True, (filter_cons_True _ b) in Hfa by done.
    injection Hfa as -> Hfa. f_equal.
    apply IH; [done..|]. intros k. specialize (Hf k).
    rewrite !filter_cons in Hf. case_decide; congruence.
Qed.

End Array_sort_facts.

(** ** Facts about the lookup maps *)

Section lookup_maps.
Context `{Countable K} {A V : Type}.

(** A map filled by [forEach]/[set] answers with the last record of the key. *)
Lemma foldl_insert_lookup (k : A → K) (v : A → V) (l : list A) (m : gmap K V) (i : K) :
  foldl (λ m x, <[k x := v x]> m) m l !! i
  = match last (filter (λ x, k x = i) l) with
    | Some x => Some (v x)
    | None => m !! i
    end.
Proof.
  revert m. induction l as [|x l IH]; intros m; simpl; [done|].
  rewrite IH, filter_cons. case_decide as Hk.
  - rewrite last_cons. destruct (last _); [done|].
    by rewrite <-Hk, lookup_insert_eq.
  - destruct (last _); [done|]. by rewrite lookup_insert_ne.
Qed.

Lemma foldl_insert_lookup_None (k : A → K) (v : A → V) (l : list A) (i : K) :
  (∀ x, x ∈ l → k x ≠ i) →
  foldl (λ m x, <[k x := v x]> m) (∅ : gmap K V) l !! i = None.
Proof.
  intros Hno. rewrite foldl_insert_lookup.
  destruct (last _) as [x|] eqn:Hlast; [|done].
  apply last_Some_elem_of, list_elem_of_filter in Hlast as [Hk Hx].
  by destruct (Hno x Hx).
Qed.

End lookup_maps.

(** ** Facts about the prize key *)

Section char_free.
Variable c : ascii.
Hypothesis c_not_digit : ∀ n, pretty_N_char n ≠ c.
Hypothesis c_not_dash : c ≠ "-"%char.

Lemma char_free_empty : char_free c "".
Proof. by intros [|??] ?. Qed.

Lemma char_free_String (a : ascii) (s : string) :
  a ≠ c → char_free c s → char_free c (String a s).
Proof.
  intros Ha Hs [|b s1] s2; simpl; intros [= ]; [done|].
  by eapply Hs.
Qed.

Lemma char_free_pretty_N_go (x : N) (s : string) :
  char_free c s → char_free c (pretty_N_go x s).
Proof.
  revert s. induction (N.lt_wf_0 x) as [x _ IH]; intros s Hs.
  assert (x = 0 ∨ 0 < x)%N as [->|Hx] by lia.
  - by rewrite pretty_N_go_0.
  - rewrite pretty_N_go_step by done. apply IH.
    + by apply N.div_lt.
    + by apply char_free_String.
Qed.

Lemma char_free_pretty_N (x : N) : char_free c (pretty x).
Proof.
  unfold pretty, pretty_N. case_decide.
  - apply char_free_String; [apply (c_not_digit 0)|apply char_free_empty].
  - apply char_free_pretty_N_go, char_free_empty.
Qed.

Lemma char_free_pretty_Z (z : Z) : char_free c (pretty z).
Proof.
  destruct z as [|p|p]; unfold pretty, pretty_Z.
  - apply char_free_String; [apply (c_not_digit 0)|apply char_free_empty].
  - apply (char_free_pretty_N (Npos p)).
  - apply char_free_String; [done|apply (char_free_pretty_N (Npos p))].
Qed.

End char_free.

Lemma pretty_N_char_not_underscore (n : N) : pretty_N_char n ≠ "_"%char.
Proof. unfold pretty_N_char. by repeat case_match. Qed.

Lemma pretty_N_char_not_u (n : N) : pretty_N_char n ≠ "u"%char.
Proof. unfold pretty_N_char. by repeat case_match. Qed.

(** The text of a number is never the text of [undefined]. *)
Lemma pretty_Z_not_undefined (z : Z) : pretty z ≠ "undefined".
Proof.
  apply (char_free_pretty_Z "u" pretty_N_char_not_u ltac:(done) z "" "ndefined").
Qed.

Lemma toString_inj (v w : option Z) : JS.toString v = JS.toString w → v = w.
Proof.
  destruct v as [x|], w as [y|]; simpl; intros Heq; [|exfalso..|done].
  - f_equal. by apply (inj pretty).
  - by apply (pretty_Z_not_undefined x).
  - by apply (pretty_Z_not_undefined y).
Qed.

Lemma char_free_toString (v : option Z) : char_free "_" (JS.toString v).
Proof.
  destruct v as [z|]; simpl.
  - by apply char_free_pretty_Z; [apply pretty_N_char_not_underscore|].
  - repeat (apply char_free_String; [done|]). apply char_free_empty.
Qed.

Lemma app_underscore_inj (s1 s2 t1 t2 : string) :
  char_free "_" t1 → char_free "_" t2 →
  s1 +:+ String "_" t1 = s2 +:+ String "_" t2 → s1 = s2 ∧ t1 = t2.
Proof.
  intros Ht1 Ht2. revert s2.
  induction s1 as [|a s1 IH]; intros [|b s2]; simpl; intros [= ].
  - done.
  - subst. by destruct (Ht1 s2 t2).
  - subst. by destruct (Ht2 s1 t1).
  - subst. destruct (IH s2) as [-> ->]; done.
Qed.

(** The key of a prize determines the game and the place. *)
Lemma prizeKey_inj (g1 g2 : string) (p1 p2 : option Z) :
  prizeKey g1 p1 = prizeKey g2 p2 → g1 = g2 ∧ p1 = p2.
Proof.
  unfold prizeKey. intros Heq.
  apply app_underscore_inj in Heq as [-> Heq]; [|apply char_free_toString..].
  split; [done|]. by apply toString_inj.
Qed.

(** [prizeMap.get] on a pair for which no prize is recorded. *)
Lemma prizeMap_lookup_None (livePrizes : list LivePrize.t) (g : string) (pos : option Z) :
  (∀ prize, prize ∈ livePrizes →
     ¬ (LivePrize.liveGameId prize = g ∧ Some (LivePrize.place prize) = pos)) →
  prizeMap livePrizes !! prizeKey g pos = None.
Proof.
  intros Hno. unfold prizeMap.
  apply (foldl_insert_lookup_None
           (λ prize, prizeKey (LivePrize.liveGameId prize) (Some (LivePrize.place prize)))
           LivePrize.amount).
  intros prize Hin Hkey. apply prizeKey_inj in Hkey. by apply (Hno prize).
Qed.

(** [prizeMap.get] on a recorded pair: the amount of the last such record. *)
Lemma prizeMap_lookup_Some (livePrizes : list LivePrize.t) (g : string) (p : Z)
    (prize : LivePrize.t) :
  last (filter (λ x, LivePrize.liveGameId x = g ∧ LivePrize.place x = p) livePrizes)
  = Some prize →
  prizeMap livePrizes !! prizeKey g (Some p) = Some (LivePrize.amount prize).
Proof.
  intros Hlast. unfold prizeMap.
  rewrite (foldl_insert_lookup
             (λ x, prizeKey (LivePrize.liveGameId x) (Some (LivePrize.place x)))
             LivePrize.amount).
  erewrite (list_filter_iff _ (λ x, LivePrize.liveGameId x = g ∧ LivePrize.place x = p)).
  - by rewrite Hlast.
  - intros x. split.
    + intros [? [= ?]]%prizeKey_inj. done.
    + by intros [-> ->].
Qed.

(** ** Points resolution *)

Lemma pointLevelMap_lookup (pointLevels : list PointLevel.t) (p : Z) :
  pointLevelMap pointLevels !! p
  = PointLevel.amount <$> last (filter (λ l, PointLevel.levelNum l = p) pointLevels).
Proof.
  unfold pointLevelMap.
  rewrite (foldl_insert_lookup PointLevel.levelNum PointLevel.amount).
  by destruct (last _).
Qed.

Lemma calculatedPoints_unmapped (pointLevels : list PointLevel.t) (position : option Z) :
  (∀ level, level ∈ pointLevels → Some (PointLevel.levelNum level) ≠ position) →
  calculatedPoints (pointLevelMap pointLevels) position = 0.
Proof.
  intros Hno. unfold calculatedPoints.
  destruct position as [p|]; simpl; [|done].
  rewrite pointLevelMap_lookup.
  destruct (last _) as [level|] eqn:Hlast; simpl; [|by destruct (JS.truthy p)].
  apply last_Some_elem_of, list_elem_of_filter in Hlast as [Hp Hin].
  destruct (Hno level Hin). by rewrite Hp.
Qed.

Lemma calculatedPoints_mapped (levels : gmap Z Z) (p amount : Z) :
  p ≠ 0 → levels !! p = Some amount → calculatedPoints levels (Some p) = amount.
Proof.
  intros Hp Hl. unfold calculatedPoints. simpl. rewrite Hl. simpl.
  unfold JS.truthy. destruct (Z.eqb_spec p 0); [done|]. simpl.
  by destruct (Z.eqb_spec amount 0).
Qed.

(** C1. A participation whose finishing position has no entry in the
    point-level table resolves, in the game history and in the single-game
    results alike, to exactly 0 points (a number, never [undefined]); and for a
    position that has an entry the levels table answers with that entry's
    amount (the last one recorded for the position), which is also the points
    of a row finishing there. *)
Theorem points_default_zero_and_table_lookup
    (pointLevels : list PointLevel.t) (pg : LivePlayer.t)
    (gm : gmap string LiveGame.t) (sm : gmap string TournamentSchedule.t)
    (pm : gmap string Player.t) (pzm : gmap string Z) (game : LiveGame.t) :
  let plm := pointLevelMap pointLevels in
  ((∀ level, level ∈ pointLevels →
      Some (PointLevel.levelNum level) ≠ LivePlayer.placed pg) →
   PlayerGameHistory.points (PlayerDetailModal.historyEntry gm sm plm pzm pg) = Some 0
   ∧ GameResult.points (GameResultsModal.resultRow game pm plm pzm pg) = 0)
  ∧ (∀ p level,
       last (filter (λ l, PointLevel.levelNum l = p) pointLevels) = Some level →
       plm !! p = Some (PointLevel.amount level)
       ∧ (LivePlayer.placed pg = Some p → p ≠ 0 →
          PlayerGameHistory.points (PlayerDetailModal.historyEntry gm sm plm pzm pg)
          = Some (PointLevel.amount level)
          ∧ GameResult.points (GameResultsModal.resultRow game pm plm pzm pg)
            = PointLevel.amount level)).
Proof.
  intros plm. split.
  - intros Hno. simpl. unfold plm. by rewrite calculatedPoints_unmapped.
  - intros p level Hlast.
    assert (plm !! p = Some (PointLevel.amount level)) as Hl.
    { unfold plm. by rewrite pointLevelMap_lookup, Hlast. }
    split; [done|]. intros Hpg Hp. simpl. rewrite Hpg.
    by rewrite (calculatedPoints_mapped plm p _ Hp Hl).
Qed.

(** The example of the specification: with the table {1→50, 2→30, 3→20}, a
    fourth place earns 0 points and a second place earns 30. *)
Lemma points_default_zero_and_table_lookup_witness :
  PlayerGameHistory.points
    (PlayerDetailModal.historyEntry ∅ ∅ (pointLevelMap Sample.pointLevels) ∅
       (LivePlayer.mk "r2" "T1" "G1" "p3" (Some 4))) = Some 0
  ∧ pointLevelMap Sample.pointLevels !! 2 = Some 30
  ∧ PlayerGameHistory.points
      (PlayerDetailModal.historyEntry ∅ ∅ (pointLevelMap Sample.pointLevels) ∅
         (LivePlayer.mk "r3" "T1" "G1" "p2" (Some 2))) = Some 30.
Proof.
  pose (fourth := LivePlayer.mk "r2" "T1" "G1" "p3" (Some 4)).
  pose (second := LivePlayer.mk "r3" "T1" "G1" "p2" (Some 2)).
  pose (game := LiveGame.mk "G1" "T1" (Some "S1") (Some 4) (Some 500)).
  pose (level2 := PointLevel.mk "L2" "P1" 2 30 "org1").
  split.
  - apply (points_default_zero_and_table_lookup
             Sample.pointLevels fourth ∅ ∅ ∅ ∅ game).
    intros level Hin. vm_compute in Hin.
    repeat (apply elem_of_cons in Hin as [->|Hin]; [by vm_compute|]).
    by apply elem_of_nil in Hin.
  - destruct (points_default_zero_and_table_lookup
                Sample.pointLevels second ∅ ∅ ∅ ∅ game) as [_ Hmapped].
    destruct (Hmapped 2 level2) as [Hget Hrow]; [reflexivity|].
    split; [exact Hget|]. by apply Hrow.
Defined.

(** ** Prize resolution *)

Lemma last_filter_game_prizes (livePrizes : list LivePrize.t) (g : string) (p : Z) :
  filter (λ x, LivePrize.liveGameId x = g ∧ LivePrize.place x = p)
         (filter (λ prize, LivePrize.liveGameId prize = g) livePrizes)
  = filter (λ x, LivePrize.liveGameId x = g ∧ LivePrize.place x = p) livePrizes.
Proof.
  rewrite list_filter_filter. apply list_filter_iff. intros x. tauto.
Qed.

(** C2 (as the code has it). For a participation of game [game] whose
    (game, position) pair has no prize record, the game history resolves the
    prize to [undefined], which is not the value [0] it resolves a recorded
    prize of 0 to; the single-game results resolve the prize to the number 0
    in both cases. *)
Theorem absent_prize_resolution
    (livePrizes : list LivePrize.t) (game : LiveGame.t) (pg : LivePlayer.t)
    (gm : gmap string LiveGame.t) (sm : gmap string TournamentSchedule.t)
    (pm : gmap string Player.t) (plm : gmap Z Z) :
  LivePlayer.liveGameId pg = LiveGame.id game →
  let history :=
    PlayerDetailModal.historyEntry gm sm plm (prizeMap livePrizes) pg in
  let result :=
    GameResultsModal.resultRow game pm plm
      (prizeMap (filter (λ prize, LivePrize.liveGameId prize = LiveGame.id game)
                        livePrizes)) pg in
  ((∀ prize, prize ∈ livePrizes →
      ¬ (LivePrize.liveGameId prize = LiveGame.id game
         ∧ Some (LivePrize.place prize) = LivePlayer.placed pg)) →
   PlayerGameHistory.prizeMoney history = None
   ∧ GameResult.prizeMoney result = 0)
  ∧ (∀ p prize,
       LivePlayer.placed pg = Some p →
       last (filter (λ x, LivePrize.liveGameId x = LiveGame.id game
                          ∧ LivePrize.place x = p) livePrizes) = Some prize →
       LivePrize.amount prize = 0 →
       PlayerGameHistory.prizeMoney history = Some 0
       ∧ GameResult.prizeMoney result = 0).
Proof.
  intros Hgame history result. unfold history, result. simpl. rewrite Hgame.
  split.
  - intros Hno. split; [by apply prizeMap_lookup_None|].
    rewrite prizeMap_lookup_None; [done|].
    intros prize [_ Hin]%list_elem_of_filter. by apply Hno.
  - intros p prize -> Hlast Hzero.
    rewrite (prizeMap_lookup_Some livePrizes _ p prize Hlast).
    rewrite (prizeMap_lookup_Some _ _ p prize)
      by (by rewrite last_filter_game_prizes).
    by rewrite Hzero.
Qed.

(** On the sample: second place of G1 has no prize in [Sample.livePrizes] and
    a prize of 0 in [Sample.livePrizesWithZero]. *)
Lemma absent_prize_resolution_witness :
  PlayerGameHistory.prizeMoney
    (PlayerDetailModal.historyEntry ∅ ∅ ∅ (prizeMap Sample.livePrizes)
       (LivePlayer.mk "r3" "T1" "G1" "p2" (Some 2))) = None
  ∧ PlayerGameHistory.prizeMoney
      (PlayerDetailModal.historyEntry ∅ ∅ ∅ (prizeMap Sample.livePrizesWithZero)
         (LivePlayer.mk "r3" "T1" "G1" "p2" (Some 2))) = Some 0.
Proof.
  pose (second := LivePlayer.mk "r3" "T1" "G1" "p2" (Some 2)).
  pose (game := LiveGame.mk "G1" "T1" (Some "S1") (Some 4) (Some 500)).
  split.
  - refine (proj1 (proj1 (absent_prize_resolution
                            Sample.livePrizes game second ∅ ∅ ∅ ∅ eq_refl) _)).
    intros prize Hin. vm_compute in Hin.
    repeat (apply elem_of_cons in Hin as [->|Hin]; [by intros [_ [= ]]|]).
    by apply elem_of_nil in Hin.
  - refine (proj1 (proj2 (absent_prize_resolution
                            Sample.livePrizesWithZero game second ∅ ∅ ∅ ∅ eq_refl)
                         2 (LivePrize.mk "z2" "T1" "G1" 2 0) eq_refl _ eq_refl)).
    reflexivity.
Defined.

(** C2 (as stated) fails in the single-game results: the table computed when
    second place of G1 has no prize record is the table computed when a prize
    of 0 is recorded for it, so the resolved value does not tell them apart. *)
Lemma absent_prize_collapsed_in_game_results :
  (∀ prize, prize ∈ Sample.livePrizes →
     ¬ (LivePrize.liveGameId prize = "G1" ∧ LivePrize.place prize = 2))
  ∧ LivePrize.mk "z2" "T1" "G1" 2 0 ∈ Sample.livePrizesWithZero
  ∧ GameResultsModal.results (Sample.gameResults Sample.livePrizes) !! 1%nat
    = Some (GameResult.mk 2 "Bob Bluff" 30 0)
  ∧ GameResultsModal.results (Sample.gameResults Sample.livePrizesWithZero) !! 1%nat
    = Some (GameResult.mk 2 "Bob Bluff" 30 0)
  ∧ ¬ (GameResultsModal.results (Sample.gameResults Sample.livePrizes)
       ≠ GameResultsModal.results (Sample.gameResults Sample.livePrizesWithZero)).
Proof.
  repeat split.
  - intros prize Hin. vm_compute in Hin.
    repeat (apply elem_of_cons in Hin as [->|Hin]; [by intros [_ [= ]]|]).
    by apply elem_of_nil in Hin.
  - unfold Sample.livePrizesWithZero. apply elem_of_app. right. left.
  - intros Hne. by apply Hne; vm_compute.
Qed.

(** ** The game-history resolver *)

Section list_helpers.
Context {A B : Type}.

Lemma filter_fmap_comm (f : A → B) (P : B → Prop) `{!∀ y, Decision (P y)} (l : list A) :
  filter P (f <$> l) = f <$> filter (λ x, P (f x)) l.
Proof.
  induction l as [|x l IH]; [done|].
  rewrite fmap_cons, !filter_cons, IH. by case_decide.
Qed.

Lemma filter_ext_elem (P Q : A → Prop)
    `{!∀ x, Decision (P x)} `{!∀ x, Decision (Q x)} (l : list A) :
  (∀ x, x ∈ l → P x ↔ Q x) → filter P l = filter Q l.
Proof.
  induction l as [|x l IH]; intros HPQ; [done|].
  rewrite !filter_cons, IH by (intros y Hy; apply HPQ; by right).
  pose proof (HPQ x ltac:(left)). repeat case_decide; tauto.
Qed.

Lemma StronglySorted_weaken (R R' : A → A → Prop) (l : list A) :
  (∀ a b, a ∈ l → b ∈ l → R a b → R' a b) →
  StronglySorted R l → StronglySorted R' l.
Proof.
  induction l as [|x l IH]; intros HR Hs; [constructor|].
  apply StronglySorted_inv in Hs as [Hs Hx]. constructor.
  - apply IH; [|done]. intros a b Ha Hb. apply HR; by right.
  - rewrite Forall_forall in Hx |- *. intros y Hy.
    apply HR; [left|by right|by apply Hx].
Qed.

End list_helpers.

Lemma truthy_str_or_str (v : option string) :
  JS.truthy_str (JS.or_str v "") = JS.truthy_ostr v.
Proof. destruct v as [[|a s]|]; done. Qed.

Section history.
Variable Date_getTime : string → option Z.
Variable player : LeaderboardEntry.t.

Lemma buildHistory_spec
    (pointLevels : list PointLevel.t) (livePlayers : list LivePlayer.t)
    (liveGames : list LiveGame.t) (schedules : list TournamentSchedule.t)
    (livePrizes : list LivePrize.t) :
  let gm := gameMap liveGames in
  let sm := scheduleMap schedules in
  let playerGames :=
    filter (λ lp, LivePlayer.playerId lp = LeaderboardEntry.playerId player)
           livePlayers in
  let expected :=
    PlayerDetailModal.historyEntry gm sm (pointLevelMap pointLevels) (prizeMap livePrizes)
      <$> filter (λ pg, JS.truthy_ostr (linkedDate gm sm pg)) playerGames in
  let history :=
    PlayerDetailModal.buildHistory Date_getTime player
      pointLevels livePlayers liveGames schedules livePrizes in
  history ≡ₚ expected
  ∧ ((∀ h, h ∈ expected → is_Some (Date_getTime (PlayerGameHistory.gameDate h))) →
     StronglySorted (notLater Date_getTime) history
     ∧ ∀ t, filter (λ h, playedAt Date_getTime h t) history
            = filter (λ h, playedAt Date_getTime h t) expected).
Proof.
  intros gm sm playerGames expected history.
  assert (history = JS.Array_sort (PlayerDetailModal.byDate Date_getTime) expected) as ->.
  { unfold history, PlayerDetailModal.buildHistory, expected.
    fold gm sm playerGames. f_equal.
    rewrite filter_fmap_comm. f_equal. apply list_filter_iff. intros pg.
    simpl. by rewrite truthy_str_or_str. }
  split; [apply Array_sort_Permutation|].
  intros Hvalid.
  set (key := λ h, default 0 (Date_getTime (PlayerGameHistory.gameDate h))).
  assert (∀ h, h ∈ expected → playedAt Date_getTime h (key h)) as Hkey.
  { intros h [t Ht]%Hvalid. unfold playedAt, key. by rewrite Ht. }
  assert (∀ a b, a ∈ expected → b ∈ expected →
            JS.sortCompare (PlayerDetailModal.byDate Date_getTime) a b ≤ 0
            ↔ key a ≤ key b) as Hcmp.
  { intros a b Ha%Hkey Hb%Hkey.
    unfold JS.sortCompare, PlayerDetailModal.byDate. unfold playedAt in Ha, Hb.
    rewrite Ha, Hb. simpl. lia. }
  split.
  - eapply StronglySorted_weaken;
      [|apply (Array_sort_StronglySorted _ key expected Hcmp)].
    intros a b Ha%Array_sort_elem_of Hb%Array_sort_elem_of Hle.
    exists (key a), (key b). auto.
  - intros t.
    rewrite (filter_ext_elem _ (λ h, key h = t) (JS.Array_sort _ _)).
    + rewrite (Array_sort_stable _ key expected t Hcmp).
      apply filter_ext_elem. intros h Hh%Hkey. unfold playedAt in *.
      split; [intros <-; done|congruence].
    + intros h Hh%Array_sort_elem_of%Hkey. unfold playedAt in *.
      split; [congruence|intros <-; done].
Qed.

End history.



(** Why the dates have to parse: the difference of two times is [NaN] as soon
    as one date is invalid, [sort] reads it as "equal", and an invalid date
    between two valid ones then hides their order from the comparator. *)
Example history_comparator_on_invalid_date :
  PlayerDetailModal.byDate Sample.Date_getTime
    (PlayerGameHistory.mk "2024-01-15" None None None None)
    (PlayerGameHistory.mk "tbc" None None None None) = None
  ∧ JS.sortCompare (PlayerDetailModal.byDate Sample.Date_getTime)
      (PlayerGameHistory.mk "tbc" None None None None)
      (PlayerGameHistory.mk "2024-01-08" None None None None) = 0.
Proof. split; reflexivity. Qed.

(** ** The single-game results resolver *)

Lemma or_num_sentinel (v : option Z) :
  JS.or_num v 999 ≠ 999
  ↔ match v with Some p => p ≠ 0 ∧ p ≠ 999 | None => False end.
Proof.
  destruct v as [p|]; simpl; [|tauto].
  unfold JS.truthy. destruct (Z.eqb_spec p 0); simpl; [subst; tauto|tauto].
Qed.

Lemma or_num_recorded (p : Z) : p ≠ 0 → JS.or_num (Some p) 999 = p.
Proof. intros Hp. simpl. unfold JS.truthy. by destruct (Z.eqb_spec p 0). Qed.

Lemma buildResults_spec
    (game : LiveGame.t) (pm : gmap string Player.t)
    (plm : gmap Z Z) (pzm : gmap string Z) (gamePlayers : list LivePlayer.t) :
  let rows :=
    GameResultsModal.resultRow game pm plm pzm <$> filter recordedPosition gamePlayers in
  let table := GameResultsModal.buildResults game pm plm pzm gamePlayers in
  table = JS.Array_sort GameResultsModal.byPosition rows
  ∧ table ≡ₚ rows
  ∧ StronglySorted (λ a b, GameResult.position a ≤ GameResult.position b) table
  ∧ ∀ p, filter (λ r, GameResult.position r = p) table
         = filter (λ r, GameResult.position r = p) rows.
Proof.
  intros rows table.
  assert (table = JS.Array_sort GameResultsModal.byPosition rows) as Htable.
  { unfold table, GameResultsModal.buildResults, rows. f_equal.
    rewrite filter_fmap_comm. f_equal. apply list_filter_iff. intros gp.
    simpl. apply or_num_sentinel. }
  assert (∀ a b : GameResult.t, a ∈ rows → b ∈ rows →
            JS.sortCompare GameResultsModal.byPosition a b ≤ 0
            ↔ GameResult.position a ≤ GameResult.position b) as Hcmp.
  { intros a b _ _. unfold JS.sortCompare, GameResultsModal.byPosition. lia. }
  rewrite Htable. split; [done|]. split; [apply Array_sort_Permutation|]. split.
  - by apply Array_sort_StronglySorted.
  - intros p. by apply (Array_sort_stable _ GameResult.position).
Qed.

Lemma find_first {A : Type} (f : A → bool) (l : list A) (x : A) :
  List.find f l = Some x →
  ∃ before after : list A,
    l = (before ++ x :: after)%list ∧ f x = true ∧ ∀ y, y ∈ before → f y = false.
Proof.
  induction l as [|y l IH]; simpl; [done|].
  destruct (f y) eqn:Hy.
  - intros [= ->]. exists [], l. split; [done|]. split; [done|].
    intros z Hz. by apply elem_of_nil in Hz.
  - intros (before & after & -> & Hx & Hbefore)%IH.
    exists (y :: before), after. split; [done|]. split; [done|].
    intros z [->|Hz]%elem_of_cons; auto.
Qed.

Lemma strict_eq_true (a : option string) (b : string) :
  JS.strict_eq a b = true ↔ a = Some b.
Proof.
  destruct a as [s|]; simpl; [|done].
  rewrite bool_decide_eq_true. split; congruence.
Qed.

Lemma foldl_sum_acc {A : Type} (f : A → Z) (l : list A) (a : Z) :
  foldl (λ sum r, sum + f r) a l = a + JS.reduce_sum f l.
Proof.
  unfold JS.reduce_sum. revert a.
  induction l as [|x l IH]; intros a; simpl; [lia|].
  rewrite (IH (a + f x)), (IH (0 + f x)). lia.
Qed.

Lemma reduce_sum_cons {A : Type} (f : A → Z) (x : A) (l : list A) :
  JS.reduce_sum f (x :: l) = f x + JS.reduce_sum f l.
Proof. unfold JS.reduce_sum at 1. simpl. by rewrite foldl_sum_acc. Qed.

Lemma reduce_sum_Permutation {A : Type} (f : A → Z) (l1 l2 : list A) :
  l1 ≡ₚ l2 → JS.reduce_sum f l1 = JS.reduce_sum f l2.
Proof.
  induction 1 as [|x l1 l2 _ IH|x y l|l1 l2 l3 _ IH1 _ IH2];
    rewrite ?reduce_sum_cons; [done|by rewrite IH|lia|congruence].
Qed.

(** C4. The single-game results resolver takes the first played game whose
    [scheduleId] is the schedule's id; the table it stores holds the rows of
    exactly those players of that game that have a finishing position, in
    ascending order of position; and the prize pool it stores is the sum of
    the prize amounts of these rows, whatever [totalPot] the played game
    carries. *)
Theorem game_results_sorted_with_summed_prize_pool
    (ORG_ID : string) (fetchAPI : FetchAPI.t) (schedule : TournamentSchedule.t)
    (tournamentId : string) (st : GameResultsModal.State) (game : LiveGame.t) :
  GameResultsModal.findGame fetchAPI schedule tournamentId = Some game →
  let st' :=
    GameResultsModal.loadGameResults ORG_ID fetchAPI schedule tournamentId st in
  let pm := playerMap (PokerLeagueAPI.getPlayers ORG_ID fetchAPI) in
  let plm :=
    pointLevelMap
      (GameResultsModal.pointLevelsOf fetchAPI
         (List.find (λ t, bool_decide (Tournament.id t = tournamentId))
                    (PokerLeagueAPI.getTournaments ORG_ID fetchAPI))) in
  let pzm :=
    prizeMap (filter (λ prize, LivePrize.liveGameId prize = LiveGame.id game)
                     (PokerLeagueAPI.getLivePrizes fetchAPI tournamentId)) in
  let rows :=
    GameResultsModal.resultRow game pm plm pzm
      <$> filter recordedPosition
                 (filter (λ lp, LivePlayer.liveGameId lp = LiveGame.id game)
                         (PokerLeagueAPI.getLivePlayers fetchAPI tournamentId)) in
  (∃ before after : list LiveGame.t,
      PokerLeagueAPI.getLiveGames fetchAPI tournamentId = (before ++ game :: after)%list
      ∧ LiveGame.scheduleId game = Some (TournamentSchedule.id schedule)
      ∧ ∀ g, g ∈ before →
             LiveGame.scheduleId g ≠ Some (TournamentSchedule.id schedule))
  ∧ GameResultsModal.results st' ≡ₚ rows
  ∧ StronglySorted (λ a b, GameResult.position a ≤ GameResult.position b)
                   (GameResultsModal.results st')
  ∧ GameResultsModal.totalPrizePool st'
    = JS.reduce_sum GameResult.prizeMoney (GameResultsModal.results st')
  ∧ JS.reduce_sum GameResult.prizeMoney (GameResultsModal.results st')
    = JS.reduce_sum GameResult.prizeMoney rows.
Proof.
  intros Hfind st' pm plm pzm rows.
  split.
  { apply find_first in Hfind as (before & after & Hl & Hgame & Hbefore).
    exists before, after. split; [done|]. split; [by apply strict_eq_true|].
    intros g Hg Hsched%strict_eq_true. by rewrite (Hbefore g Hg) in Hsched. }
  destruct (buildResults_spec game pm plm pzm
              (GameResultsModal.gamePlayersOf fetchAPI tournamentId game))
    as (_ & Hperm & Hsorted & _).
  assert (GameResultsModal.results st'
          = GameResultsModal.buildResults game pm plm pzm
              (GameResultsModal.gamePlayersOf fetchAPI tournamentId game)) as Hres.
  { unfold st', GameResultsModal.loadGameResults. by rewrite Hfind. }
  assert (GameResultsModal.totalPrizePool st'
          = JS.reduce_sum GameResult.prizeMoney (GameResultsModal.results st')) as Hpool.
  { unfold st', GameResultsModal.loadGameResults. by rewrite Hfind. }
  rewrite Hpool, Hres. split; [exact Hperm|]. split; [exact Hsorted|].
  split; [done|]. by apply reduce_sum_Permutation.
Qed.

(** On the sample, G1 is the game of schedule S1; its record carries a
    [totalPot] of 500, and the pool shown is the 100 of the one prize paid. *)
Lemma game_results_sorted_with_summed_prize_pool_witness :
  GameResultsModal.totalPrizePool (Sample.gameResults Sample.livePrizes)
  = JS.reduce_sum GameResult.prizeMoney
      (GameResultsModal.results (Sample.gameResults Sample.livePrizes))
  ∧ GameResultsModal.totalPrizePool (Sample.gameResults Sample.livePrizes) = 100
  ∧ GameResult.position <$> GameResultsModal.results (Sample.gameResults Sample.livePrizes)
    = [1; 2; 4].
Proof.
  split; [|split; reflexivity].
  exact (proj1 (proj2 (proj2 (proj2
           (game_results_sorted_with_summed_prize_pool
              Sample.ORG_ID Sample.fetchAPI Sample.schedule1 "T1"
              GameResultsModal.initialState
              (LiveGame.mk "G1" "T1" (Some "S1") (Some 4) (Some 500))
              eq_refl))))).
Defined.

(** Without a played game for the schedule the table is emptied and the
    other figures of the previous load are left as they were. *)
Lemma loadGameResults_no_game
    (ORG_ID : string) (fetchAPI : FetchAPI.t) (schedule : TournamentSchedule.t)
    (tournamentId : string) (st : GameResultsModal.State) :
  GameResultsModal.findGame fetchAPI schedule tournamentId = None →
  GameResultsModal.loadGameResults ORG_ID fetchAPI schedule tournamentId st
  = GameResultsModal.mkState [] false
      (GameResultsModal.totalPlayers st) (GameResultsModal.totalPrizePool st).
Proof.
  intros Hnone. unfold GameResultsModal.loadGameResults. by rewrite Hnone.
Qed.

(** C10. The single-game results resolver turns a missing or falsy position
    into the number 999 and then drops every row whose position is 999: no row
    of the stored table has position 999 or 0, and the table is the one
    computed from the players of the game without the rows whose [placed] is
    undefined, 0 or 999. *)
Theorem sentinel_999_rows_excluded
    (ORG_ID : string) (fetchAPI : FetchAPI.t) (schedule : TournamentSchedule.t)
    (tournamentId : string) (st : GameResultsModal.State)
    (game : LiveGame.t) (pm : gmap string Player.t)
    (plm : gmap Z Z) (pzm : gmap string Z) (gamePlayers : list LivePlayer.t) :
  (∀ r, r ∈ GameResultsModal.results
              (GameResultsModal.loadGameResults ORG_ID fetchAPI schedule tournamentId st) →
        GameResult.position r ≠ 999 ∧ GameResult.position r ≠ 0)
  ∧ (∀ gp, LivePlayer.placed gp = None ∨ LivePlayer.placed gp = Some 0
           ∨ LivePlayer.placed gp = Some 999 →
           GameResult.position (GameResultsModal.resultRow game pm plm pzm gp) = 999)
  ∧ GameResultsModal.buildResults game pm plm pzm gamePlayers
    = GameResultsModal.buildResults game pm plm pzm
        (filter (λ gp, LivePlayer.placed gp ≠ None ∧ LivePlayer.placed gp ≠ Some 0
                       ∧ LivePlayer.placed gp ≠ Some 999) gamePlayers)
  ∧ (∀ r, r ∈ GameResultsModal.buildResults game pm plm pzm gamePlayers →
          ∃ gp, gp ∈ gamePlayers
                ∧ LivePlayer.placed gp = Some (GameResult.position r)
                ∧ GameResult.position r ≠ 999 ∧ GameResult.position r ≠ 0
                ∧ r = GameResultsModal.resultRow game pm plm pzm gp).
Proof.
  assert (∀ game pm plm pzm gamePlayers r,
            r ∈ GameResultsModal.buildResults game pm plm pzm gamePlayers →
            ∃ gp, gp ∈ gamePlayers
                  ∧ LivePlayer.placed gp = Some (GameResult.position r)
                  ∧ GameResult.position r ≠ 999 ∧ GameResult.position r ≠ 0
                  ∧ r = GameResultsModal.resultRow game pm plm pzm gp) as Hrow.
  { clear. intros game pm plm pzm gamePlayers r Hr.
    destruct (buildResults_spec game pm plm pzm gamePlayers) as (_ & Hperm & _).
    rewrite Hperm in Hr.
    apply list_elem_of_fmap in Hr as (gp & -> & [Hrec Hgp]%list_elem_of_filter).
    exists gp. unfold recordedPosition in Hrec. simpl.
    destruct (LivePlayer.placed gp) as [p|]; [|done]. destruct Hrec as [H0 H999].
    rewrite (or_num_recorded p H0). done. }
  split; [|split; [|split]].
  - intros r Hr. unfold GameResultsModal.loadGameResults in Hr.
    destruct (GameResultsModal.findGame _ _ _); simpl in Hr.
    + apply Hrow in Hr as (gp & _ & _ & H999 & H0 & _). done.
    + by apply elem_of_nil in Hr.
  - intros gp [Hp|[Hp|Hp]]; simpl; by rewrite Hp.
  - destruct (buildResults_spec game pm plm pzm gamePlayers) as [-> _].
    destruct (buildResults_spec game pm plm pzm
                (filter (λ gp, LivePlayer.placed gp ≠ None
                               ∧ LivePlayer.placed gp ≠ Some 0
                               ∧ LivePlayer.placed gp ≠ Some 999) gamePlayers))
      as [-> _].
    do 2 f_equal. rewrite list_filter_filter. apply list_filter_iff.
    intros gp. unfold recordedPosition.
    destruct (LivePlayer.placed gp) as [p|]; [|tauto].
    split; [|tauto]. intros [H0 H999]. repeat split; congruence.
  - apply Hrow.
Qed.

(** On the sample, the rows of G1 placed 999, 0 and nowhere get the sentinel
    and leave the table as if they had not been fetched. *)
Lemma sentinel_999_rows_excluded_witness :
  GameResult.position
    (GameResultsModal.resultRow
       (LiveGame.mk "G1" "T1" (Some "S1") (Some 4) (Some 500))
       ∅ ∅ ∅ (LivePlayer.mk "r9" "T1" "G1" "p5" (Some 0))) = 999
  ∧ GameResult.position
      <$> GameResultsModal.buildResults
            (LiveGame.mk "G1" "T1" (Some "S1") (Some 4) (Some 500))
            ∅ ∅ ∅ Sample.livePlayers
    = [1; 1; 2; 2; 3; 4].
Proof.
  pose (game := LiveGame.mk "G1" "T1" (Some "S1") (Some 4) (Some 500)).
  pose (zero := LivePlayer.mk "r9" "T1" "G1" "p5" (Some 0)).
  destruct (sentinel_999_rows_excluded Sample.ORG_ID Sample.fetchAPI
              Sample.schedule1 "T1" GameResultsModal.initialState
              game ∅ ∅ ∅ Sample.livePlayers) as (_ & Hsentinel & Hsame & _).
  split.
  - apply (Hsentinel zero). right. left. reflexivity.
  - fold game. rewrite Hsame. reflexivity.
Defined.

(** ** The leaderboard ranker *)

Lemma or_num_zero (x : Z) : JS.or_num (Some x) 0 = x.
Proof. simpl. unfold JS.truthy. by destruct (Z.eqb_spec x 0). Qed.

Lemma getSortedLeaderboard_unfold (st : Leaderboard.State) :
  Leaderboard.getSortedLeaderboard st
  = JS.Array_sort (viewComparator (Leaderboard.view st)) (Leaderboard.leaderboard st).
Proof. unfold Leaderboard.getSortedLeaderboard. by destruct (Leaderboard.view st). Qed.

Lemma viewComparator_descending (v : LeaderboardView) (a b : LeaderboardEntry.t) :
  JS.sortCompare (viewComparator v) a b ≤ 0 ↔ - metric v a ≤ - metric v b.
Proof.
  unfold JS.sortCompare, viewComparator. rewrite !or_num_zero. lia.
Qed.

(** C5. Under each of the four views the sorted leaderboard is a permutation
    of the stored entries, in descending order of the metric of the view, the
    entries of one metric value keeping the order they are stored in; and the
    list shown after switching to a view is the same whatever view was shown
    before. *)
Theorem sorted_leaderboard_descending_stable
    (v : LeaderboardView) (st : Leaderboard.State) :
  let sorted := Leaderboard.getSortedLeaderboard (Leaderboard.setView v st) in
  sorted ≡ₚ Leaderboard.leaderboard st
  ∧ StronglySorted (λ a b, metric v b ≤ metric v a) sorted
  ∧ (∀ k, filter (λ e, metric v e = k) sorted
          = filter (λ e, metric v e = k) (Leaderboard.leaderboard st))
  ∧ (∀ v', Leaderboard.getSortedLeaderboard
             (Leaderboard.setView v (Leaderboard.setView v' st)) = sorted).
Proof.
  intros sorted. unfold sorted. rewrite getSortedLeaderboard_unfold. simpl.
  assert (∀ a b, a ∈ Leaderboard.leaderboard st → b ∈ Leaderboard.leaderboard st →
            JS.sortCompare (viewComparator v) a b ≤ 0
            ↔ - metric v a ≤ - metric v b) as Hcmp.
  { intros a b _ _. apply viewComparator_descending. }
  split; [apply Array_sort_Permutation|]. split; [|split].
  - eapply StronglySorted_weaken;
      [|apply (Array_sort_StronglySorted _ (λ e, - metric v e) _ Hcmp)].
    simpl. intros a b _ _. lia.
  - intros k.
    rewrite (list_filter_iff _ (λ e, - metric v e = - k))
      by (intros e; lia).
    rewrite (Array_sort_stable _ (λ e, - metric v e) _ (- k) Hcmp).
    apply list_filter_iff. intros e. lia.
  - intros v'. by rewrite getSortedLeaderboard_unfold.
Qed.

(** On the sample, p1 and p2 are tied on points and stay in stored order
    under the points view, while the winnings view puts p2 first. *)
Example sorted_leaderboard_sample :
  LeaderboardEntry.playerId
    <$> Leaderboard.getSortedLeaderboard
          (Leaderboard.loadLeaderboard Sample.ORG_ID Sample.fetchAPI "T1"
             Leaderboard.initialState)
  = ["p1"; "p2"; "p3"; "p9"]
  ∧ LeaderboardEntry.playerId
      <$> Leaderboard.getSortedLeaderboard
            (Leaderboard.setView winnings
               (Leaderboard.loadLeaderboard Sample.ORG_ID Sample.fetchAPI "T1"
                  Leaderboard.initialState))
    = ["p2"; "p1"; "p3"; "p9"].
Proof. split; reflexivity. Qed.

(** C9. Sorting again, by the same view, a leaderboard that is already sorted
    by that view gives the same list. *)
Theorem resort_idempotent (st : Leaderboard.State) :
  Leaderboard.getSortedLeaderboard
    (Leaderboard.setLeaderboard (Leaderboard.getSortedLeaderboard st) st)
  = Leaderboard.getSortedLeaderboard st.
Proof.
  rewrite !getSortedLeaderboard_unfold. simpl.
  apply (Array_sort_idemp _ (λ e, - metric (Leaderboard.view st) e)).
  intros a b _ _. apply viewComparator_descending.
Qed.

Lemma imap_pair_snd {A C : Type} (f : nat → C) (l : list A) :
  (imap (λ i x, (f i, x)) l).*2 = l.
Proof.
  revert f. induction l as [|x l IH]; intros f; [done|].
  rewrite imap_cons, fmap_cons. simpl. f_equal. apply (IH (f ∘ S)).
Qed.

Lemma imap_pair_fst {A C : Type} (f : nat → C) (l : list A) :
  (imap (λ i x, (f i, x)) l).*1 = f <$> seq 0 (length l).
Proof.
  revert f. induction l as [|x l IH]; intros f; [done|].
  rewrite imap_cons, fmap_cons. simpl. f_equal.
  rewrite <-fmap_S_seq, <-list_fmap_compose. apply (IH (f ∘ S)).
Qed.

(** The rank cell of a table row is the 1-based index of the row in the list
    [getSortedLeaderboard] returns. *)
Lemma tableRows_lookup (st : Leaderboard.State) (i : nat) (rank : Z)
    (entry : LeaderboardEntry.t) :
  Leaderboard.tableRows st !! i = Some (rank, entry)
  ↔ Leaderboard.getSortedLeaderboard st !! i = Some entry ∧ rank = Z.of_nat i + 1.
Proof.
  unfold Leaderboard.tableRows. rewrite list_lookup_imap.
  destruct (Leaderboard.getSortedLeaderboard st !! i) as [e|]; simpl;
    [|by split; [|intros [? _]]].
  split; [by intros [= <- <-]|by intros [[= ->] ->]].
Qed.

Section sorted_lookup.
Context {A : Type} (R : A → A → Prop).

Lemma lookup_split_lt (l : list A) (i j : nat) (a b : A) :
  l !! i = Some a → l !! j = Some b → (i < j)%nat →
  a ∈ take (S i) l ∧ b ∈ drop (S i) l.
Proof.
  intros Ha Hb Hij. split.
  - apply (list_elem_of_lookup_2 _ i). rewrite lookup_take_lt by lia. done.
  - apply (list_elem_of_lookup_2 _ (j - S i)). rewrite lookup_drop.
    by replace (S i + (j - S i))%nat with j by lia.
Qed.

Lemma StronglySorted_app_elem_of (l1 l2 : list A) (x1 x2 : A) :
  StronglySorted R (l1 ++ l2) → x1 ∈ l1 → x2 ∈ l2 → R x1 x2.
Proof.
  induction l1 as [|y l1 IH]; simpl; intros Hs H1 H2; [by apply elem_of_nil in H1|].
  apply StronglySorted_inv in Hs as [Hs Hy].
  apply elem_of_cons in H1 as [->|H1]; [|by apply IH].
  rewrite Forall_forall in Hy. apply Hy, elem_of_app. by right.
Qed.

Lemma StronglySorted_lookup (l : list A) (i j : nat) (a b : A) :
  StronglySorted R l → l !! i = Some a → l !! j = Some b → (i < j)%nat → R a b.
Proof.
  intros Hs Ha Hb Hij. rewrite <-(take_drop (S i) l) in Hs.
  destruct (lookup_split_lt l i j a b Ha Hb Hij).
  by eapply StronglySorted_app_elem_of.
Qed.

Lemma StronglySorted_filter_lookup (P : A → Prop) `{!∀ x, Decision (P x)}
    (l : list A) (i j : nat) (a b : A) :
  StronglySorted R (filter P l) →
  l !! i = Some a → l !! j = Some b → (i < j)%nat → P a → P b → R a b.
Proof.
  intros Hs Ha Hb Hij HPa HPb. rewrite <-(take_drop (S i) l), filter_app in Hs.
  destruct (lookup_split_lt l i j a b Ha Hb Hij).
  eapply StronglySorted_app_elem_of; [exact Hs|..]; by apply list_elem_of_filter.
Qed.

Lemma StronglySorted_of_lookup (l : list A) :
  (∀ i j a b, l !! i = Some a → l !! j = Some b → (i < j)%nat → R a b) →
  StronglySorted R l.
Proof.
  induction l as [|x l IH]; intros Hl; [constructor|]. constructor.
  - apply IH. intros i j a b Ha Hb Hij. apply (Hl (S i) (S j)); [done..|lia].
  - apply Forall_forall. intros b [j Hb]%list_elem_of_lookup_1.
    apply (Hl 0%nat (S j)); [done..|lia].
Qed.

Lemma StronglySorted_filter (P : A → Prop) `{!∀ x, Decision (P x)} (l : list A) :
  StronglySorted R l → StronglySorted R (filter P l).
Proof.
  induction 1 as [|x l Hs IH Hx]; [constructor|].
  rewrite filter_cons. case_decide; [|done]. constructor; [done|].
  rewrite Forall_forall in Hx. apply Forall_forall.
  intros y [_ Hy]%list_elem_of_filter. by apply Hx.
Qed.

End sorted_lookup.

(** C8 (as the code has it). The rank number shown in a row of the
    leaderboard table is the 1-based index of the row in the list sorted for
    the current view, computed from the index at every render: whichever view
    has been switched to, the rows are the stored entries in descending order
    of that view's metric, ranked 1, 2, ... from the top, entries of equal
    metric being ranked in fetched order.  The [rank] field that
    [loadLeaderboard] stores on each entry is another number: the 1-based
    index of the entry's standing in the fetched collection; it stays in the
    state and switching the view does not recompute it. *)
Theorem shown_rank_follows_view_stored_rank_follows_fetch
    (ORG_ID : string) (fetchAPI : FetchAPI.t) (tournamentId : string)
    (st : Leaderboard.State) (v : LeaderboardView) :
  let standings := PokerLeagueAPI.getTournamentPlayers fetchAPI tournamentId in
  let pm := playerMap (PokerLeagueAPI.getPlayers ORG_ID fetchAPI) in
  let loaded := Leaderboard.loadLeaderboard ORG_ID fetchAPI tournamentId st in
  let shown := Leaderboard.setView v loaded in
  let rows := Leaderboard.tableRows shown in
  rows.*1 = (λ i, Z.of_nat i + 1) <$> seq 0 (length standings)
  ∧ rows.*2 ≡ₚ Leaderboard.leaderboard loaded
  ∧ (∀ i rank entry,
       rows !! i = Some (rank, entry)
       ↔ Leaderboard.getSortedLeaderboard shown !! i = Some entry
         ∧ rank = Z.of_nat i + 1)
  ∧ (∀ r1 e1 r2 e2, (r1, e1) ∈ rows → (r2, e2) ∈ rows → r1 < r2 →
       metric v e2 ≤ metric v e1
       ∧ (metric v e1 = metric v e2 →
          LeaderboardEntry.rank e1 < LeaderboardEntry.rank e2))
  ∧ Leaderboard.leaderboard shown = Leaderboard.leaderboard loaded
  ∧ (∀ rank entry, (rank, entry) ∈ rows →
       ∃ index tp,
         standings !! index = Some tp
         ∧ entry = Leaderboard.entryOf pm index tp
         ∧ LeaderboardEntry.rank entry = Z.of_nat index + 1).
Proof.
  intros standings pm loaded shown rows.
  set (lb := imap (Leaderboard.entryOf pm) standings).
  set (sorted := JS.Array_sort (viewComparator v) lb).
  assert (Leaderboard.leaderboard loaded = lb) as Hlb by reflexivity.
  assert (Leaderboard.getSortedLeaderboard shown = sorted) as Hsorted.
  { rewrite getSortedLeaderboard_unfold. reflexivity. }
  assert (rows = imap (λ index entry, (Z.of_nat index + 1, entry)) sorted) as Hrows.
  { unfold rows, Leaderboard.tableRows. by rewrite Hsorted. }
  assert (∀ a b, a ∈ lb → b ∈ lb →
            JS.sortCompare (viewComparator v) a b ≤ 0
            ↔ - metric v a ≤ - metric v b) as Hcmp.
  { intros a b _ _. apply viewComparator_descending. }
  assert (∀ r e, (r, e) ∈ rows ↔ ∃ i, sorted !! i = Some e ∧ r = Z.of_nat i + 1)
    as Hrow.
  { intros r e. rewrite Hrows, elem_of_lookup_imap. split.
    - intros (i & e' & [= -> ->] & Hi). eauto.
    - intros (i & Hi & ->). eauto. }
  assert (StronglySorted
            (λ a b, LeaderboardEntry.rank a < LeaderboardEntry.rank b) lb) as Hranks.
  { apply StronglySorted_of_lookup. intros i j a b Ha Hb Hij. unfold lb in Ha, Hb.
    rewrite list_lookup_imap in Ha, Hb.
    destruct (standings !! i) as [tpa|]; [|done].
    destruct (standings !! j) as [tpb|]; [|done].
    injection Ha as <-. injection Hb as <-. simpl. lia. }
  split; [|split; [|split; [|split; [|split]]]].
  - rewrite Hrows, (imap_pair_fst (λ i, Z.of_nat i + 1)). do 2 f_equal.
    unfold sorted. rewrite Array_sort_Permutation. apply length_imap.
  - rewrite Hrows, (imap_pair_snd (λ i, Z.of_nat i + 1)), Hlb.
    apply Array_sort_Permutation.
  - intros i rank entry. apply tableRows_lookup.
  - intros r1 e1 r2 e2 (i & Hi & ->)%Hrow (j & Hj & ->)%Hrow Hlt.
    assert (i < j)%nat as Hij by lia. split.
    + pose proof (StronglySorted_lookup
                    (λ a b, - metric v a ≤ - metric v b) sorted i j e1 e2
                    (Array_sort_StronglySorted _ (λ e, - metric v e) lb Hcmp)
                    Hi Hj Hij) as Hle.
      simpl in Hle. lia.
    + intros Heq.
      apply (StronglySorted_filter_lookup
               (λ a b, LeaderboardEntry.rank a < LeaderboardEntry.rank b)
               (λ e, metric v e = metric v e1) sorted i j e1 e2); [|done..].
      unfold sorted.
      rewrite (list_filter_iff _ (λ e, - metric v e = - metric v e1))
        by (intros e; lia).
      rewrite (Array_sort_stable _ (λ e, - metric v e) lb _ Hcmp).
      by apply StronglySorted_filter.
  - reflexivity.
  - intros rank entry (i & Hi & ->)%Hrow.
    apply list_elem_of_lookup_2, Array_sort_elem_of in Hi.
    apply elem_of_lookup_imap in Hi as (index & tp & -> & Htp).
    by exists index, tp.
Qed.

(** C8 (as stated) fails for the stored rank: on the sample, under the
    winnings view, the entries are shown in the order p2, p1, p3, p9 while
    their stored ranks read 2, 1, 3, 4, so the rank stored on an entry is not
    its 1-based index in the currently sorted output. *)
Lemma stored_rank_stale_after_view_switch :
  LeaderboardEntry.rank
    <$> Leaderboard.getSortedLeaderboard
          (Leaderboard.setView winnings
             (Leaderboard.loadLeaderboard Sample.ORG_ID Sample.fetchAPI "T1"
                Leaderboard.initialState))
  = [2; 1; 3; 4]
  ∧ ¬ (∀ i e,
         Leaderboard.getSortedLeaderboard
           (Leaderboard.setView winnings
              (Leaderboard.loadLeaderboard Sample.ORG_ID Sample.fetchAPI "T1"
                 Leaderboard.initialState)) !! i = Some e →
         LeaderboardEntry.rank e = Z.of_nat i + 1).
Proof.
  split; [reflexivity|]. intros Hall.
  specialize (Hall 0%nat). vm_compute in Hall.
  specialize (Hall _ eq_refl). discriminate Hall.
Qed.

(** The [rank] field stored on an entry is its 1-based index in the fetched
    collection; the table does not show it.  Under the winnings view of the
    sample the first row is the entry stored with rank 2. *)
Example stored_rank_field_not_displayed :
  (λ row, (row.1, LeaderboardEntry.rank row.2, LeaderboardEntry.playerId row.2))
    <$> Leaderboard.tableRows
          (Leaderboard.setView winnings
             (Leaderboard.loadLeaderboard Sample.ORG_ID Sample.fetchAPI "T1"
                Leaderboard.initialState))
  = [(1, 2, "p2"); (2, 1, "p1"); (3, 3, "p3"); (4, 4, "p9")].
Proof. reflexivity. Qed.

Lemma entryOf_averagePoints (pm : gmap string Player.t) (index : nat)
    (tp : TournamentPlayer.t) :
  let e := Leaderboard.entryOf pm index tp in
  (0 < LeaderboardEntry.gamesPlayed e →
   (LeaderboardEntry.averagePoints e
    == inject_Z (LeaderboardEntry.totalPoints e)
       / inject_Z (LeaderboardEntry.gamesPlayed e))%Q)
  ∧ (LeaderboardEntry.gamesPlayed e = 0 → LeaderboardEntry.averagePoints e = 0%Q)
  ∧ (TournamentPlayer.gamesPlayed tp = None ∨ TournamentPlayer.gamesPlayed tp = Some 0 →
     LeaderboardEntry.gamesPlayed e = 0).
Proof.
  destruct tp as [id tid pid total games elim bount earn].
  unfold Leaderboard.entryOf, Leaderboard.averagePointsOf, JS.or_num, JS.truthy.
  simpl.
  destruct games as [g|], total as [p|]; simpl;
    repeat match goal with
      | |- context [Z.eqb ?a ?b] => destruct (Z.eqb_spec a b); subst; simpl
      | |- context [Z.ltb ?a ?b] => destruct (Z.ltb_spec a b); simpl
      end;
    (split; [|split]); intros; try lia; try done;
    try (unfold Qdiv; rewrite Qmult_0_l; reflexivity);
    try (destruct_or!; congruence).
Qed.

(** C6. For every entry of the loaded leaderboard, [averagePoints] is
    [totalPoints / gamesPlayed] when [gamesPlayed] is positive, and is 0 when
    [gamesPlayed] is 0, which is also what a standing without [gamesPlayed]
    is given; no division by zero is taken. *)
Theorem average_points_guarded
    (ORG_ID : string) (fetchAPI : FetchAPI.t) (tournamentId : string)
    (st : Leaderboard.State) (e : LeaderboardEntry.t) :
  e ∈ Leaderboard.leaderboard
        (Leaderboard.loadLeaderboard ORG_ID fetchAPI tournamentId st) →
  (∃ index tp,
     PokerLeagueAPI.getTournamentPlayers fetchAPI tournamentId !! index = Some tp
     ∧ e = Leaderboard.entryOf
             (playerMap (PokerLeagueAPI.getPlayers ORG_ID fetchAPI)) index tp
     ∧ (TournamentPlayer.gamesPlayed tp = None ∨ TournamentPlayer.gamesPlayed tp = Some 0 →
        LeaderboardEntry.gamesPlayed e = 0))
  ∧ (0 < LeaderboardEntry.gamesPlayed e →
     (LeaderboardEntry.averagePoints e
      == inject_Z (LeaderboardEntry.totalPoints e)
         / inject_Z (LeaderboardEntry.gamesPlayed e))%Q)
  ∧ (LeaderboardEntry.gamesPlayed e = 0 → LeaderboardEntry.averagePoints e = 0%Q).
Proof.
  unfold Leaderboard.loadLeaderboard. simpl.
  intros (index & tp & -> & Htp)%elem_of_lookup_imap.
  destruct (entryOf_averagePoints
              (playerMap (PokerLeagueAPI.getPlayers ORG_ID fetchAPI)) index tp)
    as (Hpos & Hzero & Hmissing).
  split; [|by split]. exists index, tp. done.
Qed.

(** The example of the specification: 480 points over 12 games average 40. *)
Lemma average_points_guarded_witness :
  (LeaderboardEntry.averagePoints Sample.alice == 40)%Q.
Proof.
  assert (Sample.alice
          ∈ Leaderboard.leaderboard
              (Leaderboard.loadLeaderboard Sample.ORG_ID Sample.fetchAPI "T1"
                 Leaderboard.initialState)) as Hin by (vm_compute; left).
  destruct (average_points_guarded Sample.ORG_ID Sample.fetchAPI "T1"
              Leaderboard.initialState Sample.alice Hin) as (_ & Hpos & _).
  rewrite Hpos; reflexivity.
Defined.

(** A standing with no games, and one without any counter, average 0. *)
Example average_points_without_games :
  LeaderboardEntry.averagePoints
    <$> Leaderboard.leaderboard
          (Leaderboard.loadLeaderboard Sample.ORG_ID Sample.fetchAPI "T1"
             Leaderboard.initialState)
  = [(480 # 12)%Q; (480 # 10)%Q; 0%Q; 0%Q].
Proof. reflexivity. Qed.

(** ** The schedule of a tournament *)

(** C7. Of the schedule records the record source answers with,
    [getTournamentSchedule] keeps, in order, exactly those that bear the
    tournament id under [tournamentId] or under the misspelled
    [tournamnetId]: either spelling alone is enough. *)
Theorem schedule_accepts_both_spellings
    (ORG_ID : string) (fetchAPI : FetchAPI.t) (T : string) :
  let fetched :=
    FetchAPI.tournament_schedule fetchAPI
      [("$filter", "orgId eq '" +:+ ORG_ID +:+ "' and tournamnetId eq '"
                   +:+ T +:+ "'")] in
  PokerLeagueAPI.getTournamentSchedule ORG_ID fetchAPI T
  = filter (λ s, belongsTo s T) fetched
  ∧ ∀ s, s ∈ PokerLeagueAPI.getTournamentSchedule ORG_ID fetchAPI T
         ↔ s ∈ fetched
           ∧ (TournamentSchedule.tournamentId s = Some T
              ∨ TournamentSchedule.tournamnetId s = Some T).
Proof.
  intros fetched.
  assert (PokerLeagueAPI.getTournamentSchedule ORG_ID fetchAPI T
          = filter (λ s, belongsTo s T) fetched) as Heq.
  { unfold PokerLeagueAPI.getTournamentSchedule. fold fetched.
    apply list_filter_iff. intros s. unfold belongsTo.
    rewrite orb_True, !Is_true_true, !strict_eq_true. tauto. }
  split; [done|]. intros s. rewrite Heq, list_elem_of_filter.
  unfold belongsTo. tauto.
Qed.

(** On the sample, S1 bears only the misspelled field and S2 only the
    correct one; both are kept, and S4, of another tournament, is not. *)
Example schedule_sample :
  TournamentSchedule.id
    <$> PokerLeagueAPI.getTournamentSchedule Sample.ORG_ID Sample.fetchAPI "T1"
  = ["S1"; "S2"; "S3"; "S5"].
Proof. reflexivity. Qed.

(** * Further properties of the sources *)

(** ** The lookup maps *)

Lemma id_map_lookup {A : Type} (k : A → string) (l : list A) (i : string) :
  foldl (λ m x, <[k x := x]> m) (∅ : gmap string A) l !! i
  = last (filter (λ x, k x = i) l).
Proof.
  rewrite (foldl_insert_lookup k (λ x, x)), lookup_empty.
  match goal with
  | |- match last ?a with _ => _ end = last ?b =>
      replace a with b by (by apply list_filter_iff)
  end.
  by destruct (last _).
Qed.

(** X1. The maps built from the player, game and schedule collections
    answer an id with the last record of the collection that bears it, and
    with nothing when no record bears it; so a record found under an id has
    that id. *)
Theorem id_maps_last_record_wins
    (allPlayers : list Player.t) (liveGames : list LiveGame.t)
    (schedules : list TournamentSchedule.t) (i : string) :
  playerMap allPlayers !! i = last (filter (λ p, Player.id p = i) allPlayers)
  ∧ gameMap liveGames !! i = last (filter (λ g, LiveGame.id g = i) liveGames)
  ∧ scheduleMap schedules !! i
    = last (filter (λ s, TournamentSchedule.id s = i) schedules)
  ∧ (∀ p, playerMap allPlayers !! i = Some p → Player.id p = i ∧ p ∈ allPlayers)
  ∧ (∀ g, gameMap liveGames !! i = Some g → LiveGame.id g = i ∧ g ∈ liveGames)
  ∧ (∀ s, scheduleMap schedules !! i = Some s →
          TournamentSchedule.id s = i ∧ s ∈ schedules).
Proof.
  pose proof (id_map_lookup Player.id allPlayers i) as Hp.
  pose proof (id_map_lookup LiveGame.id liveGames i) as Hg.
  pose proof (id_map_lookup TournamentSchedule.id schedules i) as Hs.
  fold (playerMap allPlayers) in Hp. fold (gameMap liveGames) in Hg.
  fold (scheduleMap schedules) in Hs.
  assert (∀ {A : Type} (P : A → Prop) `{!∀ x, Decision (P x)} (l : list A) (x : A),
            last (filter P l) = Some x → P x ∧ x ∈ l) as Hlast.
  { intros A P ? l x Hx. by apply last_Some_elem_of, list_elem_of_filter in Hx. }
  split; [done|]. split; [done|]. split; [done|].
  rewrite Hp, Hg, Hs. split; [|split]; intros x Hx; by apply Hlast in Hx.
Qed.

Lemma prizeMap_lookup_last (livePrizes : list LivePrize.t) (g : string) (p : Z) :
  prizeMap livePrizes !! prizeKey g (Some p)
  = LivePrize.amount
      <$> last (filter (λ x, LivePrize.liveGameId x = g ∧ LivePrize.place x = p)
                       livePrizes).
Proof.
  destruct (last _) as [prize|] eqn:Hlast; simpl.
  - by apply prizeMap_lookup_Some.
  - apply prizeMap_lookup_None. intros prize Hin [Hg [= Hp]].
    apply last_None in Hlast.
    assert (prize ∈ filter (λ x, LivePrize.liveGameId x = g ∧ LivePrize.place x = p)
                           livePrizes) as Hf by (by apply list_elem_of_filter).
    rewrite Hlast in Hf. by apply elem_of_nil in Hf.
Qed.

Lemma prizeMap_lookup_undefined (livePrizes : list LivePrize.t) (g : string) :
  prizeMap livePrizes !! prizeKey g None = None.
Proof. apply prizeMap_lookup_None. by intros prize _ [_ ?]. Qed.

(** Looking a pair of one game up among the prizes of that game only finds
    what looking it up among all prizes finds. *)
Lemma prizeMap_filter_game (livePrizes : list LivePrize.t) (g : string) (pos : option Z) :
  prizeMap (filter (λ prize, LivePrize.liveGameId prize = g) livePrizes)
    !! prizeKey g pos
  = prizeMap livePrizes !! prizeKey g pos.
Proof.
  destruct pos as [p|].
  - by rewrite !prizeMap_lookup_last, last_filter_game_prizes.
  - by rewrite !prizeMap_lookup_undefined.
Qed.

(** X2. The prize map answers the key of a (game, place) pair with the
    amount of the last prize record of that game and place, whatever other
    games and places are recorded, and answers the key of a missing position
    with nothing. *)
Theorem prize_map_lookup_by_game_and_place
    (livePrizes : list LivePrize.t) (g : string) (p : Z) :
  prizeMap livePrizes !! prizeKey g (Some p)
  = LivePrize.amount
      <$> last (filter (λ x, LivePrize.liveGameId x = g ∧ LivePrize.place x = p)
                       livePrizes)
  ∧ prizeMap livePrizes !! prizeKey g None = None.
Proof.
  split; [apply prizeMap_lookup_last|apply prizeMap_lookup_undefined].
Qed.

(** ** The two result views of one participation *)

(** X3. For a participation row of a game, the single-game results show the
    points the game history shows, the position the history shows whenever
    the row has a recorded position, and as prize the amount the history
    shows, or 0 where the history shows none. *)
Theorem resolvers_agree_on_points_and_prize
    (pointLevels : list PointLevel.t) (livePrizes : list LivePrize.t)
    (game : LiveGame.t) (pg : LivePlayer.t)
    (gm : gmap string LiveGame.t) (sm : gmap string TournamentSchedule.t)
    (pm : gmap string Player.t) :
  LivePlayer.liveGameId pg = LiveGame.id game →
  let history :=
    PlayerDetailModal.historyEntry gm sm (pointLevelMap pointLevels)
      (prizeMap livePrizes) pg in
  let result :=
    GameResultsModal.resultRow game pm (pointLevelMap pointLevels)
      (prizeMap (filter (λ prize, LivePrize.liveGameId prize = LiveGame.id game)
                        livePrizes)) pg in
  PlayerGameHistory.points history = Some (GameResult.points result)
  ∧ GameResult.prizeMoney result = JS.or_num (PlayerGameHistory.prizeMoney history) 0
  ∧ (recordedPosition pg →
     PlayerGameHistory.position history = Some (GameResult.position result)).
Proof.
  intros Hgame history result. unfold history, result. simpl.
  split; [done|]. split.
  - by rewrite Hgame, prizeMap_filter_game.
  - unfold recordedPosition. destruct (LivePlayer.placed pg) as [p|]; [|done].
    intros [H0 _]. by rewrite or_num_recorded.
Qed.

(** On the sample, the winner of G1 has a prize of 100 in both views. *)
Lemma resolvers_agree_on_points_and_prize_witness :
  PlayerGameHistory.prizeMoney
    (PlayerDetailModal.historyEntry ∅ ∅ (pointLevelMap Sample.pointLevels)
       (prizeMap Sample.livePrizes) (LivePlayer.mk "r1" "T1" "G1" "p1" (Some 1)))
  = Some 100
  ∧ GameResult.prizeMoney
      (GameResultsModal.resultRow
         (LiveGame.mk "G1" "T1" (Some "S1") (Some 4) (Some 500)) ∅
         (pointLevelMap Sample.pointLevels)
         (prizeMap (filter (λ prize, LivePrize.liveGameId prize = "G1")
                           Sample.livePrizes))
         (LivePlayer.mk "r1" "T1" "G1" "p1" (Some 1)))
    = 100.
Proof.
  pose (game := LiveGame.mk "G1" "T1" (Some "S1") (Some 4) (Some 500)).
  pose (winner := LivePlayer.mk "r1" "T1" "G1" "p1" (Some 1)).
  destruct (resolvers_agree_on_points_and_prize Sample.pointLevels Sample.livePrizes
              game winner ∅ ∅ ∅ eq_refl) as (_ & Hprize & _).
  split; [reflexivity|]. exact (eq_trans Hprize eq_refl).
Defined.

(** ** Players missing from the directory *)

(** X4. A row of the results table is named after the last player record
    that bears the row's player id, first name then last name, and is named
    "Unknown Player" when the directory has no such record. *)
Theorem result_row_player_name
    (allPlayers : list Player.t) (game : LiveGame.t)
    (plm : gmap Z Z) (pzm : gmap string Z) (gp : LivePlayer.t) :
  let name :=
    GameResult.playerName
      (GameResultsModal.resultRow game (playerMap allPlayers) plm pzm gp) in
  ((∀ p, p ∈ allPlayers → Player.id p ≠ LivePlayer.playerId gp) →
   name = "Unknown Player")
  ∧ (∀ p, last (filter (λ q, Player.id q = LivePlayer.playerId gp) allPlayers) = Some p →
          name = Player.firstName p +:+ " " +:+ Player.lastName p).
Proof.
  intros name. unfold name. simpl.
  pose proof (id_map_lookup Player.id allPlayers (LivePlayer.playerId gp)) as Hp.
  fold (playerMap allPlayers) in Hp. rewrite Hp. split.
  - intros Hno. destruct (last _) as [p|] eqn:Hlast; [|done].
    apply last_Some_elem_of, list_elem_of_filter in Hlast as [Hid Hin].
    by destruct (Hno p Hin).
  - by intros p ->.
Qed.

(** X5. The loaded leaderboard has one entry per fetched standing, in the
    fetched order; each entry keeps the standing's player id, is ranked by its
    1-based index, and is joined with a player whose id is that player id:
    the last record of the directory bearing it, or the placeholder
    "Unknown Player" when there is none. *)
Theorem leaderboard_entries_joined_with_players
    (ORG_ID : string) (fetchAPI : FetchAPI.t) (tournamentId : string)
    (st : Leaderboard.State) :
  let standings := PokerLeagueAPI.getTournamentPlayers fetchAPI tournamentId in
  let directory := PokerLeagueAPI.getPlayers ORG_ID fetchAPI in
  let lb :=
    Leaderboard.leaderboard
      (Leaderboard.loadLeaderboard ORG_ID fetchAPI tournamentId st) in
  length lb = length standings
  ∧ LeaderboardEntry.playerId <$> lb = TournamentPlayer.playerId <$> standings
  ∧ ∀ index e,
      lb !! index = Some e →
      LeaderboardEntry.rank e = Z.of_nat index + 1
      ∧ Player.id (LeaderboardEntry.player e) = LeaderboardEntry.playerId e
      ∧ LeaderboardEntry.player e
        = match last (filter (λ p, Player.id p = LeaderboardEntry.playerId e)
                             directory) with
          | Some p => p
          | None => Player.mk (LeaderboardEntry.playerId e) "" "Unknown" "Player" None
          end.
Proof.
  intros standings directory lb.
  assert (lb = imap (Leaderboard.entryOf (playerMap directory)) standings) as ->
    by reflexivity.
  split; [apply length_imap|]. split.
  - apply list_eq. intros i. rewrite !list_lookup_fmap, list_lookup_imap.
    by destruct (standings !! i).
  - intros index e. rewrite list_lookup_imap.
    destruct (standings !! index) as [tp|]; simpl; [|done]. intros [= <-]. simpl.
    pose proof (id_map_lookup Player.id directory (TournamentPlayer.playerId tp)) as Hp.
    fold (playerMap directory) in Hp. rewrite Hp.
    split; [done|].
    destruct (last _) as [p|] eqn:Hlast; simpl; [|done].
    by apply last_Some_elem_of, list_elem_of_filter in Hlast as [Hid _].
Qed.

(** On the sample, the standing of p9 has no player record. *)
Example leaderboard_placeholder_sample :
  (λ e, Player.firstName (LeaderboardEntry.player e) +:+ " "
        +:+ Player.lastName (LeaderboardEntry.player e))
    <$> Leaderboard.leaderboard
          (Leaderboard.loadLeaderboard Sample.ORG_ID Sample.fetchAPI "T1"
             Leaderboard.initialState)
  = ["Alice Ace"; "Bob Bluff"; "Cara Call"; "Unknown Player"].
Proof. reflexivity. Qed.

(** ** The stored rank and the displayed rank *)

Lemma StronglySorted_imap {A B : Type} (R : A → A → Prop) (R' : B → B → Prop)
    (f : nat → A → B) (l : list A) :
  (∀ i j x y, R x y → R' (f i x) (f j y)) →
  StronglySorted R l → StronglySorted R' (imap f l).
Proof.
  revert f. induction l as [|x l IH]; intros f Hf Hs; [constructor|].
  apply StronglySorted_inv in Hs as [Hs Hx]. rewrite imap_cons. constructor.
  - apply IH; [|done]. intros i j a b. apply Hf.
  - rewrite Forall_forall in Hx. apply Forall_forall. intros b Hb.
    apply elem_of_lookup_imap in Hb as (i & a & -> & Ha).
    apply Hf, Hx. by eapply list_elem_of_lookup_2.
Qed.

(** X6. When the standings arrive in descending order of total points, as
    the request asks, the points view shows the leaderboard in the stored
    order, and the rank shown in each row is the [rank] stored on its entry. *)
Theorem points_view_shows_stored_ranks
    (ORG_ID : string) (fetchAPI : FetchAPI.t) (tournamentId : string)
    (st : Leaderboard.State) :
  StronglySorted
    (λ a b, JS.or_num (TournamentPlayer.totalPoints b) 0
            ≤ JS.or_num (TournamentPlayer.totalPoints a) 0)
    (PokerLeagueAPI.getTournamentPlayers fetchAPI tournamentId) →
  let st' :=
    Leaderboard.setView points
      (Leaderboard.loadLeaderboard ORG_ID fetchAPI tournamentId st) in
  Leaderboard.getSortedLeaderboard st' = Leaderboard.leaderboard st'
  ∧ ∀ rank e, (rank, e) ∈ Leaderboard.tableRows st' → rank = LeaderboardEntry.rank e.
Proof.
  intros Hsorted st'.
  assert (Leaderboard.getSortedLeaderboard st' = Leaderboard.leaderboard st') as Hid.
  { rewrite getSortedLeaderboard_unfold. simpl.
    apply (Array_sort_sorted_id _ (λ e, - metric points e)).
    - intros a b _ _. apply viewComparator_descending.
    - eapply StronglySorted_imap; [|exact Hsorted]. simpl. lia. }
  split; [done|]. intros rank e.
  unfold Leaderboard.tableRows. rewrite Hid. simpl.
  intros (i & e' & [= -> ->] & He)%elem_of_lookup_imap.
  rewrite list_lookup_imap in He.
  destruct (_ !! i) as [tp|]; simpl in He; [|done]. by injection He as <-.
Qed.

(** The standings of the sample arrive with 480, 480, 120 and no points. *)
Lemma points_view_shows_stored_ranks_witness :
  Leaderboard.getSortedLeaderboard
    (Leaderboard.setView points
       (Leaderboard.loadLeaderboard Sample.ORG_ID Sample.fetchAPI "T1"
          Leaderboard.initialState))
  = Leaderboard.leaderboard
      (Leaderboard.setView points
         (Leaderboard.loadLeaderboard Sample.ORG_ID Sample.fetchAPI "T1"
            Leaderboard.initialState)).
Proof.
  refine (proj1 (points_view_shows_stored_ranks Sample.ORG_ID Sample.fetchAPI "T1"
                   Leaderboard.initialState _)).
  repeat (constructor; [|repeat constructor; simpl; lia]). constructor.
Defined.

(** ** The organization's tournaments *)

Lemma find_none_iff {A : Type} (f : A → bool) (l : list A) :
  List.find f l = None ↔ ∀ x, x ∈ l → f x = false.
Proof.
  induction l as [|y l IH]; simpl.
  - split; [|done]. intros _ x Hx. by apply elem_of_nil in Hx.
  - destruct (f y) eqn:Hy.
    + split; [done|]. intros Hall. rewrite Hall in Hy; [done|left].
    + rewrite IH. split.
      * intros Hall x [->|Hx]%elem_of_cons; auto.
      * intros Hall x Hx. apply Hall. by right.
Qed.

(** X7. When no tournament of the organization bears the tournament id (the
    record source knows none, or only tournaments of other organizations),
    loading a player's history leaves the history of the previous load in
    place and only clears the loading flag. *)
Theorem history_kept_when_tournament_not_of_organization
    (ORG_ID : string) (fetchAPI : FetchAPI.t) (Date_getTime : string → option Z)
    (player : LeaderboardEntry.t) (tournamentId : string)
    (st : PlayerDetailModal.State) :
  (∀ t, t ∈ FetchAPI.tournament fetchAPI
              [("$filter", "orgId eq '" +:+ ORG_ID +:+ "'");
               ("$orderby", "active desc, startDate desc")] →
        Tournament.id t = tournamentId → Tournament.orgId t ≠ ORG_ID) →
  PlayerDetailModal.loadPlayerHistory ORG_ID fetchAPI Date_getTime player tournamentId st
  = PlayerDetailModal.mkState (PlayerDetailModal.gameHistory st) false.
Proof.
  intros Hforeign. unfold PlayerDetailModal.loadPlayerHistory.
  assert (List.find (λ t, bool_decide (Tournament.id t = tournamentId))
                    (PokerLeagueAPI.getTournaments ORG_ID fetchAPI) = None) as ->.
  { apply find_none_iff. intros t [Horg Hin]%list_elem_of_filter.
    apply bool_decide_eq_false. intros Hid. by apply (Hforeign t). }
  done.
Qed.

(** On the sample, tournament T9 is unknown and a loaded history stays. *)
Lemma history_kept_when_tournament_not_of_organization_witness :
  PlayerDetailModal.loadPlayerHistory Sample.ORG_ID Sample.fetchAPI
    Sample.Date_getTime Sample.alice "T9"
    (PlayerDetailModal.mkState
       [PlayerGameHistory.mk "2024-01-08" (Some 1) (Some 2) (Some 30) None] true)
  = PlayerDetailModal.mkState
      [PlayerGameHistory.mk "2024-01-08" (Some 1) (Some 2) (Some 30) None] false.
Proof.
  apply (history_kept_when_tournament_not_of_organization
           Sample.ORG_ID Sample.fetchAPI Sample.Date_getTime Sample.alice "T9").
  intros t Hin. vm_compute in Hin.
  repeat (apply elem_of_cons in Hin as [->|Hin]; [by intros [= ]|]).
  by apply elem_of_nil in Hin.
Defined.

(** X8. After loading the tournaments the dashboard lists, in the fetched
    order, exactly the fetched tournaments of the configured organization,
    and never one of another organization; the first of them becomes the
    selected tournament, and when there is none the selection is left as it
    was. *)
Theorem dashboard_lists_only_own_tournaments
    (ORG_ID : string) (fetchAPI : FetchAPI.t) (st : Dashboard.State) :
  let fetched :=
    FetchAPI.tournament fetchAPI
      [("$filter", "orgId eq '" +:+ ORG_ID +:+ "'");
       ("$orderby", "active desc, startDate desc")] in
  let st' := Dashboard.loadTournaments ORG_ID fetchAPI st in
  Dashboard.tournaments st' = filter (λ t, Tournament.orgId t = ORG_ID) fetched
  ∧ (∀ t, t ∈ Dashboard.tournaments st' → Tournament.orgId t = ORG_ID ∧ t ∈ fetched)
  ∧ (∀ t, Dashboard.selectedTournament st' = Some t →
          Dashboard.selectedTournament st = Some t ∨ Tournament.orgId t = ORG_ID)
  ∧ Dashboard.selectedTournament st'
    = match head (Dashboard.tournaments st') with
      | Some first => Some first
      | None => Dashboard.selectedTournament st
      end
  ∧ Dashboard.loading st' = false.
Proof.
  intros fetched st'. unfold st', Dashboard.loadTournaments.
  change (PokerLeagueAPI.getTournaments ORG_ID fetchAPI)
    with (filter (λ t, Tournament.orgId t = ORG_ID) fetched).
  destruct (filter _ fetched) as [|first rest] eqn:Hf; simpl.
  - split; [done|]. split; [intros t Ht; by apply elem_of_nil in Ht|].
    split; [intros t Ht; by left|]. done.
  - assert (∀ t, t ∈ first :: rest → Tournament.orgId t = ORG_ID ∧ t ∈ fetched) as Hown.
    { intros t Ht. rewrite <-Hf in Ht. by apply list_elem_of_filter in Ht. }
    split; [done|]. split; [exact Hown|]. split; [|done].
    intros t [= <-]. right. apply Hown. left.
Qed.

(** ** The next game of the dashboard *)

Section dashboard.
Variable ORG_ID : string.
Variable fetchAPI : FetchAPI.t.
Variable game_configuration : Params → list GameConfiguration.t.
Variable gameId : TournamentSchedule.t → option string.
Variable startOfDay : string → option Z.
Variable today : Z.

Lemma isUpcoming_true (s : TournamentSchedule.t) :
  Dashboard.isUpcoming startOfDay today s = true
  ↔ ∃ d x, TournamentSchedule.date s = Some d ∧ d ≠ ""
           ∧ startOfDay d = Some x ∧ today ≤ x.
Proof.
  unfold Dashboard.isUpcoming.
  destruct (TournamentSchedule.date s) as [[|a d]|]; simpl.
  - split; [done|]. by intros (d & x & [= <-] & ? & _).
  - destruct (startOfDay (String a d)) as [x|] eqn:Hx.
    + rewrite Z.leb_le. split.
      * intros Hle. exists (String a d), x. done.
      * intros (d' & x' & [= <-] & _ & Hx' & Hle). congruence.
    + split; [done|]. intros (d' & x' & [= <-] & _ & Hx' & _). congruence.
  - split; [done|]. by intros (d & x & [= ] & _).
Qed.

Lemma loadTournamentDetails_nextGame (tournament : Tournament.t) (st : Dashboard.State) :
  Dashboard.nextGame
    (Dashboard.loadTournamentDetails ORG_ID fetchAPI game_configuration gameId
       startOfDay today tournament st)
  = List.find (Dashboard.isUpcoming startOfDay today)
      (PokerLeagueAPI.getTournamentSchedule ORG_ID fetchAPI (Tournament.id tournament)).
Proof.
  unfold Dashboard.loadTournamentDetails.
  destruct (List.find _ _) as [upcoming|]; simpl.
  - destruct (gameId upcoming) as [gid|]; simpl;
      [destruct (JS.truthy_str gid)|];
      by destruct (JS.truthy_str (Tournament.pointsId tournament)).
  - by destruct (JS.truthy_str (Tournament.pointsId tournament)).
Qed.

End dashboard.

(** X9. The next game the dashboard shows is the first record of the
    fetched schedule, in the order fetched, that has a date whose day is
    today or later: every record before it is undated, unparsable or past.
    When the schedule has no such record no next game is shown, and no game
    configuration either. *)
Theorem next_game_is_first_upcoming_record
    (ORG_ID : string) (fetchAPI : FetchAPI.t)
    (game_configuration : Params → list GameConfiguration.t)
    (gameId : TournamentSchedule.t → option string)
    (startOfDay : string → option Z) (today : Z)
    (tournament : Tournament.t) (st : Dashboard.State) :
  let schedule :=
    PokerLeagueAPI.getTournamentSchedule ORG_ID fetchAPI (Tournament.id tournament) in
  let st' :=
    Dashboard.loadTournamentDetails ORG_ID fetchAPI game_configuration gameId
      startOfDay today tournament st in
  match Dashboard.nextGame st' with
  | Some g =>
      ∃ (before after : list TournamentSchedule.t) d x,
        schedule = (before ++ g :: after)%list
        ∧ TournamentSchedule.date g = Some d ∧ d ≠ ""
        ∧ startOfDay d = Some x ∧ today ≤ x
        ∧ ∀ s d' x', s ∈ before → TournamentSchedule.date s = Some d' → d' ≠ "" →
                     startOfDay d' = Some x' → x' < today
  | None =>
      Dashboard.gameConfig st' = None
      ∧ ∀ s d x, s ∈ schedule → TournamentSchedule.date s = Some d → d ≠ "" →
                 startOfDay d = Some x → x < today
  end.
Proof.
  intros schedule st'.
  assert (∀ s d x, Dashboard.isUpcoming startOfDay today s = false →
            TournamentSchedule.date s = Some d → d ≠ "" →
            startOfDay d = Some x → x < today) as Hpast.
  { intros s d x Hs Hd Hne Hx.
    destruct (Z.lt_ge_cases x today) as [|Hle]; [done|].
    assert (Dashboard.isUpcoming startOfDay today s = true) as Hup
      by (apply isUpcoming_true; eauto 6).
    congruence. }
  unfold st'. rewrite loadTournamentDetails_nextGame. fold schedule.
  destruct (List.find _ schedule) as [g|] eqn:Hfind.
  - apply find_first in Hfind as (before & after & Hl & Hg & Hbefore).
    apply isUpcoming_true in Hg as (d & x & Hd & Hne & Hx & Hle).
    exists before, after, d, x. repeat (split; [done|]).
    intros s d' x' Hs. apply Hpast. by apply Hbefore.
  - split.
    + unfold Dashboard.loadTournamentDetails. fold schedule. rewrite Hfind.
      by destruct (JS.truthy_str (Tournament.pointsId tournament)).
    + intros s d x Hs. apply Hpast.
      by apply (proj1 (find_none_iff _ schedule) Hfind).
Qed.

(** On the sample, with 8 January as today, the next game shown is S1 of
    15 January, the first upcoming record fetched, although S2 of 8 January
    is fetched after it. *)
Example next_game_sample :
  TournamentSchedule.id
    <$> Dashboard.nextGame
          (Dashboard.loadTournamentDetails Sample.ORG_ID Sample.fetchAPI
             SampleScreens.game_configuration SampleScreens.gameId
             Sample.Date_getTime SampleScreens.today SampleScreens.tournament1
             Dashboard.initialState)
  = Some "S1"
  ∧ GameConfiguration.name
      <$> Dashboard.gameConfig
            (Dashboard.loadTournamentDetails Sample.ORG_ID Sample.fetchAPI
               SampleScreens.game_configuration SampleScreens.gameId
               Sample.Date_getTime SampleScreens.today SampleScreens.tournament1
               Dashboard.initialState)
    = Some "Texas Hold'em".
Proof. split; reflexivity. Qed.

(** X10. Loading the details of a tournament starts from a cleared next game
    and game configuration, so neither is carried over from the tournament
    shown before; the points structure is replaced by the tournament's point
    levels when it has a points table, and is carried over from the
    tournament shown before when it has none. *)
Theorem tournament_details_reset_except_points
    (ORG_ID : string) (fetchAPI : FetchAPI.t)
    (game_configuration : Params → list GameConfiguration.t)
    (gameId : TournamentSchedule.t → option string)
    (startOfDay : string → option Z) (today : Z)
    (tournament : Tournament.t) (st : Dashboard.State) :
  let load :=
    Dashboard.loadTournamentDetails ORG_ID fetchAPI game_configuration gameId
      startOfDay today tournament in
  (∀ st2, Dashboard.nextGame (load st2) = Dashboard.nextGame (load st)
          ∧ Dashboard.gameConfig (load st2) = Dashboard.gameConfig (load st))
  ∧ (Tournament.pointsId tournament ≠ "" →
     Dashboard.pointLevels (load st)
     = PokerLeagueAPI.getPointLevels fetchAPI (Tournament.pointsId tournament))
  ∧ (Tournament.pointsId tournament = "" →
     Dashboard.pointLevels (load st) = Dashboard.pointLevels st)
  ∧ Dashboard.tournaments (load st) = Dashboard.tournaments st
  ∧ Dashboard.selectedTournament (load st) = Dashboard.selectedTournament st.
Proof.
  intros load. unfold load, Dashboard.loadTournamentDetails.
  destruct (List.find _ _) as [upcoming|]; simpl;
    [destruct (gameId upcoming) as [gid|]; simpl; [destruct (JS.truthy_str gid)|]|];
    destruct (Tournament.pointsId tournament) as [|a pid]; simpl; done.
Qed.

(** On the sample, switching from T1 to T2, which has no points table,
    leaves the three point levels of T1 on the screen. *)
Example stale_point_levels_sample :
  length
    (Dashboard.pointLevels
       (Dashboard.loadTournamentDetails Sample.ORG_ID Sample.fetchAPI
          SampleScreens.game_configuration SampleScreens.gameId
          Sample.Date_getTime SampleScreens.today SampleScreens.tournament2
          (Dashboard.loadTournamentDetails Sample.ORG_ID Sample.fetchAPI
             SampleScreens.game_configuration SampleScreens.gameId
             Sample.Date_getTime SampleScreens.today SampleScreens.tournament1
             Dashboard.initialState)))
  = 3%nat.
Proof. reflexivity. Qed.

(** ** The participation chart *)

(** X11. The chart has one point per fetched game: its data are the points
    of the games in ascending order of week number, the points of one week
    keeping the order of their games, and the players they add up to are the
    players of the games, a game without a player count adding none. *)
Theorem chart_one_point_per_game_sorted_by_week
    (ORG_ID : string) (fetchAPI : FetchAPI.t) (tournamentId : string)
    (st : TournamentChart.State) :
  let games := PokerLeagueAPI.getLiveGames fetchAPI tournamentId in
  let sm :=
    scheduleMap (PokerLeagueAPI.getTournamentSchedule ORG_ID fetchAPI tournamentId) in
  let data :=
    TournamentChart.chartData
      (TournamentChart.loadChartData ORG_ID fetchAPI tournamentId st) in
  data ≡ₚ TournamentChart.chartPoint sm <$> games
  ∧ length data = length games
  ∧ StronglySorted (λ a b, ChartData.weekNumber a ≤ ChartData.weekNumber b) data
  ∧ (∀ w, filter (λ d, ChartData.weekNumber d = w) data
          = filter (λ d, ChartData.weekNumber d = w)
                   (TournamentChart.chartPoint sm <$> games))
  ∧ JS.reduce_sum ChartData.players data
    = JS.reduce_sum (λ g, JS.or_num (LiveGame.numOfPlayers g) 0) games.
Proof.
  intros games sm data.
  assert (data = JS.Array_sort TournamentChart.byWeek
                   (TournamentChart.chartPoint sm <$> games)) as -> by reflexivity.
  assert (∀ a b : ChartData.t,
            a ∈ TournamentChart.chartPoint sm <$> games →
            b ∈ TournamentChart.chartPoint sm <$> games →
            JS.sortCompare TournamentChart.byWeek a b ≤ 0
            ↔ ChartData.weekNumber a ≤ ChartData.weekNumber b) as Hcmp.
  { intros a b _ _. unfold JS.sortCompare, TournamentChart.byWeek. lia. }
  split; [apply Array_sort_Permutation|]. split.
  { by rewrite Array_sort_Permutation, length_fmap. }
  split; [by apply Array_sort_StronglySorted|]. split.
  { intros w. by apply (Array_sort_stable _ ChartData.weekNumber). }
  rewrite (reduce_sum_Permutation _ _ _ (Array_sort_Permutation _ _)).
  generalize games. clear. intros l.
  induction l as [|g l IH]; [done|].
  rewrite fmap_cons, !reduce_sum_cons, IH. done.
Qed.

(** X12. A chart point is labelled "Week n" exactly when its week number n
    is positive, and "Game" otherwise; a game whose schedule cannot be
    resolved has week number 0; and two points labelled alike, one of them
    with a positive week, have the same week number. *)
Theorem chart_point_label
    (sm : gmap string TournamentSchedule.t) (game game' : LiveGame.t) :
  let d := TournamentChart.chartPoint sm game in
  let d' := TournamentChart.chartPoint sm game' in
  (0 < ChartData.weekNumber d →
   ChartData.week d = "Week " +:+ pretty (ChartData.weekNumber d))
  ∧ (ChartData.weekNumber d ≤ 0 → ChartData.week d = "Game")
  ∧ (PlayerDetailModal.scheduleOf sm (Some game) = None →
     ChartData.weekNumber d = 0 ∧ ChartData.week d = "Game")
  ∧ (0 < ChartData.weekNumber d → ChartData.week d = ChartData.week d' →
     ChartData.weekNumber d = ChartData.weekNumber d').
Proof.
  intros d d'. subst d d'.
  assert (∀ g, let x := TournamentChart.chartPoint sm g in
            (0 < ChartData.weekNumber x →
             ChartData.week x = "Week " +:+ pretty (ChartData.weekNumber x))
            ∧ (ChartData.weekNumber x ≤ 0 → ChartData.week x = "Game")) as Hlabel.
  { intros g. unfold TournamentChart.chartPoint.
    cbn [ChartData.week ChartData.weekNumber].
    set (w := JS.or_num _ 0).
    destruct (Z.ltb_spec 0 w); split; intros; (done || lia). }
  destruct (Hlabel game) as [Hpos Hneg]. split; [done|]. split; [done|]. split.
  - intros Hnone.
    assert (ChartData.weekNumber (TournamentChart.chartPoint sm game) = 0) as H0
      by (simpl; by rewrite Hnone).
    split; [done|]. apply Hneg. lia.
  - intros Hd Heq. rewrite (Hpos Hd) in Heq.
    destruct (Hlabel game') as [Hpos' Hneg'].
    destruct (Z.lt_ge_cases 0 (ChartData.weekNumber (TournamentChart.chartPoint sm game')))
      as [Hd'|Hd'].
    + rewrite (Hpos' Hd') in Heq.
      apply (inj (String.app "Week ")) in Heq. by apply (inj pretty) in Heq.
    + rewrite Hneg' in Heq by done. discriminate Heq.
Qed.

(** On the sample, the chart of T1 runs over weeks 1, 1, 2 and 3; only the
    game of week 2 has a player count. *)
Example chart_sample :
  (λ d, (ChartData.week d, ChartData.players d))
    <$> TournamentChart.chartData
          (TournamentChart.loadChartData Sample.ORG_ID Sample.fetchAPI "T1"
             TournamentChart.initialState)
  = [("Week 1", 0); ("Week 1", 0); ("Week 2", 4); ("Week 3", 0)].
Proof. reflexivity. Qed.

(** ** The schedule table *)

(** Sorting by a time that may be [NaN]: when every element has a time, the
    result is in ascending order of time and stable. *)
Lemma Array_sort_by_time {A : Type} (time : A → option Z) (l : list A) :
  (∀ a, a ∈ l → is_Some (time a)) →
  StronglySorted (λ a b, ∃ ta tb, time a = Some ta ∧ time b = Some tb ∧ ta ≤ tb)
                 (JS.Array_sort (λ a b, JS.sub (time a) (time b)) l)
  ∧ ∀ t, filter (λ a, time a = Some t)
                (JS.Array_sort (λ a b, JS.sub (time a) (time b)) l)
         = filter (λ a, time a = Some t) l.
Proof.
  intros Hvalid.
  set (cmp := λ a b, JS.sub (time a) (time b)).
  set (key := λ a, default 0 (time a)).
  assert (∀ a, a ∈ l → time a = Some (key a)) as Hkey.
  { intros a [t Ht]%Hvalid. unfold key. by rewrite Ht. }
  assert (∀ a b, a ∈ l → b ∈ l → JS.sortCompare cmp a b ≤ 0 ↔ key a ≤ key b) as Hcmp.
  { intros a b Ha%Hkey Hb%Hkey. unfold JS.sortCompare, cmp.
    rewrite Ha, Hb. simpl. lia. }
  split.
  - eapply StronglySorted_weaken; [|apply (Array_sort_StronglySorted _ key l Hcmp)].
    intros a b Ha%Array_sort_elem_of Hb%Array_sort_elem_of Hle.
    exists (key a), (key b). auto.
  - intros t.
    rewrite (filter_ext_elem _ (λ a, key a = t) (JS.Array_sort _ _)).
    + rewrite (Array_sort_stable _ key l t Hcmp).
      apply filter_ext_elem. intros a Ha%Hkey. rewrite Ha.
      split; [intros <-; done|congruence].
    + intros a Ha%Array_sort_elem_of%Hkey. rewrite Ha.
      split; [congruence|intros <-; done].
Qed.

(** X13. The schedule table lists exactly the fetched schedule records,
    whatever their dates; a record without date counts as the epoch (time 0);
    and, when every dated record bears a date [Date] can parse, the table is
    in ascending order of date, records of one time keeping the fetched
    order. *)
Theorem schedule_table_sorted_by_date
    (ORG_ID : string) (fetchAPI : FetchAPI.t)
    (game_configuration : Params → list GameConfiguration.t)
    (gameId : TournamentSchedule.t → option string)
    (Date_getTime : string → option Z) (tournamentId : string)
    (st : TournamentScheduleTable.State) :
  let fetched := PokerLeagueAPI.getTournamentSchedule ORG_ID fetchAPI tournamentId in
  let time := TournamentScheduleTable.timeOf Date_getTime in
  let table :=
    TournamentScheduleTable.schedules
      (TournamentScheduleTable.loadSchedule ORG_ID fetchAPI game_configuration
         gameId Date_getTime tournamentId st) in
  table ≡ₚ fetched
  ∧ (∀ s, s ∈ table ↔ s ∈ fetched)
  ∧ (∀ s, TournamentSchedule.date s = None ∨ TournamentSchedule.date s = Some "" →
          time s = Some 0)
  ∧ ((∀ s d, s ∈ fetched → TournamentSchedule.date s = Some d → d ≠ "" →
             is_Some (Date_getTime d)) →
     StronglySorted (λ a b, ∃ ta tb, time a = Some ta ∧ time b = Some tb ∧ ta ≤ tb)
                    table
     ∧ ∀ t, filter (λ s, time s = Some t) table
            = filter (λ s, time s = Some t) fetched).
Proof.
  intros fetched time table.
  assert (table = JS.Array_sort (λ a b, JS.sub (time a) (time b)) fetched) as ->
    by reflexivity.
  split; [apply Array_sort_Permutation|]. split; [apply Array_sort_elem_of|]. split.
  { intros s [Hd|Hd]; unfold time, TournamentScheduleTable.timeOf; by rewrite Hd. }
  intros Hvalid. apply Array_sort_by_time. intros s Hs.
  unfold time, TournamentScheduleTable.timeOf.
  destruct (TournamentSchedule.date s) as [[|a d]|] eqn:Hd; simpl; [done| |done].
  by apply (Hvalid s).
Qed.

(** On the sample, the undated S3 comes first, then the two records of
    8 January in fetched order, then S1 of 15 January. *)
Lemma schedule_table_sorted_by_date_witness :
  StronglySorted
    (λ a b, ∃ ta tb,
       TournamentScheduleTable.timeOf Sample.Date_getTime a = Some ta
       ∧ TournamentScheduleTable.timeOf Sample.Date_getTime b = Some tb ∧ ta ≤ tb)
    (TournamentScheduleTable.schedules
       (TournamentScheduleTable.loadSchedule Sample.ORG_ID Sample.fetchAPI
          SampleScreens.game_configuration SampleScreens.gameId
          Sample.Date_getTime "T1" TournamentScheduleTable.initialState))
  ∧ TournamentSchedule.id
      <$> TournamentScheduleTable.schedules
            (TournamentScheduleTable.loadSchedule Sample.ORG_ID Sample.fetchAPI
               SampleScreens.game_configuration SampleScreens.gameId
               Sample.Date_getTime "T1" TournamentScheduleTable.initialState)
    = ["S3"; "S2"; "S5"; "S1"].
Proof.
  split; [|reflexivity].
  refine (proj1 (proj2 (proj2 (proj2
            (schedule_table_sorted_by_date Sample.ORG_ID Sample.fetchAPI
               SampleScreens.game_configuration SampleScreens.gameId
               Sample.Date_getTime "T1" TournamentScheduleTable.initialState))) _)).
  intros s d Hs. vm_compute in Hs.
  repeat (apply elem_of_cons in Hs as [->|Hs]; [intros [= <-] _; by eexists|]).
  by apply elem_of_nil in Hs.
Defined.

(** X14. A schedule record counts as completed exactly when it has a date
    and either its status is COMPLETED or its date lies before today; a
    record without date is never completed, whatever its status, and clicking
    a record that is not completed selects nothing. *)
Theorem completed_games_and_row_clicks
    (status : TournamentSchedule.t → option string)
    (Date_getTime : string → option Z) (today : Z)
    (schedule : TournamentSchedule.t) (st : TournamentScheduleTable.State) :
  let completed :=
    TournamentScheduleTable.isGameCompleted status Date_getTime today schedule in
  let clicked :=
    TournamentScheduleTable.handleRowClick status Date_getTime today schedule st in
  (completed = true
   ↔ ∃ d, TournamentSchedule.date schedule = Some d ∧ d ≠ ""
          ∧ (status schedule = Some "COMPLETED"
             ∨ ∃ t, Date_getTime d = Some t ∧ t < today))
  ∧ (TournamentSchedule.date schedule = None
     ∨ TournamentSchedule.date schedule = Some "" → completed = false)
  ∧ (completed = false → clicked = st)
  ∧ (completed = true →
     TournamentScheduleTable.selectedSchedule clicked = Some schedule).
Proof.
  intros completed clicked. subst completed clicked.
  unfold TournamentScheduleTable.handleRowClick,
    TournamentScheduleTable.isGameCompleted.
  destruct (TournamentSchedule.date schedule) as [[|a d]|]; simpl.
  - split; [|by repeat split].
    split; [done|]. by intros (d & [= <-] & ? & _).
  - set (c := _ || _). split; [|split; [|split]].
    + unfold c. rewrite orb_true_iff, bool_decide_eq_true. split.
      * intros [Hpast|Hstatus]; exists (String a d);
          (split; [done|]); (split; [done|]); [right|by left].
        destruct (Date_getTime (String a d)) as [t|]; [|done].
        exists t. split; [done|]. by apply Z.ltb_lt.
      * intros (d' & [= <-] & _ & [Hstatus|(t & Ht & Hlt)]); [by right|left].
        rewrite Ht. by apply Z.ltb_lt.
    + by intros [[= ]|[= ]].
    + by intros ->.
    + by intros ->.
  - split; [|by repeat split].
    split; [done|]. by intros (d & [= ] & _).
Qed.

Lemma Set_values_foldl (l acc : list string) (x : string) :
  x ∈ foldl (λ acc x, if decide (x ∈ acc) then acc else (acc ++ [x])%list) acc l
  ↔ x ∈ acc ∨ x ∈ l.
Proof.
  revert acc. induction l as [|y l IH]; intros acc; simpl.
  - rewrite elem_of_nil. tauto.
  - rewrite IH, elem_of_cons. case_decide as Hy.
    + split; [tauto|]. intros [?|[->|?]]; tauto.
    + rewrite elem_of_app, list_elem_of_singleton. tauto.
Qed.

Lemma Set_values_elem_of (l : list string) (x : string) : x ∈ Set_values l ↔ x ∈ l.
Proof.
  unfold Set_values. rewrite Set_values_foldl, elem_of_nil. tauto.
Qed.

Lemma Set_values_NoDup (l : list string) : NoDup (Set_values l).
Proof.
  unfold Set_values.
  assert (∀ acc, NoDup acc →
            NoDup (foldl (λ acc x, if decide (x ∈ acc) then acc else (acc ++ [x])%list)
                         acc l)) as Hgen.
  { induction l as [|y l IH]; intros acc Hacc; simpl; [done|].
    apply IH. case_decide as Hy; [done|].
    apply NoDup_app. split; [done|]. split; [|apply NoDup_singleton].
    intros z Hz ->%list_elem_of_singleton. done. }
  apply Hgen, NoDup_nil_2.
Qed.

Section config_map.
Variable byId : string → option GameConfiguration.t.
Hypothesis byId_id : ∀ g c, byId g = Some c → GameConfiguration.id c = g.

Lemma configMap_foldl_lookup (ids : list string) (m : gmap string GameConfiguration.t)
    (g : string) :
  foldl (λ m config,
           match config with
           | Some c => <[GameConfiguration.id c := c]> m
           | None => m
           end) m (byId <$> ids) !! g
  = match (if decide (g ∈ ids) then byId g else None) with
    | Some c => Some c
    | None => m !! g
    end.
Proof.
  revert m. induction ids as [|i ids IH]; intros m.
  - destruct (decide (g ∈ [])) as [Hin|_]; [by apply elem_of_nil in Hin|done].
  - rewrite fmap_cons. cbn [foldl]. rewrite IH.
    destruct (decide (g ∈ ids)) as [Hin|Hnin].
    + rewrite decide_True by (by right).
      destruct (byId g) as [c|] eqn:Hg; [done|].
      destruct (byId i) as [ci|] eqn:Hi; [|done].
      rewrite lookup_insert_ne; [done|].
      intros Heq. pose proof (byId_id _ _ Hi). congruence.
    + destruct (decide (g = i)) as [->|Hne].
      * rewrite decide_True by left.
        destruct (byId i) as [ci|] eqn:Hi; [|done].
        by rewrite (byId_id _ _ Hi), lookup_insert_eq.
      * rewrite decide_False by (intros [->|?]%elem_of_cons; done).
        destruct (byId i) as [ci|] eqn:Hi; [|done].
        rewrite lookup_insert_ne; [done|].
        intros Heq. pose proof (byId_id _ _ Hi). congruence.
Qed.

End config_map.

(** X15. When the record source answers a request for a configuration id
    with a configuration of that id, the schedule table shows, for every
    fetched schedule record, the configuration fetched for the record's
    [gameId], and none for a record without [gameId] or with an id the source
    does not know. *)
Theorem schedule_rows_joined_with_configurations
    (ORG_ID : string) (fetchAPI : FetchAPI.t)
    (game_configuration : Params → list GameConfiguration.t)
    (gameId : TournamentSchedule.t → option string)
    (Date_getTime : string → option Z) (tournamentId : string)
    (st : TournamentScheduleTable.State) (schedule : TournamentSchedule.t) :
  (∀ g c, getGameConfigurationById game_configuration g = Some c →
          GameConfiguration.id c = g) →
  schedule ∈ PokerLeagueAPI.getTournamentSchedule ORG_ID fetchAPI tournamentId →
  TournamentScheduleTable.rowConfig gameId
    (TournamentScheduleTable.loadSchedule ORG_ID fetchAPI game_configuration
       gameId Date_getTime tournamentId st) schedule
  = match gameId schedule with
    | Some g => if JS.truthy_str g
                then getGameConfigurationById game_configuration g
                else None
    | None => None
    end.
Proof.
  intros Hid Hin. unfold TournamentScheduleTable.rowConfig. simpl.
  destruct (gameId schedule) as [g|] eqn:Hg; [|done].
  destruct (JS.truthy_str g) eqn:Htruthy; [|done].
  unfold TournamentScheduleTable.configMap.
  rewrite (configMap_foldl_lookup _ Hid), lookup_empty.
  rewrite decide_True; [by destruct (getGameConfigurationById _ g)|].
  unfold TournamentScheduleTable.uniqueGameIds.
  apply Set_values_elem_of, list_elem_of_omap. exists schedule.
  split; [done|]. rewrite Hg. simpl. by rewrite Htruthy.
Qed.

(** On the sample, S1 plays configuration C1, which the source knows. *)
Lemma schedule_rows_joined_with_configurations_witness :
  GameConfiguration.name
    <$> TournamentScheduleTable.rowConfig SampleScreens.gameId
          (TournamentScheduleTable.loadSchedule Sample.ORG_ID Sample.fetchAPI
             SampleScreens.game_configuration SampleScreens.gameId
             Sample.Date_getTime "T1" TournamentScheduleTable.initialState)
          Sample.schedule1
  = Some "Texas Hold'em".
Proof.
  rewrite (schedule_rows_joined_with_configurations Sample.ORG_ID Sample.fetchAPI
             SampleScreens.game_configuration SampleScreens.gameId
             Sample.Date_getTime "T1" TournamentScheduleTable.initialState
             Sample.schedule1).
  - reflexivity.
  - intros g c. unfold getGameConfigurationById, SampleScreens.game_configuration.
    case_decide as Hg; [|done]. intros [= <-]. injection Hg as Hg.
    destruct g as [|a [|b [|c' [|? ?]]]]; cbv in Hg; by simplify_eq.
  - vm_compute. left.
Defined.

(** ** The statistics screen *)

Lemma Math_min_spec (p : Z) (ps : list Z) :
  PlayerStatsScreen.Math_min p ps ∈ p :: ps
  ∧ ∀ q, q ∈ p :: ps → PlayerStatsScreen.Math_min p ps ≤ q.
Proof.
  unfold PlayerStatsScreen.Math_min. revert p.
  induction ps as [|r ps IH]; intros p; simpl.
  - split; [left|]. intros q ->%list_elem_of_singleton. done.
  - destruct (IH (Z.min p r)) as [Hin Hle]. split.
    + apply elem_of_cons in Hin as [->|Hin].
      * destruct (Z.min_spec p r) as [[_ ->]|[_ ->]]; [left|right; left].
      * by do 2 right.
    + intros q [->|[->|Hq]%elem_of_cons]%elem_of_cons.
      * specialize (Hle (Z.min p r) ltac:(left)). lia.
      * specialize (Hle (Z.min p r) ltac:(left)). lia.
      * apply Hle. by right.
Qed.

Lemma Math_max_spec (p : Z) (ps : list Z) :
  PlayerStatsScreen.Math_max p ps ∈ p :: ps
  ∧ ∀ q, q ∈ p :: ps → q ≤ PlayerStatsScreen.Math_max p ps.
Proof.
  unfold PlayerStatsScreen.Math_max. revert p.
  induction ps as [|r ps IH]; intros p; simpl.
  - split; [left|]. intros q ->%list_elem_of_singleton. done.
  - destruct (IH (Z.max p r)) as [Hin Hle]. split.
    + apply elem_of_cons in Hin as [->|Hin].
      * destruct (Z.max_spec p r) as [[_ ->]|[_ ->]]; [right; left|left].
      * by do 2 right.
    + intros q [->|[->|Hq]%elem_of_cons]%elem_of_cons.
      * specialize (Hle (Z.max p r) ltac:(left)). lia.
      * specialize (Hle (Z.max p r) ltac:(left)). lia.
      * apply Hle. by right.
Qed.

Lemma minOrZero_spec (l : list Z) :
  l ≠ [] →
  PlayerStatsScreen.minOrZero l ∈ l ∧ ∀ q, q ∈ l → PlayerStatsScreen.minOrZero l ≤ q.
Proof. destruct l as [|p ps]; [done|]. intros _. apply Math_min_spec. Qed.

Lemma maxOrZero_spec (l : list Z) :
  l ≠ [] →
  PlayerStatsScreen.maxOrZero l ∈ l ∧ ∀ q, q ∈ l → q ≤ PlayerStatsScreen.maxOrZero l.
Proof. destruct l as [|p ps]; [done|]. intros _. apply Math_max_spec. Qed.

Lemma truthy_opt_Some (v : option Z) :
  JS.truthy_opt v ↔ ∃ p, v = Some p ∧ p ≠ 0.
Proof.
  destruct v as [p|]; simpl.
  - unfold JS.truthy. destruct (Z.eqb_spec p 0); simpl.
    + split; [done|]. intros (q & [= <-] & ?). done.
    + split; [|done]. intros _. by exists p.
  - split; [done|]. by intros (p & [= ] & _).
Qed.

Lemma positionsOf_elem_of (history : list GameHistoryRow.t) (p : Z) :
  p ∈ PlayerStatsScreen.positionsOf history
  ↔ p ≠ 0 ∧ ∃ g, g ∈ history ∧ GameHistoryRow.position g = Some p.
Proof.
  unfold PlayerStatsScreen.positionsOf. rewrite list_elem_of_fmap. split.
  - intros (g & -> & [Hg Hin]%list_elem_of_filter).
    apply truthy_opt_Some in Hg as (q & Hq & Hne). rewrite Hq. simpl. eauto.
  - intros (Hne & g & Hin & Hg). exists g. split; [by rewrite Hg|].
    apply list_elem_of_filter. split; [|done]. apply truthy_opt_Some. eauto.
Qed.

Lemma positionsOf_app (h1 h2 : list GameHistoryRow.t) :
  PlayerStatsScreen.positionsOf (h1 ++ h2)
  = (PlayerStatsScreen.positionsOf h1 ++ PlayerStatsScreen.positionsOf h2)%list.
Proof. unfold PlayerStatsScreen.positionsOf. by rewrite filter_app, fmap_app. Qed.

(** Where every row has a position, none is left out of the positions. *)
Lemma positionsOf_all_placed (history : list GameHistoryRow.t) :
  (∀ g, g ∈ history → JS.truthy_opt (GameHistoryRow.position g)) →
  Some <$> PlayerStatsScreen.positionsOf history = GameHistoryRow.position <$> history.
Proof.
  unfold PlayerStatsScreen.positionsOf.
  induction history as [|g history IH]; intros Hall; [done|].
  pose proof (Hall g ltac:(left)) as Hg.
  rewrite filter_cons_True, !fmap_cons, IH by (done || (intros; apply Hall; by right)).
  apply truthy_opt_Some in Hg as (p & -> & _). done.
Qed.

Section statistics.
Variable ORG_ID : string.
Variable fetchAPI : FetchAPI.t.
Variable Date_getTime : string → option Z.
Variable counters : LivePlayer.t → RowCounters.t.
Variable player : Player.t.

Lemma gameHistoryOf_spec
    (livePlayers : list LivePlayer.t) (liveGames : list LiveGame.t)
    (schedules : list TournamentSchedule.t) :
  let gm := gameMap liveGames in
  let sm := scheduleMap schedules in
  let rows := filter (λ lp, LivePlayer.playerId lp = Player.id player) livePlayers in
  let history :=
    PlayerStatsScreen.gameHistoryOf Date_getTime counters player
      livePlayers liveGames schedules in
  let kept :=
    PlayerStatsScreen.historyRow counters gm sm
      <$> filter (λ pg, JS.truthy_ostr (linkedDate gm sm pg)
                        ∧ JS.truthy_opt (LivePlayer.placed pg)) rows in
  history = JS.Array_sort (PlayerStatsScreen.byDate Date_getTime) kept
  ∧ history ≡ₚ kept
  ∧ ∀ h, h ∈ history →
         GameHistoryRow.gameDate h ≠ ""
         ∧ JS.truthy_opt (GameHistoryRow.position h).
Proof.
  intros gm sm rows history kept.
  assert (history = JS.Array_sort (PlayerStatsScreen.byDate Date_getTime) kept) as Heq.
  { unfold history, PlayerStatsScreen.gameHistoryOf, kept. fold gm sm rows. f_equal.
    rewrite filter_fmap_comm. f_equal. apply list_filter_iff. intros pg.
    simpl. rewrite truthy_str_or_str, andb_True. done. }
  split; [done|]. rewrite Heq. split; [apply Array_sort_Permutation|].
  intros h Hh%Array_sort_elem_of.
  apply list_elem_of_fmap in Hh as (pg & -> & [[Hdate Hpos] _]%list_elem_of_filter).
  simpl. split; [|done].
  unfold linkedDate in Hdate.
  destruct (_ ≫= TournamentSchedule.date) as [[|a d]|]; done.
Qed.

End statistics.

(** X16. The game history the statistics screen builds for a tournament
    holds the rows of the player that have both a dated schedule and a
    finishing position, and nothing else: every entry has a date and a
    non-zero position, so the positions taken from it are the positions of
    all its entries; and, the dates being parsable, it is in ascending order
    of date. *)
Theorem statistics_history_dated_and_placed
    (Date_getTime : string → option Z) (counters : LivePlayer.t → RowCounters.t)
    (player : Player.t) (livePlayers : list LivePlayer.t)
    (liveGames : list LiveGame.t) (schedules : list TournamentSchedule.t) :
  let gm := gameMap liveGames in
  let sm := scheduleMap schedules in
  let rows := filter (λ lp, LivePlayer.playerId lp = Player.id player) livePlayers in
  let history :=
    PlayerStatsScreen.gameHistoryOf Date_getTime counters player
      livePlayers liveGames schedules in
  history
  ≡ₚ PlayerStatsScreen.historyRow counters gm sm
       <$> filter (λ pg, JS.truthy_ostr (linkedDate gm sm pg)
                         ∧ JS.truthy_opt (LivePlayer.placed pg)) rows
  ∧ (∀ h, h ∈ history →
          GameHistoryRow.gameDate h ≠ ""
          ∧ ∃ p, GameHistoryRow.position h = Some p ∧ p ≠ 0)
  ∧ Some <$> PlayerStatsScreen.positionsOf history = GameHistoryRow.position <$> history
  ∧ ((∀ h, h ∈ history → is_Some (Date_getTime (GameHistoryRow.gameDate h))) →
     StronglySorted
       (λ a b, ∃ ta tb, Date_getTime (GameHistoryRow.gameDate a) = Some ta
                        ∧ Date_getTime (GameHistoryRow.gameDate b) = Some tb
                        ∧ ta ≤ tb)
       history).
Proof.
  intros gm sm rows history.
  destruct (gameHistoryOf_spec Date_getTime counters player livePlayers liveGames
              schedules) as (Heq & Hperm & Helem).
  fold gm sm rows history in Heq, Hperm, Helem.
  split; [done|]. split.
  { intros h [Hd Hp]%Helem. split; [done|]. by apply truthy_opt_Some. }
  split.
  { apply positionsOf_all_placed. intros h Hh. by apply Helem. }
  intros Hvalid. rewrite Heq.
  apply (Array_sort_by_time (λ h, Date_getTime (GameHistoryRow.gameDate h))).
  intros h Hh. apply Hvalid. rewrite Heq. by apply Array_sort_elem_of.
Qed.

Section statistics_of_player.
Variable ORG_ID : string.
Variable fetchAPI : FetchAPI.t.
Variable Date_getTime : string → option Z.
Variable counters : LivePlayer.t → RowCounters.t.
Variable player : Player.t.

(** What [tournamentStats] returns when the player has a standing. *)
Lemma tournamentStats_Some (tournament : Tournament.t) (s : TournamentPlayerStats.t) :
  PlayerStatsScreen.tournamentStats ORG_ID fetchAPI Date_getTime counters player
    tournament = Some s →
  ∃ tp,
    List.find (λ tp, bool_decide (TournamentPlayer.playerId tp = Player.id player))
              (PokerLeagueAPI.getTournamentPlayers fetchAPI (Tournament.id tournament))
    = Some tp
    ∧ TournamentPlayerStats.tournament s = tournament
    ∧ TournamentPlayerStats.gamesPlayed s
      = JS.or_num (TournamentPlayer.gamesPlayed tp) 0
    ∧ TournamentPlayerStats.totalPoints s
      = JS.or_num (TournamentPlayer.totalPoints tp) 0
    ∧ TournamentPlayerStats.totalWinnings s
      = JS.or_num (TournamentPlayer.earnings tp) 0
    ∧ TournamentPlayerStats.totalKnockouts s
      = JS.or_num (TournamentPlayer.totalEliminated tp) 0
    ∧ TournamentPlayerStats.totalBounties s
      = JS.or_num (TournamentPlayer.totalBounties tp) 0
    ∧ TournamentPlayerStats.averagePoints s = Leaderboard.averagePointsOf tp
    ∧ TournamentPlayerStats.gameHistory s
      = PlayerStatsScreen.gameHistoryOf Date_getTime counters player
          (PokerLeagueAPI.getLivePlayers fetchAPI (Tournament.id tournament))
          (PokerLeagueAPI.getLiveGames fetchAPI (Tournament.id tournament))
          (PokerLeagueAPI.getTournamentSchedule ORG_ID fetchAPI (Tournament.id tournament))
    ∧ TournamentPlayerStats.bestPosition s
      = PlayerStatsScreen.minOrZero
          (PlayerStatsScreen.positionsOf (TournamentPlayerStats.gameHistory s)).
Proof.
  unfold PlayerStatsScreen.tournamentStats.
  destruct (List.find _ _) as [tp|]; [|done].
  intros [= <-]. exists tp. simpl. done.
Qed.

(** In the history of a tournament's statistics every entry is placed. *)
Lemma tournamentStats_placed (tournament : Tournament.t) (s : TournamentPlayerStats.t) :
  PlayerStatsScreen.tournamentStats ORG_ID fetchAPI Date_getTime counters player
    tournament = Some s →
  ∀ h, h ∈ TournamentPlayerStats.gameHistory s →
       JS.truthy_opt (GameHistoryRow.position h).
Proof.
  intros (tp & _ & _ & _ & _ & _ & _ & _ & _ & Hh & _)%tournamentStats_Some h.
  rewrite Hh. intros Hin.
  by apply (gameHistoryOf_spec Date_getTime counters player) in Hin as [_ ?].
Qed.

End statistics_of_player.

Lemma positionsOf_nil_iff (history : list GameHistoryRow.t) :
  (∀ h, h ∈ history → JS.truthy_opt (GameHistoryRow.position h)) →
  PlayerStatsScreen.positionsOf history = [] ↔ history = [].
Proof.
  intros Hall. pose proof (positionsOf_all_placed history Hall) as Heq.
  split; [|by intros ->].
  intros Hnil. rewrite Hnil in Heq. symmetry in Heq.
  by apply fmap_nil_inv in Heq.
Qed.

(** X17. The best position of a tournament's statistics is the smallest
    finishing position of the tournament's game history: the position of one
    of its entries, below or equal to the position of every entry, and never
    0; it is 0 exactly when the history is empty. *)
Theorem tournament_best_position_is_minimum
    (ORG_ID : string) (fetchAPI : FetchAPI.t) (Date_getTime : string → option Z)
    (counters : LivePlayer.t → RowCounters.t) (player : Player.t)
    (tournament : Tournament.t) (s : TournamentPlayerStats.t) :
  PlayerStatsScreen.tournamentStats ORG_ID fetchAPI Date_getTime counters player
    tournament = Some s →
  (TournamentPlayerStats.gameHistory s = [] → TournamentPlayerStats.bestPosition s = 0)
  ∧ (TournamentPlayerStats.gameHistory s ≠ [] →
     TournamentPlayerStats.bestPosition s ≠ 0
     ∧ (∃ h, h ∈ TournamentPlayerStats.gameHistory s
             ∧ GameHistoryRow.position h = Some (TournamentPlayerStats.bestPosition s))
     ∧ ∀ h p, h ∈ TournamentPlayerStats.gameHistory s →
              GameHistoryRow.position h = Some p →
              TournamentPlayerStats.bestPosition s ≤ p).
Proof.
  intros Hs.
  pose proof (tournamentStats_placed _ _ _ _ _ _ _ Hs) as Hplaced.
  apply tournamentStats_Some in Hs as (tp & _ & _ & _ & _ & _ & _ & _ & _ & _ & ->).
  split; [by intros ->|]. intros Hne.
  assert (PlayerStatsScreen.positionsOf (TournamentPlayerStats.gameHistory s) ≠ [])
    as Hpos by (by rewrite positionsOf_nil_iff).
  destruct (minOrZero_spec _ Hpos) as [Hin Hmin].
  apply positionsOf_elem_of in Hin as (Hnz & h & Hh & Hp).
  split; [done|]. split; [by exists h|].
  intros h' p Hh' Hp'. apply Hmin, positionsOf_elem_of. split; [|by exists h'].
  pose proof (Hplaced h' Hh') as (q & Hq & Hqne)%truthy_opt_Some. congruence.
Qed.

(** On the sample, p1 finished first, second and third in the dated games
    of T1. *)
Lemma tournament_best_position_is_minimum_witness :
  TournamentPlayerStats.bestPosition
    <$> PlayerStatsScreen.tournamentStats Sample.ORG_ID Sample.fetchAPI
          Sample.Date_getTime SampleScreens.counters SampleScreens.alice
          SampleScreens.tournament1
  = Some 1
  ∧ ∃ s, PlayerStatsScreen.tournamentStats Sample.ORG_ID Sample.fetchAPI
           Sample.Date_getTime SampleScreens.counters SampleScreens.alice
           SampleScreens.tournament1 = Some s
         ∧ TournamentPlayerStats.bestPosition s ≠ 0.
Proof.
  split; [reflexivity|].
  destruct (PlayerStatsScreen.tournamentStats Sample.ORG_ID Sample.fetchAPI
              Sample.Date_getTime SampleScreens.counters SampleScreens.alice
              SampleScreens.tournament1) as [s|] eqn:Hs; [|by vm_compute in Hs].
  exists s. split; [done|].
  refine (proj1 (proj2 (tournament_best_position_is_minimum
                          Sample.ORG_ID Sample.fetchAPI Sample.Date_getTime
                          SampleScreens.counters SampleScreens.alice
                          SampleScreens.tournament1 s Hs) _)).
  vm_compute in Hs. by injection Hs as <-.
Defined.

Lemma positionsOf_bind_elem_of (details : list TournamentPlayerStats.t) (p : Z) :
  p ∈ PlayerStatsScreen.positionsOf (details ≫= TournamentPlayerStats.gameHistory)
  ↔ ∃ t, t ∈ details
         ∧ p ∈ PlayerStatsScreen.positionsOf (TournamentPlayerStats.gameHistory t).
Proof.
  split.
  - intros (Hne & g & Hin & Hg)%positionsOf_elem_of.
    apply list_elem_of_bind in Hin as (t & Hg' & Ht). exists t. split; [done|].
    apply positionsOf_elem_of. eauto.
  - intros (t & Ht & (Hne & g & Hg & Hp)%positionsOf_elem_of).
    apply positionsOf_elem_of. split; [done|]. exists g. split; [|done].
    apply list_elem_of_bind. eauto.
Qed.

Lemma reduce_sum_bounds (l : list Z) (lo hi : Z) :
  (∀ p, p ∈ l → lo ≤ p ≤ hi) →
  Z.of_nat (length l) * lo ≤ JS.reduce_sum (λ p, p) l ≤ Z.of_nat (length l) * hi.
Proof.
  induction l as [|q l IH]; intros Hb; [done|].
  rewrite reduce_sum_cons. cbn [length].
  pose proof (Hb q ltac:(left)).
  assert (∀ p, p ∈ l → lo ≤ p ≤ hi) as Hl by (intros p Hp; apply Hb; by right).
  pose proof (IH Hl). lia.
Qed.

(** X18. The best, worst and average position over all tournaments are taken
    from the positions of all tournament histories pooled together: with no
    position at all the three are 0; otherwise the best and the worst are
    the smallest and the largest pooled position, the average is their sum
    over their number and lies between the best and the worst, and the best
    of every tournament with a history lies between the overall best and
    worst. *)
Theorem overall_positions_pooled
    (ORG_ID : string) (fetchAPI : FetchAPI.t) (Date_getTime : string → option Z)
    (counters : LivePlayer.t → RowCounters.t) (player : Player.t) :
  let S :=
    PlayerStatsScreen.statisticsOf ORG_ID fetchAPI Date_getTime counters player in
  let pooled :=
    PlayerStatsScreen.positionsOf
      (PlayerStatistics.tournamentDetails S ≫= TournamentPlayerStats.gameHistory) in
  (pooled = [] →
   PlayerStatistics.bestPosition S = 0 ∧ PlayerStatistics.worstPosition S = 0
   ∧ PlayerStatistics.averagePosition S = 0%Q)
  ∧ (pooled ≠ [] →
     PlayerStatistics.bestPosition S ∈ pooled
     ∧ PlayerStatistics.worstPosition S ∈ pooled
     ∧ (∀ p, p ∈ pooled →
             PlayerStatistics.bestPosition S ≤ p ≤ PlayerStatistics.worstPosition S)
     ∧ (PlayerStatistics.averagePosition S * inject_Z (Z.of_nat (length pooled))
        == inject_Z (JS.reduce_sum (λ p, p) pooled))%Q
     ∧ (inject_Z (PlayerStatistics.bestPosition S)
        <= PlayerStatistics.averagePosition S)%Q
     ∧ (PlayerStatistics.averagePosition S
        <= inject_Z (PlayerStatistics.worstPosition S))%Q)
  ∧ (∀ t, t ∈ PlayerStatistics.tournamentDetails S →
          TournamentPlayerStats.gameHistory t ≠ [] →
          PlayerStatistics.bestPosition S ≤ TournamentPlayerStats.bestPosition t
          ≤ PlayerStatistics.worstPosition S).
Proof.
  intros S pooled.
  assert (PlayerStatistics.bestPosition S = PlayerStatsScreen.minOrZero pooled)
    as Hbest by reflexivity.
  assert (PlayerStatistics.worstPosition S = PlayerStatsScreen.maxOrZero pooled)
    as Hworst by reflexivity.
  assert (PlayerStatistics.averagePosition S
          = if (0 <? length pooled)%nat
            then (inject_Z (JS.reduce_sum (λ p, p) pooled)
                  / inject_Z (Z.of_nat (length pooled)))%Q
            else 0%Q) as Havg by reflexivity.
  rewrite Hbest, Hworst, Havg.
  assert (pooled ≠ [] →
          PlayerStatsScreen.minOrZero pooled ∈ pooled
          ∧ PlayerStatsScreen.maxOrZero pooled ∈ pooled
          ∧ ∀ p, p ∈ pooled →
                 PlayerStatsScreen.minOrZero pooled ≤ p
                 ≤ PlayerStatsScreen.maxOrZero pooled) as Hbounds.
  { intros Hne. destruct (minOrZero_spec _ Hne) as [Hmin Hle].
    destruct (maxOrZero_spec _ Hne) as [Hmax Hge].
    split; [done|]. split; [done|]. intros p Hp. split; [by apply Hle|by apply Hge]. }
  split; [|split].
  - intros Hnil. clearbody pooled. subst pooled. done.
  - intros Hne. destruct (Hbounds Hne) as (Hmin & Hmax & Hle).
    split; [done|]. split; [done|]. split; [done|].
    assert (0 < Z.of_nat (length pooled)) as Hlen
      by (destruct pooled; [done|simpl; lia]).
    assert ((0 <? length pooled)%nat = true) as -> by (apply Nat.ltb_lt; lia).
    assert (0 < inject_Z (Z.of_nat (length pooled)))%Q as HlenQ
      by (rewrite <-(Zlt_Qlt 0); done).
    destruct (reduce_sum_bounds pooled _ _ Hle) as [Hlo Hhi].
    split; [|split].
    + rewrite Qmult_comm. apply Qmult_div_r.
      intros Hz. rewrite Hz in HlenQ. by apply Qlt_irrefl in HlenQ.
    + apply Qle_shift_div_l; [done|].
      rewrite <-inject_Z_mult, <-Zle_Qle. lia.
    + apply Qle_shift_div_r; [done|].
      rewrite <-inject_Z_mult, <-Zle_Qle. lia.
  - intros t Ht Hhist.
    apply list_elem_of_omap in Ht as (tournament & Htournament & Hs).
    pose proof (tournamentStats_placed _ _ _ _ _ _ _ Hs) as Hplaced.
    pose proof Hs as Hs'.
    apply tournamentStats_Some in Hs as (tp & _ & _ & _ & _ & _ & _ & _ & _ & _ & Hb).
    assert (PlayerStatsScreen.positionsOf (TournamentPlayerStats.gameHistory t) ≠ [])
      as Hpos by (by rewrite positionsOf_nil_iff).
    destruct (minOrZero_spec _ Hpos) as [Hin _]. rewrite <-Hb in Hin.
    assert (TournamentPlayerStats.bestPosition t ∈ pooled) as Hpooled.
    { apply positionsOf_bind_elem_of. exists t. split; [|done].
      apply list_elem_of_omap. by exists tournament. }
    assert (pooled ≠ []) as Hne by (intros Hnil; rewrite Hnil in Hpooled;
                                    by apply elem_of_nil in Hpooled).
    destruct (Hbounds Hne) as (_ & _ & Hle). by apply Hle.
Qed.

(** On the sample, p1 finished second, third and first in the dated games:
    best 1, worst 3, average 2; the totals are those of the standing. *)
Example statistics_sample :
  (λ S, (PlayerStatistics.bestPosition S, PlayerStatistics.worstPosition S,
         PlayerStatistics.totalGamesPlayed S, PlayerStatistics.totalPoints S,
         PlayerStatistics.tournamentsParticipated S))
    (PlayerStatsScreen.statisticsOf Sample.ORG_ID Sample.fetchAPI
       Sample.Date_getTime SampleScreens.counters SampleScreens.alice)
  = (1, 3, 12, 480, 1)
  ∧ (PlayerStatistics.averagePosition
       (PlayerStatsScreen.statisticsOf Sample.ORG_ID Sample.fetchAPI
          Sample.Date_getTime SampleScreens.counters SampleScreens.alice)
     == 2)%Q.
Proof. split; reflexivity. Qed.

Lemma omap_None_nil {A B : Type} (f : A → option B) (l : list A) :
  (∀ x, x ∈ l → f x = None) → omap f l = [].
Proof.
  induction l as [|x l IH]; intros Hnone; [done|].
  simpl. rewrite (Hnone x) by left. apply IH. intros y Hy. apply Hnone. by right.
Qed.

(** X19. A player without a standing in any tournament of the organization
    is given statistics without tournament details, with every total, every
    average and the best and worst position at 0. *)
Theorem statistics_of_player_without_standing
    (ORG_ID : string) (fetchAPI : FetchAPI.t) (Date_getTime : string → option Z)
    (counters : LivePlayer.t → RowCounters.t) (player : Player.t) :
  (∀ t tp, t ∈ PokerLeagueAPI.getTournaments ORG_ID fetchAPI →
           tp ∈ PokerLeagueAPI.getTournamentPlayers fetchAPI (Tournament.id t) →
           TournamentPlayer.playerId tp ≠ Player.id player) →
  PlayerStatsScreen.statisticsOf ORG_ID fetchAPI Date_getTime counters player
  = PlayerStatistics.mk player 0 0 0 0 0 0%Q 0%Q 0 0 0 [].
Proof.
  intros Hnone. unfold PlayerStatsScreen.statisticsOf.
  rewrite (omap_None_nil _ (PokerLeagueAPI.getTournaments ORG_ID fetchAPI)); [done|].
  intros t Ht. unfold PlayerStatsScreen.tournamentStats.
  rewrite (proj2 (find_none_iff _ _)); [done|].
  intros tp Htp. apply bool_decide_eq_false. by apply (Hnone t).
Qed.

(** On the sample, p7 is in no standing. *)
Lemma statistics_of_player_without_standing_witness :
  PlayerStatsScreen.statisticsOf Sample.ORG_ID Sample.fetchAPI
    Sample.Date_getTime SampleScreens.counters SampleScreens.dora
  = PlayerStatistics.mk SampleScreens.dora 0 0 0 0 0 0%Q 0%Q 0 0 0 [].
Proof.
  apply statistics_of_player_without_standing.
  intros t tp _ Htp. vm_compute in Htp.
  repeat (apply elem_of_cons in Htp as [->|Htp]; [by intros [= ]|]).
  by apply elem_of_nil in Htp.
Defined.

Lemma find_is_Some_Exists {A : Type} (P : A → Prop) `{!∀ x, Decision (P x)}
    (l : list A) :
  is_Some (List.find (λ x, bool_decide (P x)) l) ↔ Exists P l.
Proof.
  induction l as [|x l IH]; simpl.
  - split; [by intros [? ?]|by intros ?%Exists_nil].
  - rewrite Exists_cons. destruct (decide (P x)) as [HP|HP].
    + rewrite bool_decide_true by done. split; [by left|by eexists].
    + rewrite bool_decide_false by done. rewrite IH. tauto.
Qed.

Lemma omap_tournamentStats_tournament
    (ORG_ID : string) (fetchAPI : FetchAPI.t) (Date_getTime : string → option Z)
    (counters : LivePlayer.t → RowCounters.t) (player : Player.t)
    (l : list Tournament.t) :
  TournamentPlayerStats.tournament
    <$> omap (PlayerStatsScreen.tournamentStats ORG_ID fetchAPI Date_getTime
                counters player) l
  = filter (λ t, Exists (λ tp, TournamentPlayer.playerId tp = Player.id player)
                        (PokerLeagueAPI.getTournamentPlayers fetchAPI (Tournament.id t)))
           l.
Proof.
  induction l as [|t l IH]; [done|].
  rewrite filter_cons. cbn [omap list_omap].
  destruct (PlayerStatsScreen.tournamentStats _ _ _ _ _ t) as [s|] eqn:Hs.
  - pose proof Hs as (tp & Hfind & Ht & _)%tournamentStats_Some.
    rewrite decide_True.
    + rewrite fmap_cons, Ht. by f_equal.
    + apply (find_is_Some_Exists
               (λ tp, TournamentPlayer.playerId tp = Player.id player)).
      by eexists.
  - rewrite decide_False; [done|].
    intros [tp Hfind]%(find_is_Some_Exists
                         (λ tp, TournamentPlayer.playerId tp = Player.id player)).
    unfold PlayerStatsScreen.tournamentStats in Hs. by rewrite Hfind in Hs.
Qed.

(** X20. The statistics of a player have one tournament detail for each
    tournament of the organization in which the player has a standing, in the
    order of the tournaments; each detail takes its counters from the first
    standing of the player in its tournament, a missing counter counting as
    0, whatever games the history resolves; and the overall totals are the
    sums of these counters over the details. *)
Theorem statistics_totals_over_participated_tournaments
    (ORG_ID : string) (fetchAPI : FetchAPI.t) (Date_getTime : string → option Z)
    (counters : LivePlayer.t → RowCounters.t) (player : Player.t) :
  let S :=
    PlayerStatsScreen.statisticsOf ORG_ID fetchAPI Date_getTime counters player in
  let details := PlayerStatistics.tournamentDetails S in
  let participated :=
    filter (λ t, Exists (λ tp, TournamentPlayer.playerId tp = Player.id player)
                        (PokerLeagueAPI.getTournamentPlayers fetchAPI (Tournament.id t)))
           (PokerLeagueAPI.getTournaments ORG_ID fetchAPI) in
  TournamentPlayerStats.tournament <$> details = participated
  ∧ PlayerStatistics.tournamentsParticipated S = Z.of_nat (length participated)
  ∧ (∀ d, d ∈ details →
       ∃ (before after : list TournamentPlayer.t) tp,
         PokerLeagueAPI.getTournamentPlayers fetchAPI
           (Tournament.id (TournamentPlayerStats.tournament d))
         = (before ++ tp :: after)%list
         ∧ TournamentPlayer.playerId tp = Player.id player
         ∧ (∀ x, x ∈ before → TournamentPlayer.playerId x ≠ Player.id player)
         ∧ TournamentPlayerStats.gamesPlayed d
           = JS.or_num (TournamentPlayer.gamesPlayed tp) 0
         ∧ TournamentPlayerStats.totalPoints d
           = JS.or_num (TournamentPlayer.totalPoints tp) 0
         ∧ TournamentPlayerStats.totalWinnings d
           = JS.or_num (TournamentPlayer.earnings tp) 0
         ∧ TournamentPlayerStats.totalKnockouts d
           = JS.or_num (TournamentPlayer.totalEliminated tp) 0
         ∧ TournamentPlayerStats.totalBounties d
           = JS.or_num (TournamentPlayer.totalBounties tp) 0)
  ∧ PlayerStatistics.totalGamesPlayed S
    = JS.reduce_sum TournamentPlayerStats.gamesPlayed details
  ∧ PlayerStatistics.totalPoints S
    = JS.reduce_sum TournamentPlayerStats.totalPoints details
  ∧ PlayerStatistics.totalWinnings S
    = JS.reduce_sum TournamentPlayerStats.totalWinnings details
  ∧ PlayerStatistics.totalKnockouts S
    = JS.reduce_sum TournamentPlayerStats.totalKnockouts details
  ∧ PlayerStatistics.totalBounties S
    = JS.reduce_sum TournamentPlayerStats.totalBounties details.
Proof.
  intros S details participated.
  assert (TournamentPlayerStats.tournament <$> details = participated) as Hpart
    by apply omap_tournamentStats_tournament.
  split; [done|]. split.
  { rewrite <-Hpart, length_fmap. done. }
  split; [|done].
  intros d (t & _ & Hs)%list_elem_of_omap.
  apply tournamentStats_Some in Hs
    as (tp & Hfind & Ht & Hg & Hp & Hw & Hk & Hb & _).
  apply find_first in Hfind as (before & after & Hl & Htp & Hbefore).
  exists before, after, tp. rewrite Ht.
  split; [done|]. split; [by apply bool_decide_eq_true in Htp|].
  split; [|done]. intros x Hx. specialize (Hbefore x Hx).
  by apply bool_decide_eq_false in Hbefore.
Qed.

(** ** Rows without a finishing position *)

(** X21. A dated participation row of the player that has no finishing
    position (none, or 0) is an entry of the history the player modal shows,
    with that position, 0 points and, when the position is missing, no
    prize; the history of the statistics screen has no such entry. *)
Theorem unplaced_row_kept_in_player_history
    (Date_getTime : string → option Z) (player : LeaderboardEntry.t)
    (pointLevels : list PointLevel.t) (livePlayers : list LivePlayer.t)
    (liveGames : list LiveGame.t) (schedules : list TournamentSchedule.t)
    (livePrizes : list LivePrize.t) (pg : LivePlayer.t) :
  pg ∈ livePlayers →
  LivePlayer.playerId pg = LeaderboardEntry.playerId player →
  JS.truthy_ostr (linkedDate (gameMap liveGames) (scheduleMap schedules) pg) →
  ¬ JS.truthy_opt (LivePlayer.placed pg) →
  let h :=
    PlayerDetailModal.historyEntry (gameMap liveGames) (scheduleMap schedules)
      (pointLevelMap pointLevels) (prizeMap livePrizes) pg in
  h ∈ PlayerDetailModal.buildHistory Date_getTime player pointLevels livePlayers
        liveGames schedules livePrizes
  ∧ PlayerGameHistory.position h = LivePlayer.placed pg
  ∧ PlayerGameHistory.points h = Some 0
  ∧ (LivePlayer.placed pg = None → PlayerGameHistory.prizeMoney h = None)
  ∧ ∀ counters statsPlayer h',
      h' ∈ PlayerStatsScreen.gameHistoryOf Date_getTime counters statsPlayer
             livePlayers liveGames schedules →
      JS.truthy_opt (GameHistoryRow.position h').
Proof.
  intros Hin Hplayer Hdated Hunplaced h.
  destruct (buildHistory_spec Date_getTime player pointLevels livePlayers liveGames
              schedules livePrizes) as [Hperm _].
  split.
  { rewrite Hperm. apply list_elem_of_fmap. exists pg. split; [done|].
    apply list_elem_of_filter. split; [done|]. by apply list_elem_of_filter. }
  split; [done|]. split.
  { unfold h. simpl. unfold calculatedPoints.
    by destruct (JS.truthy_opt (LivePlayer.placed pg)). }
  split.
  { intros Hnone. unfold h. simpl. rewrite Hnone. apply prizeMap_lookup_undefined. }
  intros counters statsPlayer h' Hh'.
  by apply (gameHistoryOf_spec Date_getTime counters statsPlayer) in Hh' as [_ ?].
Qed.

(** On the sample, p9 sat in G1 of 15 January without a recorded position. *)
Lemma unplaced_row_kept_in_player_history_witness :
  PlayerDetailModal.buildHistory Sample.Date_getTime SampleScreens.unknownEntry
    Sample.pointLevels Sample.livePlayers Sample.liveGames Sample.schedules
    Sample.livePrizes
  = [PlayerGameHistory.mk "2024-01-15" (Some 2) None (Some 0) None]
  ∧ PlayerDetailModal.historyEntry (gameMap Sample.liveGames)
      (scheduleMap Sample.schedules) (pointLevelMap Sample.pointLevels)
      (prizeMap Sample.livePrizes) (LivePlayer.mk "r4" "T1" "G1" "p9" None)
    ∈ PlayerDetailModal.buildHistory Sample.Date_getTime SampleScreens.unknownEntry
        Sample.pointLevels Sample.livePlayers Sample.liveGames Sample.schedules
        Sample.livePrizes.
Proof.
  split; [reflexivity|].
  refine (proj1 (unplaced_row_kept_in_player_history Sample.Date_getTime
                   SampleScreens.unknownEntry Sample.pointLevels Sample.livePlayers
                   Sample.liveGames Sample.schedules Sample.livePrizes
                   (LivePlayer.mk "r4" "T1" "G1" "p9" None) _ eq_refl _ _)).
  - unfold Sample.livePlayers. do 3 right. left.
  - by vm_compute.
  - by vm_compute.
Defined.

(** ** The player count of a game *)

Lemma game_results_table_rows
    (ORG_ID : string) (fetchAPI : FetchAPI.t) (schedule : TournamentSchedule.t)
    (tournamentId : string) (st : GameResultsModal.State) (game : LiveGame.t) :
  GameResultsModal.findGame fetchAPI schedule tournamentId = Some game →
  ∃ pm plm pzm,
    GameResultsModal.results
      (GameResultsModal.loadGameResults ORG_ID fetchAPI schedule tournamentId st)
    ≡ₚ GameResultsModal.resultRow game pm plm pzm
         <$> filter recordedPosition
                    (filter (λ lp, LivePlayer.liveGameId lp = LiveGame.id game)
                            (PokerLeagueAPI.getLivePlayers fetchAPI tournamentId)).
Proof.
  intros Hfind. unfold GameResultsModal.loadGameResults. rewrite Hfind. simpl.
  unfold GameResultsModal.gameResultsOf. do 3 eexists.
  apply buildResults_spec.
Qed.

Lemma or_num_recorded_default (n d : Z) : n ≠ 0 → JS.or_num (Some n) d = n.
Proof. intros Hn. simpl. unfold JS.truthy. by destruct (Z.eqb_spec n 0). Qed.

(** X22. For a matched game the results modal shows as total players the
    game's own player count, or the number of fetched rows of the game when
    the game has no (or a zero) player count; the positions recorded never
    outnumber the rows of the game. *)
Theorem game_results_player_count
    (ORG_ID : string) (fetchAPI : FetchAPI.t) (schedule : TournamentSchedule.t)
    (tournamentId : string) (st : GameResultsModal.State) (game : LiveGame.t) :
  GameResultsModal.findGame fetchAPI schedule tournamentId = Some game →
  let st' :=
    GameResultsModal.loadGameResults ORG_ID fetchAPI schedule tournamentId st in
  let rows :=
    filter (λ lp, LivePlayer.liveGameId lp = LiveGame.id game)
           (PokerLeagueAPI.getLivePlayers fetchAPI tournamentId) in
  (length (GameResultsModal.results st') ≤ length rows)%nat
  ∧ (∀ n, LiveGame.numOfPlayers game = Some n → n ≠ 0 →
          GameResultsModal.totalPlayers st' = n)
  ∧ (LiveGame.numOfPlayers game = None ∨ LiveGame.numOfPlayers game = Some 0 →
     GameResultsModal.totalPlayers st' = Z.of_nat (length rows)
     ∧ Z.of_nat (length (GameResultsModal.results st'))
       ≤ GameResultsModal.totalPlayers st').
Proof.
  intros Hfind st' rows.
  assert (GameResultsModal.totalPlayers st'
          = JS.or_num (LiveGame.numOfPlayers game) (Z.of_nat (length rows))) as Htotal.
  { unfold st', GameResultsModal.loadGameResults. by rewrite Hfind. }
  assert (length (GameResultsModal.results st') ≤ length rows)%nat as Hlen.
  { destruct (game_results_table_rows ORG_ID fetchAPI schedule tournamentId st game
                Hfind) as [pm [plm [pzm Hperm]]].
    fold st' in Hperm. rewrite Hperm, length_fmap. apply length_filter. }
  split; [done|]. rewrite Htotal. split.
  - intros n -> Hn. by apply or_num_recorded_default.
  - intros [->| ->]; simpl; (split; [done|lia]).
Qed.

(** On the sample, G1 carries a player count of 4 and three of its six rows
    have a recorded position. *)
Lemma game_results_player_count_witness :
  GameResultsModal.totalPlayers (Sample.gameResults Sample.livePrizes) = 4
  ∧ (length (GameResultsModal.results (Sample.gameResults Sample.livePrizes))
     ≤ length (filter (λ lp, LivePlayer.liveGameId lp = "G1") Sample.livePlayers))%nat.
Proof.
  destruct (game_results_player_count Sample.ORG_ID Sample.fetchAPI
              Sample.schedule1 "T1" GameResultsModal.initialState
              (LiveGame.mk "G1" "T1" (Some "S1") (Some 4) (Some 500)) eq_refl)
    as (Hlen & Hcount & _).
  split; [|exact Hlen]. by apply (Hcount 4).
Defined.
